(** * GITGAME shared modules: performance governor and input engine

    A shallow embedding of [shared-performance.js] (class
    [SharedPerformanceManager]), of the shared input manager (class
    [SharedInputManager]) and of [shared-storage.js] (class
    [SharedStorageManager]), with the properties of their sample buffer,
    quality governor, key tracker, gesture classifier, callback dispatchers
    and stored entries.

    Conventions.
    - A JavaScript number is a [number]: NaN, the two infinities, or a finite
      double carried as the rational it denotes.  Sums, differences and
      quotients of numbers are rounded to the nearest double ([binary64]:
      53 bits, ties to even, overflow to an infinity); zero has no sign;
      comparisons follow IEEE 754: every comparison with NaN is false.
    - Values that the host hands in and that are finite by construction
      (timestamps, touch coordinates, thresholds) are doubles carried as
      rationals [Q].  The differences, squares and sums that the touch
      listeners take of them are rounded to the nearest double ([double])
      and are taken to stay in the range of doubles, as those of pixels and
      milliseconds do.
    - A function object is a [callback] reference; what it does when called
      is looked up in the host ([handlers]).  Callbacks act on a world of
      their own and may throw; they do not call back into the manager that
      dispatches them.
    - Methods that call out (callbacks, console, storage, CSS) live in the
      monad [M] of host effects with exceptions.
    - The storage manager works on [localStorage] and the console alone and
      passes them on as a [store].  A text in [localStorage] is known by what
      [JSON.parse] makes of it, and the values saved are those that
      [JSON.stringify] and [JSON.parse] carry over unchanged, or
      [undefined]. *)

From Stdlib Require Import QArith Qabs Qround Qpower Lqa ZArith Lia Ascii String.
From stdpp Require Import gmap strings list.

Local Open Scope Q_scope.

(** ** JavaScript numbers *)

Module JS.

Inductive number : Type :=
| NaN
| NegInfinity
| Finite (q : Q)
| PosInfinity.

Definition Qltb (x y : Q) : bool := negb (Qle_bool y x).

(** [a < b] *)
Definition lt (a b : number) : bool :=
  match a, b with
  | NaN, _ | _, NaN => false
  | _, NegInfinity => false
  | NegInfinity, _ => true
  | PosInfinity, _ => false
  | Finite _, PosInfinity => true
  | Finite x, Finite y => Qltb x y
  end.

(** [a > b] *)
Definition gt (a b : number) : bool := lt b a.

(** [a <= b] *)
Definition le (a b : number) : bool :=
  match a, b with
  | NaN, _ | _, NaN => false
  | NegInfinity, _ => true
  | _, PosInfinity => true
  | _, NegInfinity => false
  | PosInfinity, _ => false
  | Finite x, Finite y => Qle_bool x y
  end.

(** [a >= b] *)
Definition ge (a b : number) : bool := le b a.

(** [floor (log2 q)] of a positive rational. *)
Definition ilog2 (q : Q) : Z :=
  let l := (Z.log2 (Qnum q) - Z.log2 (Zpos (Qden q)))%Z in
  if Qle_bool (2 ^ l) q then l else (l - 1)%Z.

(** The nearest integer, a tie going to the even one. *)
Definition rne (q : Q) : Z :=
  let f := Qfloor q in
  match Qcompare (q - inject_Z f) (1 # 2) with
  | Lt => f
  | Gt => (f + 1)%Z
  | Eq => if Z.even f then f else (f + 1)%Z
  end.

(** The double nearest to a rational: 53 significant bits, a tie going to
    the even significand, exponents from -1074 on, and an infinity from
    2^1024 on.  The result is in lowest terms. *)
Definition binary64 (q : Q) : number :=
  if Qeq_bool q 0 then Finite 0 else
  let a := Qabs q in
  let e := Z.max (ilog2 a - 52) (-1074) in
  let r := inject_Z (rne (a / 2 ^ e)) * 2 ^ e in
  if Qle_bool (2 ^ 1024) r
  then (if Qltb q 0 then NegInfinity else PosInfinity)
  else Finite (Qred (if Qltb q 0 then - r else r)).

(** The double next to a rational in the range of doubles. *)
Definition double (q : Q) : Q :=
  match binary64 q with
  | Finite r => r
  | _ => q
  end.

(** The value of a decimal literal of the source: the nearest double. *)
Definition literal (q : Q) : Q := double q.

(** [a + b] *)
Definition add (a b : number) : number :=
  match a, b with
  | NaN, _ | _, NaN => NaN
  | PosInfinity, NegInfinity | NegInfinity, PosInfinity => NaN
  | PosInfinity, _ | _, PosInfinity => PosInfinity
  | NegInfinity, _ | _, NegInfinity => NegInfinity
  | Finite x, Finite y => binary64 (x + y)
  end.

(** [a - b] *)
Definition sub (a b : number) : number :=
  match a, b with
  | NaN, _ | _, NaN => NaN
  | PosInfinity, PosInfinity | NegInfinity, NegInfinity => NaN
  | PosInfinity, _ | _, NegInfinity => PosInfinity
  | NegInfinity, _ | _, PosInfinity => NegInfinity
  | Finite x, Finite y => binary64 (x - y)
  end.

(** [a / b].  A finite non-zero value over zero is an infinity, 0/0 and
    Infinity/Infinity are NaN. *)
Definition div (a b : number) : number :=
  match a, b with
  | NaN, _ | _, NaN => NaN
  | (PosInfinity | NegInfinity), (PosInfinity | NegInfinity) => NaN
  | PosInfinity, Finite y => if Qltb y 0 then NegInfinity else PosInfinity
  | NegInfinity, Finite y => if Qltb y 0 then PosInfinity else NegInfinity
  | Finite _, (PosInfinity | NegInfinity) => Finite 0
  | Finite x, Finite y =>
      if Qeq_bool y 0 then
        if Qeq_bool x 0 then NaN
        else if Qltb x 0 then NegInfinity else PosInfinity
      else binary64 (x / y)
  end.

(** [Math.round]: the nearest integer, halves towards +Infinity. *)
Definition round (a : number) : number :=
  match a with
  | Finite x => Finite (inject_Z (Qfloor (x + (1 # 2))))
  | _ => a
  end.

Definition of_nat (n : nat) : number := Finite (inject_Z (Z.of_nat n)).

(** The same number, up to the representation of the rational. *)
Definition same (a b : number) : Prop :=
  match a, b with
  | NaN, NaN | NegInfinity, NegInfinity | PosInfinity, PosInfinity => True
  | Finite x, Finite y => x == y
  | _, _ => False
  end.

(** [Array.prototype.push], [shift] and [reduce] on the arrays used here. *)
Definition push {A} (x : A) (arr : list A) : list A := arr ++ [x].
Definition shift {A} (arr : list A) : list A := tail arr.
Definition reduce {A B} (f : B -> A -> B) (init : B) (arr : list A) : B :=
  fold_left f arr init.

(** A [Set] of references iterates in insertion order and holds each element
    once. *)
Definition Set_add `{EqDecision A} (x : A) (s : list A) : list A :=
  if decide (x ∈ s) then s else s ++ [x].
Definition Set_delete `{EqDecision A} (x : A) (s : list A) : list A :=
  filter (λ y, y ≠ x) s.

(** [String.prototype.toLowerCase] lower-cases by the case mappings of
    Unicode, which are the host's and are not defined here: the methods that
    lower-case take the function as it is, and what is proved of them holds
    whatever it does. *)
Class Strings : Type := { toLowerCase : string -> string }.

(** On a string of ASCII characters, lower-casing lowers the letters A to Z
    and leaves the other characters as they are. *)
Definition lower_ascii (c : ascii) : ascii :=
  let n := nat_of_ascii c in
  if ((65 <=? n) && (n <=? 90))%nat then ascii_of_nat (n + 32) else c.

Fixpoint toLowerCase_ascii (s : string) : string :=
  match s with
  | EmptyString => EmptyString
  | String c s' => String (lower_ascii c) (toLowerCase_ascii s')
  end.

End JS.

(** ** The host: callbacks, console, storage, style, scheduler *)

Module Host.

(** A reference to a function object. *)
Definition callback : Type := nat.

(** A thrown value. *)
Definition error : Type := string.

Inductive console_line : Type :=
| warn_input_callback (event : string) (e : error)
| warn_performance_callback (e : error)
| log_device_detected (score : Z)
| log_initial_quality (level : string)
| log_auto_adjust (old new : string) (fps : JS.number)
| warn_save_failed.

Section Host.
(** [P]: what a callback is called with; [W]: the subscribers' world. *)
Context {P W : Type}.

(** One call of a callback, as the host saw it: who was called, with what,
    and what it threw, if anything. *)
Record call_record : Type := mkCall {
  callee : callback;
  argument : P;
  thrown : option error
}.

Record host : Type := mkHost {
  handlers : callback -> P -> W -> W * option error;
  world : W;
  calls : list call_record;
  console : list console_line;
  style : gmap string string;
  storage : option (gmap string string);
  storageWritable : bool;
  animationFrames : nat;
  prevented : nat
}.

Definition set_world (w : W) (h : host) : host :=
  mkHost (handlers h) w (calls h) (console h) (style h) (storage h)
         (storageWritable h) (animationFrames h) (prevented h).
Definition set_calls (c : list call_record) (h : host) : host :=
  mkHost (handlers h) (world h) c (console h) (style h) (storage h)
         (storageWritable h) (animationFrames h) (prevented h).
Definition set_console (c : list console_line) (h : host) : host :=
  mkHost (handlers h) (world h) (calls h) c (style h) (storage h)
         (storageWritable h) (animationFrames h) (prevented h).
Definition set_style (s : gmap string string) (h : host) : host :=
  mkHost (handlers h) (world h) (calls h) (console h) s (storage h)
         (storageWritable h) (animationFrames h) (prevented h).
Definition set_storage (s : option (gmap string string)) (h : host) : host :=
  mkHost (handlers h) (world h) (calls h) (console h) (style h) s
         (storageWritable h) (animationFrames h) (prevented h).
Definition set_animationFrames (n : nat) (h : host) : host :=
  mkHost (handlers h) (world h) (calls h) (console h) (style h) (storage h)
         (storageWritable h) n (prevented h).
Definition set_prevented (n : nat) (h : host) : host :=
  mkHost (handlers h) (world h) (calls h) (console h) (style h) (storage h)
         (storageWritable h) (animationFrames h) n.

(** How a computation ends. *)
Inductive completion (A : Type) : Type :=
| Returned (a : A)
| Thrown (e : error).
Global Arguments Returned {A} a.
Global Arguments Thrown {A} e.

Definition M (A : Type) : Type := host -> completion A * host.

Definition ret {A} (a : A) : M A := fun h => (Returned a, h).

Definition bind {A B} (m : M A) (k : A -> M B) : M B :=
  fun h =>
    match m h with
    | (Returned a, h') => k a h'
    | (Thrown e, h') => (Thrown e, h')
    end.

Definition throw {A} (e : error) : M A := fun h => (Thrown e, h).

(** [try { body } catch (error) { handler(error) }] *)
Definition try_catch {A} (body : M A) (handler : error -> M A) : M A :=
  fun h =>
    match body h with
    | (Returned a, h') => (Returned a, h')
    | (Thrown e, h') => handler e h'
    end.

(** [xs.forEach(x => body(x))]: an exception leaving [body] ends the
    loop. *)
Fixpoint forEach {A} (xs : list A) (body : A -> M unit) : M unit :=
  match xs with
  | [] => ret tt
  | x :: xs' => bind (body x) (fun _ => forEach xs' body)
  end.

(** [callback(data)] *)
Definition call (cb : callback) (data : P) : M unit :=
  fun h =>
    let '(w, thrown) := handlers h cb data (world h) in
    let h' := set_calls (calls h ++ [mkCall cb data thrown]) (set_world w h) in
    match thrown with
    | None => (Returned tt, h')
    | Some e => (Thrown e, h')
    end.

Definition console_write (l : console_line) : M unit :=
  fun h => (Returned tt, set_console (console h ++ [l]) h).

(** [root.style.setProperty(key, value)] *)
Definition setProperty (key value : string) : M unit :=
  fun h => (Returned tt, set_style (<[key := value]> (style h)) h).

(** [requestAnimationFrame(...)] *)
Definition requestAnimationFrame : M unit :=
  fun h => (Returned tt, set_animationFrames (S (animationFrames h)) h).

(** [e.preventDefault()] *)
Definition preventDefault : M unit :=
  fun h => (Returned tt, set_prevented (S (prevented h)) h).

(** [typeof sharedStorage !== 'undefined'], then
    [sharedStorage.saveSetting(key, value)].  [storage h] is [None] where no
    storage manager is defined, and otherwise the settings that it holds.
    Where [localStorage] refuses the write ([storageWritable h] is false) the
    storage manager catches the exception, warns and stores nothing. *)
Definition saveSetting (key value : string) : M unit :=
  fun h =>
    match storage h with
    | Some m =>
        if storageWritable h
        then (Returned tt, set_storage (Some (<[key := value]> m)) h)
        else (Returned tt, set_console (console h ++ [warn_save_failed]) h)
    | None => (Returned tt, h)
    end.

(** What the callbacks [cbs] do when they are called in order with [data],
    each in the world that the one before it left: the world in the end and
    what each of them threw. *)
Fixpoint outcomes (run : callback -> P -> W -> W * option error) (data : P)
  (cbs : list callback) (w : W) : W * list (option error) :=
  match cbs with
  | [] => (w, [])
  | cb :: cbs' =>
      let (w', t) := run cb data w in
      let (w'', ts) := outcomes run data cbs' w' in
      (w'', t :: ts)
  end.

(** The calls made since the log was [before]. *)
Definition calls_since (before : host) (h : host) : list call_record :=
  drop (length (calls before)) (calls h).

(** From [h] to [h'] the callbacks [cbs] were called, each once, in order and
    with [data]; each ran in the world that the one before it left and threw
    what its handler throws there; whatever one of them threw was written to
    the console as [warn error]; nothing else of the host changed but the
    callbacks' world. *)
Definition delivered (warn : error -> console_line) (data : P)
  (cbs : list callback) (h h' : host) : Prop :=
  exists new : list call_record,
    calls h' = calls h ++ new
    /\ callee <$> new = cbs
    /\ Forall (fun c => argument c = data) new
    /\ console h' = console h ++ omap (fun c => warn <$> thrown c) new
    /\ handlers h' = handlers h
    /\ style h' = style h
    /\ storage h' = storage h
    /\ animationFrames h' = animationFrames h
    /\ prevented h' = prevented h
    /\ storageWritable h' = storageWritable h
    /\ thrown <$> new = snd (outcomes (handlers h) data cbs (world h))
    /\ world h' = fst (outcomes (handlers h) data cbs (world h)).

(** From [h] to [h'] the callbacks [cbs] were called, each once, in order and
    with [data], and no other call was made. *)
Definition notified (data : P) (cbs : list callback) (h h' : host) : Prop :=
  exists new : list call_record,
    calls h' = calls h ++ new
    /\ callee <$> new = cbs
    /\ Forall (fun c => argument c = data) new.

End Host.

Global Arguments host : clear implicits.
Global Arguments M : clear implicits.

Declare Scope js_scope.
Delimit Scope js_scope with js.
Notation "'run' x <- m ; k" := (bind m (fun x => k))
  (at level 10, x name, m at level 100, k at level 200) : js_scope.
Notation "'exec' m ; k" := (bind m (fun _ => k))
  (at level 10, m at level 100, k at level 200) : js_scope.

End Host.

(** ** shared-performance.js: class SharedPerformanceManager *)

Module Performance.
Import Host.
Local Open Scope js_scope.
Local Open Scope string_scope.

Record qualitySettings : Type := mkSettings {
  css : list (string * string);
  maxParticles : Z;
  particleCount : Z;
  shouldSkipFrames : bool;
  renderQuality : Q
}.

(** The names of the members of [Object.prototype], which the object
    literal [baseSettings] inherits. *)
Definition Object_prototype : list string :=
  ["constructor"; "__defineGetter__"; "__defineSetter__"; "hasOwnProperty";
   "__lookupGetter__"; "__lookupSetter__"; "isPrototypeOf";
   "propertyIsEnumerable"; "toString"; "valueOf"; "__proto__";
   "toLocaleString"].

(** What [baseSettings[level] || baseSettings.medium] answers: the settings
    of a tier, or the member of [Object.prototype] that the level names.
    These members are functions, and for [__proto__] the prototype itself:
    all of them are truthy, and none has a property of the settings. *)
Inductive settingsObject : Type :=
| tier_settings (s : qualitySettings)
| inherited (name : string).

(** What [notifyCallbacks] hands to every callback. *)
Record performanceData : Type := mkData {
  fps : JS.number;
  quality : string;
  settings : settingsObject
}.

(** The parts of [navigator] that are read; [None] is an absent property,
    for [nav_effectiveType] an absent [navigator.connection]. *)
Record navigator : Type := mkNavigator {
  nav_hardwareConcurrency : option Q;
  nav_deviceMemory : option Q;
  nav_effectiveType : option string
}.

Record deviceInfo : Type := mkDeviceInfo {
  hardwareConcurrency : Q;
  deviceMemory : Q;
  connection : string;
  score : Z
}.

Record manager : Type := mkManager {
  targetFPS : JS.number;
  currentFPS : JS.number;
  fpsHistory : list JS.number;
  maxHistoryLength : nat;
  qualityLevel : string;
  lastFrameTime : Q;
  frameCount : nat;
  adaptiveQuality : bool;
  monitoringEnabled : bool;
  callbacks : list callback;
  device : option deviceInfo
}.

Definition set_currentFPS (x : JS.number) (m : manager) : manager :=
  mkManager (targetFPS m) x (fpsHistory m) (maxHistoryLength m)
            (qualityLevel m) (lastFrameTime m) (frameCount m)
            (adaptiveQuality m) (monitoringEnabled m) (callbacks m) (device m).
Definition set_fpsHistory (x : list JS.number) (m : manager) : manager :=
  mkManager (targetFPS m) (currentFPS m) x (maxHistoryLength m)
            (qualityLevel m) (lastFrameTime m) (frameCount m)
            (adaptiveQuality m) (monitoringEnabled m) (callbacks m) (device m).
Definition set_qualityLevel (x : string) (m : manager) : manager :=
  mkManager (targetFPS m) (currentFPS m) (fpsHistory m) (maxHistoryLength m)
            x (lastFrameTime m) (frameCount m)
            (adaptiveQuality m) (monitoringEnabled m) (callbacks m) (device m).
Definition set_lastFrameTime (x : Q) (m : manager) : manager :=
  mkManager (targetFPS m) (currentFPS m) (fpsHistory m) (maxHistoryLength m)
            (qualityLevel m) x (frameCount m)
            (adaptiveQuality m) (monitoringEnabled m) (callbacks m) (device m).
Definition set_frameCount (x : nat) (m : manager) : manager :=
  mkManager (targetFPS m) (currentFPS m) (fpsHistory m) (maxHistoryLength m)
            (qualityLevel m) (lastFrameTime m) x
            (adaptiveQuality m) (monitoringEnabled m) (callbacks m) (device m).
Definition set_adaptiveQuality (x : bool) (m : manager) : manager :=
  mkManager (targetFPS m) (currentFPS m) (fpsHistory m) (maxHistoryLength m)
            (qualityLevel m) (lastFrameTime m) (frameCount m)
            x (monitoringEnabled m) (callbacks m) (device m).
Definition set_monitoringEnabled (x : bool) (m : manager) : manager :=
  mkManager (targetFPS m) (currentFPS m) (fpsHistory m) (maxHistoryLength m)
            (qualityLevel m) (lastFrameTime m) (frameCount m)
            (adaptiveQuality m) x (callbacks m) (device m).
Definition set_callbacks (x : list callback) (m : manager) : manager :=
  mkManager (targetFPS m) (currentFPS m) (fpsHistory m) (maxHistoryLength m)
            (qualityLevel m) (lastFrameTime m) (frameCount m)
            (adaptiveQuality m) (monitoringEnabled m) x (device m).
Definition set_device (x : option deviceInfo) (m : manager) : manager :=
  mkManager (targetFPS m) (currentFPS m) (fpsHistory m) (maxHistoryLength m)
            (qualityLevel m) (lastFrameTime m) (frameCount m)
            (adaptiveQuality m) (monitoringEnabled m) (callbacks m) x.

Section Methods.
Context {W : Type}.
Local Abbreviation M := (Host.M performanceData W).

(** [x || d] on a number that may be absent: absent and 0 are falsy. *)
Definition or_default (x : option Q) (d : Q) : Q :=
  match x with
  | Some q => if Qeq_bool q 0 then d else q
  | None => d
  end.

Definition detectDevicePerformance (nav : navigator) (this : manager)
  : M manager :=
  let hardwareConcurrency := or_default (nav_hardwareConcurrency nav) 2 in
  let deviceMemory := or_default (nav_deviceMemory nav) 4 in
  let connection := default "4g" (nav_effectiveType nav) in
  let deviceScore := 0%Z in
  let deviceScore :=
    if Qle_bool 8 hardwareConcurrency then (deviceScore + 4)%Z
    else if Qle_bool 4 hardwareConcurrency then (deviceScore + 3)%Z
    else if Qle_bool 2 hardwareConcurrency then (deviceScore + 2)%Z
    else (deviceScore + 1)%Z in
  let deviceScore :=
    if Qle_bool 8 deviceMemory then (deviceScore + 3)%Z
    else if Qle_bool 4 deviceMemory then (deviceScore + 2)%Z
    else if Qle_bool 2 deviceMemory then (deviceScore + 1)%Z
    else deviceScore in
  let deviceScore :=
    if String.eqb connection "4g" then (deviceScore + 2)%Z
    else if String.eqb connection "3g" then (deviceScore + 1)%Z
    else deviceScore in
  let this :=
    if (7 <=? deviceScore)%Z then set_qualityLevel "high" this
    else if (4 <=? deviceScore)%Z then set_qualityLevel "medium" this
    else set_qualityLevel "low" this in
  let this :=
    set_device (Some (mkDeviceInfo hardwareConcurrency deviceMemory
                                   connection deviceScore)) this in
  exec console_write (log_device_detected deviceScore);
  exec console_write (log_initial_quality (qualityLevel this));
  ret this.

(** [sharedStorage.getSetting('qualityLevel', 'auto')] when the storage
    manager is defined. *)
Definition getSetting (key dflt : string) : M (option string) :=
  fun h =>
    match storage h with
    | Some m => (Returned (Some (default dflt (m !! key))), h)
    | None => (Returned None, h)
    end.

Definition loadSettings (this : manager) : M manager :=
  run stored <- getSetting "qualityLevel" "auto";
  match stored with
  | Some userQuality =>
      if negb (String.eqb userQuality "auto")
      then ret (set_adaptiveQuality false (set_qualityLevel userQuality this))
      else ret this
  | None => ret this
  end.

Definition init (nav : navigator) (this : manager) : M manager :=
  run this <- detectDevicePerformance nav this;
  loadSettings this.

(** [new SharedPerformanceManager()]; [now] is what [performance.now()]
    answers. *)
Definition constructor (nav : navigator) (now : Q) : M manager :=
  init nav
    (mkManager (JS.Finite 60) (JS.Finite 60) [] 60 "auto" now 0
               true false [] None).

Definition getQualitySettings (this : manager) : settingsObject :=
  let high :=
    mkSettings [("--animation-duration", "0.15s"); ("--particle-count", "100");
                ("--shadow-blur", "15px"); ("--transition-duration", "0.3s")]
               100 20 false 1 in
  let medium :=
    mkSettings [("--animation-duration", "0.1s"); ("--particle-count", "50");
                ("--shadow-blur", "10px"); ("--transition-duration", "0.2s")]
               50 10 false (JS.literal (8 # 10)) in
  let low :=
    mkSettings [("--animation-duration", "0.05s"); ("--particle-count", "25");
                ("--shadow-blur", "5px"); ("--transition-duration", "0.1s")]
               25 5 true (JS.literal (6 # 10)) in
  if String.eqb (qualityLevel this) "high" then tier_settings high
  else if String.eqb (qualityLevel this) "medium" then tier_settings medium
  else if String.eqb (qualityLevel this) "low" then tier_settings low
  else if bool_decide (qualityLevel this ∈ Object_prototype)
  then inherited (qualityLevel this)
  else tier_settings medium.

Definition notifyCallbacks (this : manager) : M unit :=
  let data :=
    mkData (currentFPS this) (qualityLevel this) (getQualitySettings this) in
  forEach (callbacks this) (fun callback =>
    try_catch (call callback data)
              (fun error => console_write (warn_performance_callback error))).

(** [Object.keys(settings.css)] throws a TypeError where [settings] has no
    property [css]. *)
Definition applyQualitySettings (this : manager) : M unit :=
  let settings := getQualitySettings this in
  match settings with
  | tier_settings settings =>
      exec forEach (css settings) (fun kv => setProperty (fst kv) (snd kv));
      notifyCallbacks this
  | inherited _ => throw "TypeError"
  end.

Definition saveSettings (this : manager) : M unit :=
  saveSetting "qualityLevel" (qualityLevel this).

Definition adjustQuality (this : manager) : M manager :=
  let avgFPS := currentFPS this in
  let oldQuality := qualityLevel this in
  let this :=
    if JS.lt avgFPS (JS.Finite 45) && negb (String.eqb (qualityLevel this) "low")
    then set_qualityLevel
           (if String.eqb (qualityLevel this) "high" then "medium" else "low")
           this
    else if JS.gt avgFPS (JS.Finite 55)
            && negb (String.eqb (qualityLevel this) "high")
    then set_qualityLevel
           (if String.eqb (qualityLevel this) "low" then "medium" else "high")
           this
    else this in
  if negb (String.eqb oldQuality (qualityLevel this)) then
    exec console_write
           (log_auto_adjust oldQuality (qualityLevel this) (JS.round avgFPS));
    exec applyQualitySettings this;
    exec saveSettings this;
    ret this
  else ret this.

(** One run of the frame callback; [now] is what [performance.now()]
    answers. *)
Definition monitor (now : Q) (this : manager) : M manager :=
  if negb (monitoringEnabled this) then ret this else
  let currentTime := now in
  let deltaTime :=
    JS.sub (JS.Finite currentTime) (JS.Finite (lastFrameTime this)) in
  let currentFPS := JS.div (JS.Finite 1000) deltaTime in
  let this := set_fpsHistory (JS.push currentFPS (fpsHistory this)) this in
  let this :=
    if (maxHistoryLength this <? length (fpsHistory this))%nat
    then set_fpsHistory (JS.shift (fpsHistory this)) this
    else this in
  let this :=
    set_currentFPS
      (JS.div (JS.reduce JS.add (JS.Finite 0) (fpsHistory this))
              (JS.of_nat (length (fpsHistory this)))) this in
  let this := set_lastFrameTime currentTime this in
  let this := set_frameCount (S (frameCount this)) this in
  run this <-
    (if (frameCount this mod 60 =? 0)%nat && adaptiveQuality this then
       run this <- adjustQuality this;
       exec notifyCallbacks this;
       ret this
     else ret this);
  exec requestAnimationFrame;
  ret this.

Definition startMonitoring (now : Q) (this : manager) : M manager :=
  if monitoringEnabled this then ret this
  else monitor now (set_monitoringEnabled true this).

Definition stopMonitoring (this : manager) : manager :=
  set_monitoringEnabled false this.

Definition getCurrentFPS (this : manager) : JS.number :=
  JS.round (currentFPS this).

Definition getQualityLevel (this : manager) : string := qualityLevel this.

Definition setQualityLevel (nav : navigator) (level : string) (this : manager)
  : M manager :=
  if bool_decide (level ∈ ["high"; "medium"; "low"; "auto"]) then
    run this <-
      (if String.eqb level "auto" then
         run this <- detectDevicePerformance nav this;
         ret (set_adaptiveQuality true this)
       else ret (set_adaptiveQuality false (set_qualityLevel level this)));
    exec applyQualitySettings this;
    exec saveSettings this;
    ret this
  else ret this.

(** [onPerformanceChange(callback)]: the manager after the registration and
    the function it returns. *)
Definition onPerformanceChange (callback : callback) (this : manager)
  : manager * (manager -> manager) :=
  (set_callbacks (JS.Set_add callback (callbacks this)) this,
   fun this => set_callbacks (JS.Set_delete callback (callbacks this)) this).

Record performanceStats : Type := mkStats {
  stats_currentFPS : JS.number;
  stats_targetFPS : JS.number;
  stats_qualityLevel : string;
  stats_frameCount : nat;
  stats_deviceInfo : option deviceInfo;
  stats_adaptiveQuality : bool;
  averageFPS : JS.number
}.

Definition getPerformanceStats (this : manager) : performanceStats :=
  mkStats (JS.round (currentFPS this)) (targetFPS this) (qualityLevel this)
          (frameCount this) (device this) (adaptiveQuality this)
          (JS.round
             (JS.div (JS.reduce JS.add (JS.Finite 0) (fpsHistory this))
                     (JS.of_nat (length (fpsHistory this))))).

Definition resetStats (now : Q) (this : manager) : manager :=
  set_lastFrameTime now (set_frameCount 0 (set_fpsHistory [] this)).

(** The frame loop: the scheduler runs the frame callback at the successive
    times [ts]. *)
Fixpoint frames (ts : list Q) (this : manager) : M manager :=
  match ts with
  | [] => ret this
  | t :: ts' => run this <- monitor t this; frames ts' this
  end.

End Methods.





End Performance.

(** ** The shared input manager: class SharedInputManager *)

Module Input.
Import Host.
Local Open Scope js_scope.
Local Open Scope string_scope.

Record gestureThresholds : Type := mkThresholds {
  minSwipeDistance : Q;
  maxSwipeTime : Q;
  minSwipeVelocity : Q
}.

(** One entry of [e.changedTouches]. *)
Record touch : Type := mkTouch {
  identifier : Z;
  clientX : Q;
  clientY : Q
}.

Record touchData : Type := mkTouchData {
  id : Z;
  startX : Q;
  startY : Q;
  currentX : Q;
  currentY : Q;
  startTime : Q
}.

Record swipeData : Type := mkSwipe {
  deltaX : Q;
  deltaY : Q;
  distance : Q;
  duration : Q;
  direction : option string
}.

Record keyboardEvent : Type := mkKeyboardEvent {
  key : string;
  ctrlKey : bool;
  shiftKey : bool;
  altKey : bool
}.

(** What [triggerCallback] hands to the callbacks of each event. *)
Inductive eventData : Type :=
| keydownData (key : string) (originalEvent : keyboardEvent)
              (ctrlKey shiftKey altKey : bool)
| keyupData (key : string) (originalEvent : keyboardEvent)
| touchstartData (touches : list touch)
| touchmoveData (touches : list touch)
| touchendData (touches : list touch) (swipe : swipeData).

Record manager : Type := mkManager {
  keys : gmap string bool;
  touches : gmap Z touchData;
  callbacks : gmap string (list callback);
  enabled : bool;
  thresholds : gestureThresholds;
  preventDefaultConfig : option (gmap string (list string))
}.

Definition set_keys (x : gmap string bool) (m : manager) : manager :=
  mkManager x (touches m) (callbacks m) (enabled m) (thresholds m)
            (preventDefaultConfig m).
Definition set_touches (x : gmap Z touchData) (m : manager) : manager :=
  mkManager (keys m) x (callbacks m) (enabled m) (thresholds m)
            (preventDefaultConfig m).
Definition set_callbacks (x : gmap string (list callback)) (m : manager)
  : manager :=
  mkManager (keys m) (touches m) x (enabled m) (thresholds m)
            (preventDefaultConfig m).
Definition set_enabled (x : bool) (m : manager) : manager :=
  mkManager (keys m) (touches m) (callbacks m) x (thresholds m)
            (preventDefaultConfig m).
Definition set_thresholds (x : gestureThresholds) (m : manager) : manager :=
  mkManager (keys m) (touches m) (callbacks m) (enabled m) x
            (preventDefaultConfig m).
Definition set_preventDefaultConfig (x : option (gmap string (list string)))
  (m : manager) : manager :=
  mkManager (keys m) (touches m) (callbacks m) (enabled m) (thresholds m) x.

(** The thresholds that [setupGestureEvents] installs. *)
Definition defaultThresholds : gestureThresholds :=
  mkThresholds 30 500 (JS.literal (1 # 10)).

(** [new SharedInputManager()] *)
Definition constructor : manager :=
  mkManager ∅ ∅ ∅ true defaultThresholds None.

Definition isKeyPressed `{JS.Strings} (k : string) (this : manager) : bool :=
  default false (keys this !! JS.toLowerCase k).

(** The pressed keys; the order of the array is not modelled. *)
Definition getPressedKeys (this : manager) : list string :=
  fst <$> filter (λ kv, snd kv = true) (map_to_list (keys this)).

Definition getActiveTouches (this : manager) : list touchData :=
  snd <$> map_to_list (touches this).

Definition getTouchCount (this : manager) : nat := size (touches this).

(** [on(event, callback)]: the manager after the registration and the
    function it returns. *)
Definition on (event : string) (callback : callback) (this : manager)
  : manager * (manager -> manager) :=
  let this :=
    if bool_decide (is_Some (callbacks this !! event)) then this
    else set_callbacks (<[event := []]> (callbacks this)) this in
  let this :=
    set_callbacks (alter (JS.Set_add callback) event (callbacks this)) this in
  (this,
   fun this =>
     match callbacks this !! event with
     | Some cbs =>
         set_callbacks (<[event := JS.Set_delete callback cbs]> (callbacks this))
                       this
     | None => this
     end).

Definition off (event : string) (callback : callback) (this : manager)
  : manager :=
  match callbacks this !! event with
  | Some cbs =>
      set_callbacks (<[event := JS.Set_delete callback cbs]> (callbacks this))
                    this
  | None => this
  end.

Definition shouldPreventDefault (event k : string) (this : manager) : bool :=
  match preventDefaultConfig this with
  | Some config =>
      match config !! event with
      | Some eventKeys => bool_decide (k ∈ eventKeys)
      | None => false
      end
  | None => false
  end.

Definition setPreventDefault (event k : string) (prevent : bool)
  (this : manager) : manager :=
  let config := default ∅ (preventDefaultConfig this) in
  let config :=
    if bool_decide (is_Some (config !! event)) then config
    else <[event := []]> config in
  set_preventDefaultConfig
    (Some (alter (if prevent then JS.Set_add k else JS.Set_delete k)
                 event config)) this.

Definition getSwipeDirection (deltaX deltaY : Q) (this : manager)
  : option string :=
  let absX := Qabs deltaX in
  let absY := Qabs deltaY in
  if JS.Qltb absX (minSwipeDistance (thresholds this))
     && JS.Qltb absY (minSwipeDistance (thresholds this))
  then None
  else if JS.Qltb absY absX
  then (if JS.Qltb 0 deltaX then Some "right" else Some "left")
  else (if JS.Qltb 0 deltaY then Some "down" else Some "up").

Definition isValidSwipe (swipeData : swipeData) (this : manager) : bool :=
  if JS.Qltb (distance swipeData) (minSwipeDistance (thresholds this))
  then false
  else if JS.Qltb (maxSwipeTime (thresholds this)) (duration swipeData)
  then false
  else
    let velocity :=
      JS.div (JS.Finite (distance swipeData)) (JS.Finite (duration swipeData)) in
    if JS.lt velocity (JS.Finite (minSwipeVelocity (thresholds this)))
    then false
    else true.

(** [{ ...this.gestureThresholds, ...thresholds }]: an absent field keeps
    its value. *)
Definition setGestureThresholds (d t v : option Q) (this : manager)
  : manager :=
  set_thresholds
    (mkThresholds (default (minSwipeDistance (thresholds this)) d)
                  (default (maxSwipeTime (thresholds this)) t)
                  (default (minSwipeVelocity (thresholds this)) v)) this.

Definition getDirection `{JS.Strings} (this : manager) : option string :=
  let directions :=
    [("up", isKeyPressed "arrowup" this || isKeyPressed "w" this);
     ("down", isKeyPressed "arrowdown" this || isKeyPressed "s" this);
     ("left", isKeyPressed "arrowleft" this || isKeyPressed "a" this);
     ("right", isKeyPressed "arrowright" this || isKeyPressed "d" this)] in
  fst <$> head (filter (λ da, snd da = true) directions).

Definition getMovementVector `{JS.Strings} (this : manager) : Z * Z :=
  (((if isKeyPressed "arrowright" this || isKeyPressed "d" this then 1 else 0)
    - (if isKeyPressed "arrowleft" this || isKeyPressed "a" this then 1 else 0),
    (if isKeyPressed "arrowdown" this || isKeyPressed "s" this then 1 else 0)
    - (if isKeyPressed "arrowup" this || isKeyPressed "w" this then 1 else 0)))%Z.

Definition enable (this : manager) : manager := set_enabled true this.

Definition disable (this : manager) : manager :=
  set_touches ∅ (set_keys ∅ (set_enabled false this)).

Definition reset (this : manager) : manager :=
  set_touches ∅ (set_keys ∅ this).

Definition dispose (this : manager) : manager :=
  set_callbacks ∅ (reset this).

Section Methods.
Context {W : Type} `{JS.Strings}.
Local Abbreviation M := (Host.M eventData W).

Definition triggerCallback (event : string) (data : eventData)
  (this : manager) : M unit :=
  match callbacks this !! event with
  | Some cbs =>
      forEach cbs (fun callback =>
        try_catch (call callback data)
                  (fun error => console_write (warn_input_callback event error)))
  | None => ret tt
  end.

(** The [keydown] listener on [document]. *)
Definition keydown (e : keyboardEvent) (this : manager) : M manager :=
  if negb (enabled this) then ret this else
  let k := JS.toLowerCase (key e) in
  let this := set_keys (<[k := true]> (keys this)) this in
  exec triggerCallback "keydown"
         (keydownData k e (ctrlKey e) (shiftKey e) (altKey e)) this;
  if shouldPreventDefault "keydown" k this
  then exec preventDefault; ret this
  else ret this.

(** The [keyup] listener on [document]. *)
Definition keyup (e : keyboardEvent) (this : manager) : M manager :=
  if negb (enabled this) then ret this else
  let k := JS.toLowerCase (key e) in
  let this := set_keys (<[k := false]> (keys this)) this in
  exec triggerCallback "keyup" (keyupData k e) this;
  ret this.

(** The [blur] listener on [window]. *)
Definition blur (this : manager) : M manager :=
  ret (set_keys ∅ this).

(** The [touchstart] listener of a canvas; [now] is what [Date.now()]
    answers. *)
Definition touchstart (changedTouches : list touch) (now : Q)
  (this : manager) : M manager :=
  if negb (enabled this) then ret this else
  let this :=
    fold_left (fun this t =>
      set_touches
        (<[identifier t :=
             mkTouchData (identifier t) (clientX t) (clientY t)
                         (clientX t) (clientY t) now]> (touches this)) this)
      changedTouches this in
  exec triggerCallback "touchstart" (touchstartData changedTouches) this;
  exec preventDefault;
  ret this.

(** The [touchmove] listener of a canvas. *)
Definition touchmove (changedTouches : list touch) (this : manager)
  : M manager :=
  if negb (enabled this) then ret this else
  let this :=
    fold_left (fun this t =>
      set_touches
        (alter (fun d => mkTouchData (id d) (startX d) (startY d)
                                     (clientX t) (clientY t) (startTime d))
               (identifier t) (touches this)) this)
      changedTouches this in
  exec triggerCallback "touchmove" (touchmoveData changedTouches) this;
  exec preventDefault;
  ret this.

(** The loop of the [touchend] listener: the manager is updated as the
    touches are visited. *)
Fixpoint touchend_each (sqrt : Q -> Q) (all rest : list touch) (now : Q)
  (this : manager) : M manager :=
  match rest with
  | [] => ret this
  | t :: rest' =>
      run this <-
        match touches this !! identifier t with
        | Some d =>
            let deltaX := JS.double (currentX d - startX d) in
            let deltaY := JS.double (currentY d - startY d) in
            let duration := JS.double (now - startTime d) in
            let distance :=
              sqrt (JS.double (JS.double (deltaX * deltaX)
                               + JS.double (deltaY * deltaY))) in
            exec triggerCallback "touchend"
                   (touchendData all
                      (mkSwipe deltaX deltaY distance duration
                               (getSwipeDirection deltaX deltaY this))) this;
            ret (set_touches (delete (identifier t) (touches this)) this)
        | None => ret this
        end;
      touchend_each sqrt all rest' now this
  end.

(** The [touchend] listener of a canvas; [sqrt] stands for [Math.sqrt]. *)
Definition touchend (sqrt : Q -> Q) (changedTouches : list touch) (now : Q)
  (this : manager) : M manager :=
  if negb (enabled this) then ret this else
  run this <- touchend_each sqrt changedTouches changedTouches now this;
  exec preventDefault;
  ret this.

End Methods.
End Input.

(** ** shared-storage.js: class SharedStorageManager *)

Module Storage.
Local Open Scope string_scope.
Local Open Scope list_scope.

(** What [JSON.parse] can answer. *)
#[warnings="-register-all"] Inductive json : Type :=
| JNull
| JBool (b : bool)
| JNumber (q : Q)
| JString (s : string)
| JArray (elements : list json)
| JObject (fields : list (string * json)).

(** A value handed to the storage manager or answered by it: [None] is
    [undefined]; the other values are those that [JSON.stringify] and
    [JSON.parse] carry over unchanged. *)
Definition jsvalue : Type := option json.

(** The text of an entry of [localStorage], by what [JSON.parse] makes of
    it: [serialized j] is a text that parses to [j], as [JSON.stringify j]
    is; [malformed s] is the text [s], which is empty or does not parse. *)
Inductive text : Type :=
| serialized (j : json)
| malformed (s : string).

Inductive error : Type := QuotaExceededError | SyntaxError | TypeError.

(** The lines that the storage manager writes with [console.warn]. *)
Inductive console_line : Type :=
| warn_save_failed (e : error)
| warn_load_failed (e : error).

(** [localStorage] and the console.  [setItem] throws when the storage is
    not [writable] (the quota is used up, or the browser refuses writes);
    [getItem], [removeItem] and [Object.keys] do not throw. *)
Record store : Type := mkStore {
  entries : gmap string text;
  writable : bool;
  console : list console_line
}.

Definition set_entries (v : gmap string text) (st : store) : store :=
  mkStore v (writable st) (console st).
Definition warn (line : console_line) (st : store) : store :=
  mkStore (entries st) (writable st) (console st ++ [line]).

(** [object.name] on an object that [JSON.parse] answered. *)
Fixpoint property (name : string) (fields : list (string * json)) : jsvalue :=
  match fields with
  | [] => None
  | (k, v) :: rest => if String.eqb k name then Some v else property name rest
  end.

(** [this.prefix] and [this.defaultSettings] of the constructor. *)
Definition prefix : string := "gamehub_".

Definition defaultSettings : list (string * json) :=
  [("masterVolume", JNumber (4 # 10)); ("soundEnabled", JBool true);
   ("vibrationEnabled", JBool true); ("qualityLevel", JString "auto");
   ("language", JString "zh-Hant")].

(** [this.prefix + (gamePrefix || 'common') + '_' + key]; a [gamePrefix]
    that is left out is the empty string. *)
Definition fullKey (key gamePrefix : string) : string :=
  String.append
    (String.append
       (String.append prefix
          (if String.eqb gamePrefix "" then "common" else gamePrefix))
       "_")
    key.

(** [save(key, value, gamePrefix)]; [now] is what [Date.now()] answers. *)
Definition save (now : Q) (key : string) (value : jsvalue)
  (gamePrefix : string) (st : store) : bool * store :=
  let fullKey := fullKey key gamePrefix in
  let data :=
    JObject ((match value with Some v => [("value", v)] | None => [] end)
             ++ [("timestamp", JNumber now); ("version", JString "1.0")]) in
  if writable st
  then (true, set_entries (<[fullKey := serialized data]> (entries st)) st)
  else (false, warn (warn_save_failed QuotaExceededError) st).

(** [load(key, defaultValue = null, gamePrefix)]. *)
Definition load (key : string) (defaultValue : jsvalue) (gamePrefix : string)
  (st : store) : json * store :=
  let defaultValue := default JNull defaultValue in
  let fullKey := fullKey key gamePrefix in
  match entries st !! fullKey with
  | None => (defaultValue, st)
  | Some (malformed "") => (defaultValue, st)
  | Some (malformed _) => (defaultValue, warn (warn_load_failed SyntaxError) st)
  | Some (serialized parsed) =>
      match parsed with
      | JNull => (defaultValue, warn (warn_load_failed TypeError) st)
      | JObject fields =>
          (default defaultValue (property "value" fields), st)
      | _ => (defaultValue, st)
      end
  end.

(** [remove(key, gamePrefix)]. *)
Definition remove (key : string) (gamePrefix : string) (st : store)
  : bool * store :=
  let fullKey := fullKey key gamePrefix in
  (true, set_entries (delete fullKey (entries st)) st).

(** [Object.keys(localStorage)]. *)
Definition keys (st : store) : list string := fst <$> map_to_list (entries st).

(** [keys.forEach(key => { if (key.startsWith(p)) localStorage.removeItem(key) })]. *)
Definition remove_starting_with (p : string) (ks : list string)
  (m : gmap string text) : gmap string text :=
  fold_left (fun m key => if String.prefix p key then delete key m else m)
            ks m.

(** [clearGameData(gamePrefix)]. *)
Definition clearGameData (gamePrefix : string) (st : store) : bool * store :=
  (true,
   set_entries
     (remove_starting_with
        (String.append (String.append prefix gamePrefix) "_")
        (keys st) (entries st)) st).

Definition saveGameState (now : Q) (gameName : string) (state : jsvalue)
  (st : store) : bool * store :=
  save now "gameState" state gameName st.

Definition getGameState (gameName : string) (st : store) : json * store :=
  load "gameState" (Some JNull) gameName st.

(** [this.getGameState(gameName) !== null]. *)
Definition hasGameState (gameName : string) (st : store) : bool * store :=
  let (state, st) := getGameState gameName st in
  (match state with JNull => false | _ => true end, st).

Definition saveSetting (now : Q) (key : string) (value : jsvalue) (st : store)
  : store :=
  snd (save now key value "" st).

(** [getSetting(key, defaultValue = null)]. *)
Definition getSetting (key : string) (defaultValue : jsvalue) (st : store)
  : json * store :=
  let defaultValue : jsvalue := Some (default JNull defaultValue) in
  load key
       (match defaultValue with
        | Some v => Some v
        | None => property key defaultSettings
        end) "" st.

(** [getAllSettings()]: the settings, in the order of [defaultSettings]. *)
Definition getAllSettings (st : store) : list (string * json) * store :=
  fold_left
    (fun '(settings, st) key =>
       let (value, st) := getSetting key None st in
       (match value with
        | JNull => settings
        | _ => (fun kv : string * json =>
                  if String.eqb (fst kv) key then (fst kv, value) else kv)
               <$> settings
        end, st))
    (fst <$> defaultSettings) (defaultSettings, st).

(** [resetSettings()]. *)
Definition resetSettings (st : store) : store :=
  fold_left (fun st key => snd (remove key "" st)) (fst <$> defaultSettings) st.

End Storage.

(** ** The vocabulary of the specification *)

Module Spec.
Local Open Scope string_scope.

(** The three quality tiers, ordered low < medium < high. *)
Inductive tier : Type := low | medium | high.

Definition tier_name (t : tier) : string :=
  match t with
  | low => "low"
  | medium => "medium"
  | high => "high"
  end.

(** One tier down, one tier up. *)
Definition down (t : tier) : tier :=
  match t with
  | high => medium
  | _ => low
  end.

Definition up (t : tier) : tier :=
  match t with
  | low => medium
  | _ => high
  end.

(** The [n] most recent elements of a sequence, oldest first. *)
Definition last_n {A} (n : nat) (l : list A) : list A :=
  drop (length l - n) l.

(** The arithmetic mean in the arithmetic of JavaScript numbers. *)
Definition mean (l : list JS.number) : JS.number :=
  JS.div (fold_left JS.add l (JS.Finite 0)) (JS.of_nat (length l)).

(** The arithmetic mean of rationals. *)
Definition Qmean (l : list Q) : Q :=
  fold_right Qplus 0 l / inject_Z (Z.of_nat (length l)).

(** The frame rates sampled by a frame loop that last ran at time [last] and
    runs at the times [ts]. *)
Fixpoint samples (last : Q) (ts : list Q) : list JS.number :=
  match ts with
  | [] => []
  | t :: ts' =>
      JS.div (JS.Finite 1000) (JS.sub (JS.Finite t) (JS.Finite last))
      :: samples t ts'
  end.

(** A finite number from [lo] to [hi]. *)
Definition within (lo hi : Z) (x : JS.number) : Prop :=
  match x with
  | JS.Finite q => inject_Z lo <= q /\ q <= inject_Z hi
  | _ => False
  end.

(** A sample inside the dead band of the governor: a finite rate from 45 to
    55 frames per second. *)
Definition in_band (x : JS.number) : Prop :=
  match x with
  | JS.Finite q => 45 <= q /\ q <= 55
  | _ => False
  end.

(** What a notification published by the performance manager carries. *)
Definition notification (this : Performance.manager)
  : Performance.performanceData :=
  Performance.mkData (Performance.currentFPS this)
                     (Performance.qualityLevel this)
                     (Performance.getQualitySettings this).

(** The callbacks registered with the input manager for an event. *)
Definition subscribers (event : string) (this : Input.manager)
  : list Host.callback :=
  default [] (Input.callbacks this !! event).


End Spec.

(** ** Runs: the managers as their clients and the host drive them *)

Module PerformanceRun.
Import Host Performance.

(** What a client or the scheduler may do with the performance manager. *)
Inductive action : Type :=
| subscribe (callback : callback)
| unsubscribe (callback : callback)
| start (now : Q)
| stop
| frame (now : Q)
| evaluate
| notify
| select (nav : navigator) (level : string)
| resetting (now : Q).

Definition perform {W} (a : action) (this : manager)
  : M performanceData W manager :=
  match a with
  | subscribe cb => ret (fst (onPerformanceChange cb this))
  | unsubscribe cb => ret (snd (onPerformanceChange cb this) this)
  | start now => startMonitoring now this
  | stop => ret (stopMonitoring this)
  | frame now => monitor now this
  | evaluate => adjustQuality this
  | notify => bind (notifyCallbacks this) (fun _ => ret this)
  | select nav level => setQualityLevel nav level this
  | resetting now => ret (resetStats now this)
  end.

Fixpoint performs {W} (acts : list action) (this : manager)
  : M performanceData W manager :=
  match acts with
  | [] => ret this
  | a :: acts' => bind (perform a this) (performs acts')
  end.

(** From [h] to [h'] calls were made, each of them to a callback registered
    with [this]. *)
Definition dispatched {W} (this : manager) (h h' : host performanceData W)
  : Prop :=
  exists new : list call_record,
    calls h' = calls h ++ new
    /\ Forall (fun c => callee c ∈ callbacks this) new.

(** From [h] to [h'] calls were made, none of them to [cb]. *)
Definition silent_for {W} (cb : callback) (h h' : host performanceData W)
  : Prop :=
  exists new : list call_record,
    calls h' = calls h ++ new
    /\ Forall (fun c => callee c <> cb) new.

End PerformanceRun.

Module InputRun.
Import Host Input.
Local Open Scope string_scope.

(** The event that a piece of event data belongs to. *)
Definition kind_of (data : eventData) : string :=
  match data with
  | keydownData _ _ _ _ _ => "keydown"
  | keyupData _ _ => "keyup"
  | touchstartData _ => "touchstart"
  | touchmoveData _ => "touchmove"
  | touchendData _ _ => "touchend"
  end.

(** What a client or the document may do with the input manager. *)
Inductive action : Type :=
| subscribe (event : string) (callback : callback)
| unsubscribe (event : string) (callback : callback)
| key_down (e : keyboardEvent)
| key_up (e : keyboardEvent)
| focus_lost
| touch_start (changedTouches : list touch) (now : Q)
| touch_move (changedTouches : list touch)
| touch_end (changedTouches : list touch) (now : Q)
| thresholds_set (d t v : option Q)
| prevent_default_set (event k : string) (prevent : bool)
| enabling
| disabling
| resetting
| disposing.

Definition perform {W} `{JS.Strings} (sqrt : Q -> Q) (a : action)
  (this : manager) : M eventData W manager :=
  match a with
  | subscribe event cb => ret (fst (on event cb this))
  | unsubscribe event cb => ret (snd (on event cb this) this)
  | key_down e => keydown e this
  | key_up e => keyup e this
  | focus_lost => blur this
  | touch_start ts now => touchstart ts now this
  | touch_move ts => touchmove ts this
  | touch_end ts now => touchend sqrt ts now this
  | thresholds_set d t v => ret (setGestureThresholds d t v this)
  | prevent_default_set event k prevent =>
      ret (setPreventDefault event k prevent this)
  | enabling => ret (enable this)
  | disabling => ret (disable this)
  | resetting => ret (reset this)
  | disposing => ret (dispose this)
  end.

Fixpoint performs {W} `{JS.Strings} (sqrt : Q -> Q) (acts : list action)
  (this : manager) : M eventData W manager :=
  match acts with
  | [] => ret this
  | a :: acts' => bind (perform sqrt a this) (performs sqrt acts')
  end.

(** From [h] to [h'] calls were made, each of them to a callback that
    [this] has registered for the event that the data of the call belong
    to. *)
Definition dispatched {W} (this : manager) (h h' : host eventData W) : Prop :=
  exists new : list call_record,
    calls h' = (calls h ++ new)%list
    /\ Forall (fun c =>
                 callee c ∈ default [] (callbacks this !! kind_of (argument c)))
              new.

(** From [h] to [h'] calls were made, none of them a call of [cb] with the
    data of [event]. *)
Definition silent_for {W} (event : string) (cb : callback)
  (h h' : host eventData W) : Prop :=
  exists new : list call_record,
    calls h' = (calls h ++ new)%list
    /\ Forall (fun c => ~ (callee c = cb /\ kind_of (argument c) = event)) new.

End InputRun.

(** ** Kinds of operations on the input manager *)

Module InputEvents.
Import Input InputRun.

(** The operations that the document, the window or a canvas triggers, as
    opposed to those that a client calls. *)
Definition from_document (a : action) : bool :=
  match a with
  | key_down _ | key_up _ | focus_lost
  | touch_start _ _ | touch_move _ | touch_end _ _ => true
  | _ => false
  end.

(** The listeners that begin with [if (!this.enabled) return]. *)
Definition guarded_by_enabled (a : action) : bool :=
  match a with
  | key_down _ | key_up _
  | touch_start _ _ | touch_move _ | touch_end _ _ => true
  | _ => false
  end.

Definition subscribes (a : action) : bool :=
  match a with
  | subscribe _ _ => true
  | _ => false
  end.

End InputEvents.

(** ** The parts of the device score *)

Module DeviceScore.
Import Performance.
Local Open Scope string_scope.

(** The values that [detectDevicePerformance] works with: what the navigator
    reports, or the default where it reports nothing or zero. *)
Definition cores (nav : navigator) : Q :=
  or_default (nav_hardwareConcurrency nav) 2.
Definition memory (nav : navigator) : Q :=
  or_default (nav_deviceMemory nav) 4.
Definition network (nav : navigator) : string :=
  default "4g" (nav_effectiveType nav).

(** The points that each of them adds to the score. *)
Definition cpu_points (c : Q) : Z :=
  if Qle_bool 8 c then 4 else if Qle_bool 4 c then 3
  else if Qle_bool 2 c then 2 else 1.
Definition memory_points (m : Q) : Z :=
  if Qle_bool 8 m then 3 else if Qle_bool 4 m then 2
  else if Qle_bool 2 m then 1 else 0.
Definition network_points (n : string) : Z :=
  if String.eqb n "4g" then 2 else if String.eqb n "3g" then 1 else 0.

Definition points (nav : navigator) : Z :=
  (cpu_points (cores nav) + memory_points (memory nav)
   + network_points (network nav))%Z.

(** The tier of a score. *)
Definition tier_of (score : Z) : string :=
  if (7 <=? score)%Z then "high"
  else if (4 <=? score)%Z then "medium" else "low".

(** The rank of a level in the order low < medium < high; a level that is
    not a tier has the rank of medium. *)
Definition rank (level : string) : Z :=
  if String.eqb level "high" then 2
  else if String.eqb level "low" then 0 else 1.

End DeviceScore.

(** ** Concrete hosts and managers *)

Module Examples.
Local Open Scope string_scope.

(** A host whose callbacks count their calls in the world; callback 1 throws
    each time it is called, after counting. *)
Definition counting_host (P : Type) : Host.host P nat :=
  Host.mkHost
    (fun cb _ w => (S w, if Nat.eqb cb 1 then Some "boom" else None))
    0%nat [] [] ∅ None true 0 0.

(** The same host with a storage manager that has stored nothing yet. *)
Definition storing_host (P : Type) : Host.host P nat :=
  Host.mkHost
    (fun cb _ w => (S w, if Nat.eqb cb 1 then Some "boom" else None))
    0%nat [] [] ∅ (Some ∅) true 0 0.

(** The same host on a [localStorage] that refuses every write. *)
Definition refusing_host (P : Type) : Host.host P nat :=
  Host.mkHost
    (fun cb _ w => (S w, if Nat.eqb cb 1 then Some "boom" else None))
    0%nat [] [] ∅ (Some ∅) false 0 0.

(** A performance manager on the high tier measuring 40 frames per
    second. *)
Definition slow_high : Performance.manager :=
  Performance.mkManager (JS.Finite 60) (JS.Finite 40) [JS.Finite 40] 60 "high"
                        0 1 true true [2%nat] None.

(** A navigator that reports nothing: every default applies. *)
Definition bare_navigator : Performance.navigator :=
  Performance.mkNavigator None None None.

(** The times of [n] frames, 20 ms apart, after time [0]. *)
Definition every_20ms (n : nat) : list Q :=
  (fun i => inject_Z (Z.of_nat (20 * i))) <$> seq 1 n.

(** A manager that is monitoring, with nothing recorded yet. *)
Definition monitoring : Performance.manager :=
  Performance.mkManager (JS.Finite 60) (JS.Finite 60) [] 60 "medium"
                        0 0 true true [2%nat] None.

(** The times of 25 frames 20 ms apart and then 36 frames 24 ms apart. *)
Definition slowing : list Q :=
  every_20ms 25
  ++ ((fun i => inject_Z (Z.of_nat (500 + 24 * i))) <$> seq 1 36).

(** The same managers one frame before an evaluation is due. *)
Definition monitoring_59 : Performance.manager :=
  Performance.set_frameCount 59 monitoring.
Definition slow_high_59 : Performance.manager :=
  Performance.set_frameCount 59 slow_high.

(** A new manager with one subscriber, callback 2. *)
Definition subscribed : Host.M Performance.performanceData nat
                               Performance.manager :=
  Host.bind (Performance.constructor bare_navigator 0) (fun this =>
    Host.ret (fst (Performance.onPerformanceChange 2%nat this))).

(** The subscribed manager after [startMonitoring] and [n] further frames,
    all 20 ms apart. *)
Definition after_frames (n : nat)
  : Host.M Performance.performanceData nat Performance.manager :=
  Host.bind subscribed (fun this =>
    Host.bind (Performance.startMonitoring 20 this) (fun this =>
      Performance.frames (tail (every_20ms (S n))) this)).

(** Lower-casing where every key is a string of ASCII characters. *)
Definition ascii_strings : JS.Strings :=
  {| JS.toLowerCase := JS.toLowerCase_ascii |}.

(** A [localStorage] that holds nothing and accepts writes. *)
Definition empty_store : Storage.store := Storage.mkStore ∅ true [].

End Examples.

(** * Properties *)

(** ** Numbers *)

Module JSFacts.

Lemma Qltb_lt (x y : Q) : JS.Qltb x y = true <-> x < y.
Proof.
  unfold JS.Qltb. rewrite negb_true_iff. split; intros H.
  - apply Qnot_le_lt. intros Hle. apply Qle_bool_iff in Hle. congruence.
  - destruct (Qle_bool y x) eqn:E; [|reflexivity].
    apply Qle_bool_iff in E. exfalso. apply (Qlt_not_le _ _ H E).
Qed.

Lemma Qltb_ge (x y : Q) : JS.Qltb x y = false <-> y <= x.
Proof. unfold JS.Qltb. rewrite negb_false_iff. apply Qle_bool_iff. Qed.


(** *** Rounding to doubles *)

Lemma Qabs_nonneg_eq (q : Q) : 0 <= q -> Qabs q = q.
Proof.
  destruct q as [n d]. unfold Qle, Qabs. simpl. intros H.
  rewrite Z.abs_eq by lia. reflexivity.
Qed.

Lemma two_power_pos (e : Z) : 0 < 2 ^ e.
Proof. apply Qpower_0_lt. reflexivity. Qed.

Lemma two_power_Z (n : Z) : (0 <= n)%Z -> inject_Z (2 ^ n) == 2 ^ n.
Proof. intros H. now rewrite Zpower_Qpower. Qed.

Lemma ilog2_le (q : Q) : 0 < q -> 2 ^ JS.ilog2 q <= q.
Proof.
  intros Hq. unfold JS.ilog2.
  set (a := Z.log2 (Qnum q)). set (b := Z.log2 (Z.pos (Qden q))).
  destruct (Qle_bool (2 ^ (a - b)) q) eqn:E; [now apply Qle_bool_iff|].
  assert (Hn : (0 < Qnum q)%Z).
  { destruct q as [n d]. unfold Qlt in Hq. simpl in *. lia. }
  destruct (Z.log2_spec (Qnum q) Hn) as [Ha _]. fold a in Ha.
  destruct (Z.log2_spec (Z.pos (Qden q)) eq_refl) as [_ Hb]. fold b in Hb.
  assert (A0 : (0 <= a)%Z) by apply Z.log2_nonneg.
  assert (B0 : (0 <= b)%Z) by apply Z.log2_nonneg.
  replace (a - b - 1)%Z with (a - Z.succ b)%Z by lia.
  rewrite Qpower_minus by discriminate.
  rewrite <- !two_power_Z by lia.
  set (x := (2 ^ a)%Z) in *. set (y := (2 ^ Z.succ b)%Z) in *.
  assert (Y0 : (0 < y)%Z) by lia.
  apply Qle_shift_div_r; [unfold Qlt; simpl; lia|].
  destruct q as [n d]. unfold Qle. simpl in *.
  nia.
Qed.

Lemma rne_ge (z : Z) (q : Q) : inject_Z z <= q -> (z <= JS.rne q)%Z.
Proof.
  intros H. assert (F : (z <= Qfloor q)%Z).
  { rewrite <- (Qfloor_Z z). now apply Qfloor_resp_le. }
  unfold JS.rne. destruct (Qcompare _ _); [destruct (Z.even _)| |]; lia.
Qed.

Lemma rne_le (z : Z) (q : Q) : q <= inject_Z z -> (JS.rne q <= z)%Z.
Proof.
  intros H. assert (F : (Qfloor q <= z)%Z).
  { rewrite <- (Qfloor_Z z). now apply Qfloor_resp_le. }
  destruct (Z.eq_dec (Qfloor q) z) as [E|N].
  - assert (Hq : q - inject_Z (Qfloor q) <= 0).
    { rewrite E. lra. }
    unfold JS.rne.
    destruct (Qcompare _ _) eqn:C.
    + apply Qeq_alt in C. lra.
    + lia.
    + apply Qgt_alt in C. lra.
  - unfold JS.rne. destruct (Qcompare _ _); [destruct (Z.even _)| |]; lia.
Qed.


(** Rounding keeps a number between the integers up to 2^53 that enclose
    it. *)
Lemma binary64_between (lo hi : Z) (q : Q) :
  (0 <= lo)%Z -> (hi <= 2 ^ 53)%Z ->
  inject_Z lo <= q -> q <= inject_Z hi ->
  exists r, JS.binary64 q = JS.Finite r
            /\ inject_Z lo <= r /\ r <= inject_Z hi.
Proof.
  intros L0 H53 Hlo Hhi. unfold JS.binary64.
  destruct (Qeq_bool q 0) eqn:Z0.
  { apply Qeq_bool_iff in Z0. exists 0. split; [reflexivity|]. lra. }
  assert (Hq : 0 < q).
  { apply Qeq_bool_neq in Z0.
    assert (0 <= inject_Z lo) by (unfold Qle; simpl; lia). lra. }
  rewrite (Qabs_nonneg_eq q) by lra.
  assert (N : JS.Qltb q 0 = false).
  { unfold JS.Qltb. apply negb_false_iff, Qle_bool_iff. lra. }
  rewrite N.
  set (e := Z.max (JS.ilog2 q - 52) (-1074)).
  set (m := JS.rne (q / 2 ^ e)).
  pose proof (two_power_pos e) as P.
  assert (B : inject_Z lo <= inject_Z m * 2 ^ e
              /\ inject_Z m * 2 ^ e <= inject_Z hi).
  { destruct (Z_le_gt_dec e 0) as [E|E].
    - assert (S : 2 ^ e * inject_Z (2 ^ (- e)) == 1).
      { rewrite two_power_Z by lia. rewrite Qpower_opp.
        field. intros Z. rewrite Z in P. now apply Qlt_irrefl in P. }
      assert (S' : forall z : Z, inject_Z (z * 2 ^ (- e)) * 2 ^ e == inject_Z z).
      { intros z. rewrite inject_Z_mult.
        rewrite <- Qmult_assoc, (Qmult_comm (inject_Z (2 ^ (- e)))), S. ring. }
      assert (T : forall z : Z, inject_Z (z * 2 ^ (- e)) == inject_Z z / 2 ^ e).
      { intros z. rewrite <- (S' z). field.
        intros Z. rewrite Z in P. now apply Qlt_irrefl in P. }
      assert (M1 : (lo * 2 ^ (- e) <= m)%Z).
      { apply rne_ge. rewrite T. apply Qmult_le_compat_r; [exact Hlo|].
        apply Qlt_le_weak, Qinv_lt_0_compat, P. }
      assert (M2 : (m <= hi * 2 ^ (- e))%Z).
      { apply rne_le. rewrite T. apply Qmult_le_compat_r; [exact Hhi|].
        apply Qlt_le_weak, Qinv_lt_0_compat, P. }
      split.
      + rewrite <- (S' lo). apply Qmult_le_compat_r; [|lra].
        rewrite <- Zle_Qle. exact M1.
      + rewrite <- (S' hi). apply Qmult_le_compat_r; [|lra].
        rewrite <- Zle_Qle. exact M2.
    - assert (Ee : e = (JS.ilog2 q - 52)%Z) by (subst e; lia).
      pose proof (ilog2_le q Hq) as Lq.
      assert (H2 : inject_Z hi <= 2 ^ 53).
      { rewrite <- (two_power_Z 53) by lia. now rewrite <- Zle_Qle. }
      assert (I : (JS.ilog2 q <= 53)%Z).
      { apply (Qpower_le_compat_l_inv 2); [lra | reflexivity]. }
      assert (E1 : e = 1%Z) by lia.
      assert (I53 : JS.ilog2 q = 53%Z) by lia.
      rewrite I53 in Lq.
      assert (Q53 : q == 2 ^ 53) by lra.
      assert (Mq : m = (2 ^ 52)%Z).
      { subst m. rewrite E1.
        assert (X : q / 2 ^ 1 == inject_Z (2 ^ 52)).
        { rewrite Q53. reflexivity. }
        apply Z.le_antisymm; [apply rne_le | apply rne_ge]; rewrite X;
          apply Qle_refl. }
      rewrite Mq, E1.
      assert (V : inject_Z (2 ^ 52) * 2 ^ 1 == 2 ^ 53) by reflexivity.
      rewrite V. lra. }
  destruct B as [B1 B2].
  assert (O : Qle_bool (2 ^ 1024) (inject_Z m * 2 ^ e) = false).
  { destruct (Qle_bool _ _) eqn:O; [|reflexivity].
    apply Qle_bool_iff in O.
    assert (H2 : inject_Z hi <= 2 ^ 53).
    { rewrite <- (two_power_Z 53) by lia. now rewrite <- Zle_Qle. }
    assert (X : 2 ^ 53 < 2 ^ 1024).
    { apply Qpower_lt_compat_l; [lia | reflexivity]. }
    lra. }
  rewrite O. eexists. split; [reflexivity|].
  rewrite Qred_correct. split; assumption.
Qed.

End JSFacts.

(** ** Gestures *)

Module GestureFacts.
Import Input JSFacts.
Local Open Scope string_scope.

Ltac qltb_cases :=
  repeat match goal with
  | |- context [JS.Qltb ?x ?y] =>
      let E := fresh "E" in
      destruct (JS.Qltb x y) eqn:E;
      [apply Qltb_lt in E | apply Qltb_ge in E]
  end.

(** C1, as the code has it.  [getSwipeDirection] answers null exactly when
    both |deltaX| and |deltaY| are below the minimum swipe distance;
    otherwise it answers right or left (by the sign of deltaX) exactly when
    |deltaX| is strictly greater than |deltaY|, and down or up (by the sign
    of deltaY) exactly when |deltaX| is at most |deltaY|: a tie is
    vertical. *)
Theorem getSwipeDirection_cases (deltaX deltaY : Q) (this : manager) :
  let small := Qabs deltaX < minSwipeDistance (thresholds this)
               /\ Qabs deltaY < minSwipeDistance (thresholds this) in
  (getSwipeDirection deltaX deltaY this = None <-> small)
  /\ (getSwipeDirection deltaX deltaY this = Some "right"
      <-> ~ small /\ Qabs deltaY < Qabs deltaX /\ 0 < deltaX)
  /\ (getSwipeDirection deltaX deltaY this = Some "left"
      <-> ~ small /\ Qabs deltaY < Qabs deltaX /\ deltaX <= 0)
  /\ (getSwipeDirection deltaX deltaY this = Some "down"
      <-> ~ small /\ Qabs deltaX <= Qabs deltaY /\ 0 < deltaY)
  /\ (getSwipeDirection deltaX deltaY this = Some "up"
      <-> ~ small /\ Qabs deltaX <= Qabs deltaY /\ deltaY <= 0).
Proof.
  cbv zeta. unfold getSwipeDirection.
  set (m := minSwipeDistance (thresholds this)).
  set (ax := Qabs deltaX). set (ay := Qabs deltaY).
  qltb_cases; simpl;
    repeat split; intros; try discriminate;
    repeat match goal with
    | H : _ /\ _ |- _ => destruct H
    | H : ~ (_ /\ _) |- _ => try (exfalso; apply H; split; assumption)
    end;
    try reflexivity; try lra; try (intros [? ?]; lra).
Qed.

(** C1, the tie.  With the default thresholds the deltas (30, 30) are at the
    threshold and tied, and the answer is down, not right: the claim's
    horizontal answer for |deltaX| >= |deltaY| fails. *)
Lemma getSwipeDirection_tie_is_vertical :
  getSwipeDirection 30 30 constructor = Some "down"
  /\ ~ (forall (deltaX deltaY : Q) (this : manager),
          ~ (Qabs deltaX < minSwipeDistance (thresholds this)
             /\ Qabs deltaY < minSwipeDistance (thresholds this)) ->
          Qabs deltaY <= Qabs deltaX ->
          getSwipeDirection deltaX deltaY this
          = Some (if JS.Qltb 0 deltaX then "right" else "left")).
Proof.
  split; [reflexivity|].
  intros H. specialize (H 30 30 constructor).
  assert (Hc : getSwipeDirection 30 30 constructor = Some "right").
  { apply H.
    - intros [H1 _]. vm_compute in H1. discriminate.
    - vm_compute. discriminate. }
  vm_compute in Hc. discriminate.
Qed.





End GestureFacts.

(** ** The dispatch loop shared by both managers *)

Module DispatchFacts.
Import Host.

Section Dispatch.
Context {P W : Type}.
Implicit Types (h : host P W) (cbs : list callback) (data : P).

Lemma outcomes_app (f : callback -> P -> W -> W * option error) data
  cbs1 cbs2 (w : W) :
  outcomes f data (cbs1 ++ cbs2) w
  = (fst (outcomes f data cbs2 (fst (outcomes f data cbs1 w))),
     snd (outcomes f data cbs1 w)
     ++ snd (outcomes f data cbs2 (fst (outcomes f data cbs1 w)))).
Proof.
  revert w. induction cbs1 as [|cb cbs1 IH]; intros w; simpl.
  - now destruct (outcomes f data cbs2 w).
  - destruct (f cb data w) as [w' t]. rewrite IH.
    destruct (outcomes f data cbs1 w') as [w1 ts1]. simpl.
    now destruct (outcomes f data cbs2 w1).
Qed.

Lemma delivered_nil warn data h : delivered warn data [] h h.
Proof.
  exists []. simpl. rewrite !app_nil_r. split_and!; auto.
Qed.

Lemma delivered_app warn data cbs1 cbs2 h h1 h2 :
  delivered warn data cbs1 h h1 ->
  delivered warn data cbs2 h1 h2 ->
  delivered warn data (cbs1 ++ cbs2) h h2.
Proof.
  intros (n1 & C1 & N1 & A1 & L1 & H1 & S1 & T1 & F1 & V1 & R1 & O1 & W1)
         (n2 & C2 & N2 & A2 & L2 & H2 & S2 & T2 & F2 & V2 & R2 & O2 & W2).
  rewrite H1, W1 in O2, W2.
  exists (n1 ++ n2). rewrite outcomes_app. cbn [fst snd].
  split_and!; try congruence.
  - rewrite C2, C1. now rewrite app_assoc.
  - rewrite fmap_app. congruence.
  - apply Forall_app; auto.
  - rewrite L2, L1, omap_app. now rewrite app_assoc.
  - rewrite fmap_app. congruence.
Qed.

(** A call inside [try]/[catch] always returns, whatever the callback
    does. *)
Lemma guarded_call warn cb data h :
  exists h',
    try_catch (call cb data) (fun e => console_write (warn e)) h
    = (Returned tt, h')
    /\ delivered warn data [cb] h h'.
Proof.
  unfold try_catch, call.
  destruct (handlers h cb data (world h)) as [w [e|]] eqn:E.
  - eexists. split; [reflexivity|].
    exists [mkCall cb data (Some e)]. simpl. rewrite E.
    split_and!; auto.
  - eexists. split; [reflexivity|].
    exists [mkCall cb data None]. simpl. rewrite E, app_nil_r.
    split_and!; auto.
Qed.

(** The loop over guarded calls visits every element and returns. *)
Lemma forEach_guarded warn data cbs h :
  exists h',
    forEach cbs (fun cb =>
      try_catch (call cb data) (fun e => console_write (warn e))) h
    = (Returned tt, h')
    /\ delivered warn data cbs h h'.
Proof.
  revert h. induction cbs as [|cb cbs IH]; intros h.
  - exists h. split; [reflexivity | apply delivered_nil].
  - destruct (guarded_call warn cb data h) as (h1 & E1 & D1).
    destruct (IH h1) as (h2 & E2 & D2).
    exists h2. split.
    + simpl. unfold bind. now rewrite E1.
    + apply (delivered_app warn data [cb] cbs h h1 h2); assumption.
Qed.

(** Without the guard the loop stops at the first callback that throws. *)
Lemma forEach_unguarded_stops data cb cbs h w e :
  handlers h cb data (world h) = (w, Some e) ->
  exists h',
    forEach (cb :: cbs) (fun cb => call cb data) h = (Thrown e, h')
    /\ callee <$> calls_since h h' = [cb].
Proof.
  intros E. simpl. unfold bind, call. rewrite E.
  eexists. split; [reflexivity|].
  unfold calls_since. simpl. now rewrite drop_app_length.
Qed.

Lemma delivered_calls_since warn data cbs h h' :
  delivered warn data cbs h h' ->
  callee <$> calls_since h h' = cbs
  /\ Forall (fun c => argument c = data) (calls_since h h').
Proof.
  intros (new & C & N & A & _). unfold calls_since.
  rewrite C, drop_app_length. auto.
Qed.

End Dispatch.
End DispatchFacts.

(** ** The performance manager *)

Module PerformanceFacts.
Import Host Performance Spec JSFacts DispatchFacts.
Local Open Scope string_scope.
Local Open Scope list_scope.

Section Facts.
Context {W : Type}.
Implicit Types (h : host performanceData W) (this : manager).

Lemma notified_nil (data : performanceData) h h' :
  calls h' = calls h -> notified data [] h h'.
Proof. intros E. exists []. rewrite E, app_nil_r. auto. Qed.

Lemma notified_app (data : performanceData) cbs1 cbs2 h h1 h2 :
  notified data cbs1 h h1 -> notified data cbs2 h1 h2 ->
  notified data (cbs1 ++ cbs2) h h2.
Proof.
  intros (n1 & C1 & N1 & A1) (n2 & C2 & N2 & A2).
  exists (n1 ++ n2). repeat split.
  - rewrite C2, C1. now rewrite app_assoc.
  - rewrite fmap_app. congruence.
  - apply Forall_app; auto.
Qed.

Lemma delivered_notified warn (data : performanceData) cbs h h' :
  delivered warn data cbs h h' -> notified data cbs h h'.
Proof. intros (new & C & N & A & _). exists new. auto. Qed.

Lemma notified_calls_since (data : performanceData) cbs h h' :
  notified data cbs h h' ->
  calls h' = calls h ++ calls_since h h'
  /\ callee <$> calls_since h h' = cbs
  /\ Forall (fun c => argument c = data) (calls_since h h').
Proof.
  intros (new & C & N & A). unfold calls_since.
  rewrite C, drop_app_length. auto.
Qed.

Lemma notifyCallbacks_returns this h :
  exists h',
    notifyCallbacks this h = (Returned tt, h')
    /\ delivered warn_performance_callback (notification this)
                 (callbacks this) h h'.
Proof. unfold notifyCallbacks. apply forEach_guarded. Qed.

Lemma css_loop_returns (l : list (string * string)) h :
  exists h',
    forEach l (fun kv => setProperty (fst kv) (snd kv)) h = (Returned tt, h')
    /\ calls h' = calls h.
Proof.
  revert h. induction l as [|kv l IH]; intros h.
  - exists h. split; reflexivity.
  - simpl. unfold bind, setProperty at 1. simpl.
    destruct (IH (set_style (<[kv.1:=kv.2]> (style h)) h)) as (h' & E & C).
    exists h'. split; [exact E | rewrite C; reflexivity].
Qed.

(** The settings of a level that names no member of [Object.prototype]
    are those of a tier. *)
Lemma getQualitySettings_tier this :
  qualityLevel this ∉ Object_prototype ->
  exists s, getQualitySettings this = tier_settings s.
Proof.
  intros Hl. unfold getQualitySettings.
  rewrite (bool_decide_eq_false_2 _ Hl).
  repeat match goal with
  | |- context [if ?b then _ else _] => destruct b
  end; eexists; reflexivity.
Qed.

Lemma tiers_not_inherited (level : string) :
  level ∈ ["high"; "medium"; "low"] -> level ∉ Object_prototype.
Proof.
  intros Hl Hp. rewrite !elem_of_cons in Hl.
  destruct Hl as [->|[->|[->|Hl]]]; [| | |now apply elem_of_nil in Hl];
    revert Hp; apply (bool_decide_unpack _); vm_compute; exact I.
Qed.

Lemma applyQualitySettings_returns this h :
  qualityLevel this ∉ Object_prototype ->
  exists h',
    applyQualitySettings this h = (Returned tt, h')
    /\ notified (notification this) (callbacks this) h h'.
Proof.
  intros Hl. unfold applyQualitySettings.
  destruct (getQualitySettings_tier this Hl) as (st & ->). unfold bind.
  destruct (css_loop_returns (css st) h) as (h1 & E1 & C1).
  rewrite E1.
  destruct (notifyCallbacks_returns this h1) as (h2 & E2 & D2).
  exists h2. split; [exact E2|].
  apply (notified_app _ [] (callbacks this) h h1 h2).
  - now apply notified_nil.
  - now apply delivered_notified in D2.
Qed.

Lemma saveSettings_returns this h :
  exists h', saveSettings this h = (Returned tt, h') /\ calls h' = calls h.
Proof.
  unfold saveSettings, saveSetting.
  destruct (storage h); [destruct (storageWritable h)|];
    eexists; split; reflexivity.
Qed.

(** The level that [adjustQuality] selects. *)
Lemma set_qualityLevel_same this :
  set_qualityLevel (qualityLevel this) this = this.
Proof. now destruct this. Qed.

(** [adjustQuality] returns; it changes nothing but the level, and notifies
    the callbacks once exactly when the level changes. *)
Lemma adjustQuality_returns this h :
  exists this' h',
    adjustQuality this h = (Returned this', h')
    /\ this' = set_qualityLevel (qualityLevel this') this
    /\ qualityLevel this'
       = (if JS.lt (currentFPS this) (JS.Finite 45)
             && negb (String.eqb (qualityLevel this) "low")
          then if String.eqb (qualityLevel this) "high"
               then "medium" else "low"
          else if JS.gt (currentFPS this) (JS.Finite 55)
                  && negb (String.eqb (qualityLevel this) "high")
          then if String.eqb (qualityLevel this) "low"
               then "medium" else "high"
          else qualityLevel this)
    /\ (qualityLevel this' = qualityLevel this -> h' = h)
    /\ notified (notification this')
                (if String.eqb (qualityLevel this) (qualityLevel this')
                 then [] else callbacks this) h h'.
Proof.
  unfold adjustQuality.
  set (this1 := if JS.lt _ _ && _ then _ else _).
  assert (E1 : this1 = set_qualityLevel (qualityLevel this1) this).
  { subst this1.
    repeat match goal with
    | |- context [if ?b then _ else _] => destruct b
    end; simpl; try reflexivity; symmetry; apply set_qualityLevel_same. }
  assert (Q1 : qualityLevel this1
       = (if JS.lt (currentFPS this) (JS.Finite 45)
             && negb (String.eqb (qualityLevel this) "low")
          then if String.eqb (qualityLevel this) "high"
               then "medium" else "low"
          else if JS.gt (currentFPS this) (JS.Finite 55)
                  && negb (String.eqb (qualityLevel this) "high")
          then if String.eqb (qualityLevel this) "low"
               then "medium" else "high"
          else qualityLevel this)).
  { subst this1.
    repeat match goal with
    | |- context [if ?b then _ else _] => destruct b
    end; reflexivity. }
  assert (C1 : callbacks this1 = callbacks this).
  { rewrite E1. reflexivity. }
  assert (T1 : qualityLevel this1 = qualityLevel this
               \/ qualityLevel this1 ∈ ["high"; "medium"; "low"]).
  { rewrite Q1.
    repeat match goal with
    | |- context [if ?b then _ else _] => destruct b
    end; auto; right; rewrite !elem_of_cons; auto. }
  clearbody this1.
  destruct (String.eqb (qualityLevel this) (qualityLevel this1)) eqn:Eq.
  - simpl. exists this1, h. rewrite Eq. split_and!; auto.
    now apply notified_nil.
  - simpl. unfold bind, console_write at 1.
    set (h0 := set_console _ h).
    assert (Hl : qualityLevel this1 ∉ Object_prototype).
    { apply tiers_not_inherited. destruct T1 as [T1|T1]; [|exact T1].
      rewrite T1, String.eqb_refl in Eq. discriminate. }
    destruct (applyQualitySettings_returns this1 h0 Hl) as (h1 & A1 & N1).
    rewrite A1.
    destruct (saveSettings_returns this1 h1) as (h2 & S2 & K2).
    rewrite S2. unfold ret.
    exists this1, h2. rewrite Eq. split_and!; auto.
    + intros Hq. rewrite Hq, String.eqb_refl in Eq. discriminate.
    + rewrite <- C1.
      destruct N1 as (new & C & N & A). exists new.
      split_and!; auto. rewrite K2, C. reflexivity.
Qed.

(** C2.  One evaluation by [adjustQuality] of a manager on tier [t] whose
    average is [a] returns; it moves the tier one level down when a < 45 and
    t is not low, one level up when a > 55 and t is not high, and leaves it
    as it is otherwise, in particular for every a in [45, 55].  From high
    with a < 45 the result is medium, and a second evaluation gives low. *)
Theorem adjustQuality_one_tier (t : tier) (a : JS.number) this h :
  qualityLevel this = tier_name t ->
  currentFPS this = a ->
  exists this' h',
    adjustQuality this h = (Returned this', h')
    /\ currentFPS this' = a
    /\ (JS.lt a (JS.Finite 45) = true -> t <> low ->
        qualityLevel this' = tier_name (down t))
    /\ (JS.gt a (JS.Finite 55) = true -> t <> high ->
        qualityLevel this' = tier_name (up t))
    /\ (~ (JS.lt a (JS.Finite 45) = true /\ t <> low) ->
        ~ (JS.gt a (JS.Finite 55) = true /\ t <> high) ->
        qualityLevel this' = tier_name t)
    /\ (JS.ge a (JS.Finite 45) = true -> JS.le a (JS.Finite 55) = true ->
        qualityLevel this' = tier_name t)
    /\ (JS.lt a (JS.Finite 45) = true -> t = high ->
        qualityLevel this' = "medium"
        /\ exists this'' h'',
             adjustQuality this' h' = (Returned this'', h'')
             /\ qualityLevel this'' = "low").
Proof.
  intros Ht Ha.
  destruct (adjustQuality_returns this h) as (this' & h' & E & S & Q & _).
  exists this', h'. rewrite Ht, Ha in Q.
  assert (Ha' : currentFPS this' = a) by (rewrite S; exact Ha).
  split_and!; auto.
  - intros L Hn. rewrite Q, L. destruct t; try congruence; reflexivity.
  - intros G Hn. rewrite Q, G.
    assert (L : JS.lt a (JS.Finite 45) = false).
    { destruct a; try discriminate; try reflexivity.
      unfold JS.gt in G. simpl in *.
      apply Qltb_lt in G. apply Qltb_ge. lra. }
    rewrite L. destruct t; try congruence; reflexivity.
  - intros N1 N2. rewrite Q.
    destruct (JS.lt a (JS.Finite 45)) eqn:L;
      destruct (JS.gt a (JS.Finite 55)) eqn:G;
      destruct t; simpl; try reflexivity;
      try (exfalso; apply N1; split; [reflexivity | discriminate]);
      try (exfalso; apply N2; split; [reflexivity | discriminate]).
  - intros G L. rewrite Q.
    assert (L1 : JS.lt a (JS.Finite 45) = false).
    { destruct a; try discriminate; try reflexivity.
      unfold JS.ge in G. simpl in *.
      apply Qle_bool_iff in G. apply Qltb_ge. exact G. }
    assert (G1 : JS.gt a (JS.Finite 55) = false).
    { destruct a; try discriminate; try reflexivity.
      unfold JS.gt. simpl in *.
      apply Qle_bool_iff in L. apply Qltb_ge. exact L. }
    rewrite L1, G1. destruct t; reflexivity.
  - intros L ->. rewrite L in Q. simpl in Q. split; [exact Q|].
    destruct (adjustQuality_returns this' h') as (this2 & h2 & E2 & _ & Q2 & _).
    exists this2, h2. split; [exact E2|].
    rewrite Q2, Ha', L, Q. reflexivity.
Qed.

(** The second half of a frame: the evaluation, when it is due, and the
    request for the next frame. *)
Lemma frame_tail this h :
  exists this' h',
    bind (if (frameCount this mod 60 =? 0)%nat && adaptiveQuality this
          then bind (adjustQuality this) (fun this =>
                 bind (notifyCallbacks this) (fun _ => ret this))
          else ret this)
         (fun this => bind requestAnimationFrame (fun _ => ret this)) h
    = (Returned this', h')
    /\ this' = set_qualityLevel (qualityLevel this') this
    /\ notified (notification this')
         (if (frameCount this mod 60 =? 0)%nat && adaptiveQuality this
          then (if String.eqb (qualityLevel this) (qualityLevel this')
                then [] else callbacks this) ++ callbacks this
          else []) h h'
    /\ ((frameCount this mod 60 =? 0)%nat && adaptiveQuality this = false ->
        this' = this).
Proof.
  destruct ((frameCount this mod 60 =? 0)%nat && adaptiveQuality this) eqn:Ev.
  - destruct (adjustQuality_returns this h) as (this1 & h1 & E1 & S1 & _ & _ & N1).
    destruct (notifyCallbacks_returns this1 h1) as (h2 & E2 & D2).
    exists this1, (set_animationFrames (S (animationFrames h2)) h2).
    split_and!.
    + unfold bind at 1 2. rewrite E1. unfold bind at 1. rewrite E2.
      reflexivity.
    + exact S1.
    + apply delivered_notified in D2.
      replace (callbacks this) with (callbacks this1) at 2
        by (rewrite S1; reflexivity).
      apply (notified_app _ _ _ h h1); [exact N1|].
      destruct D2 as (new & C & N & A). exists new. split_and!; auto.
    + discriminate.
  - exists this, (set_animationFrames (S (animationFrames h)) h).
    split_and!.
    + reflexivity.
    + symmetry. apply set_qualityLevel_same.
    + now apply notified_nil.
    + reflexivity.
Qed.

(** One frame: what [monitor] leaves behind when monitoring is on. *)
Lemma monitor_returns (now : Q) this h :
  monitoringEnabled this = true ->
  exists this' h',
    monitor now this h = (Returned this', h')
    /\ fpsHistory this'
       = (let l := fpsHistory this
                   ++ [JS.div (JS.Finite 1000)
                              (JS.sub (JS.Finite now) (JS.Finite (lastFrameTime this)))] in
          if (maxHistoryLength this <? length l)%nat then tail l else l)
    /\ currentFPS this' = mean (fpsHistory this')
    /\ lastFrameTime this' = now
    /\ frameCount this' = S (frameCount this)
    /\ maxHistoryLength this' = maxHistoryLength this
    /\ monitoringEnabled this' = true
    /\ adaptiveQuality this' = adaptiveQuality this
    /\ callbacks this' = callbacks this
    /\ notified (notification this')
         (if (S (frameCount this) mod 60 =? 0)%nat && adaptiveQuality this
          then (if String.eqb (qualityLevel this) (qualityLevel this')
                then [] else callbacks this) ++ callbacks this
          else []) h h'
    /\ ((S (frameCount this) mod 60 =? 0)%nat && adaptiveQuality this = false ->
        qualityLevel this' = qualityLevel this).
Proof.
  intros En.
  destruct this as [tf cf hist ml q lt fc ad me cbs dev].
  simpl in En. subst me.
  unfold monitor, JS.push, JS.shift, JS.reduce.
  cbn [monitoringEnabled negb fpsHistory maxHistoryLength lastFrameTime
       frameCount adaptiveQuality callbacks qualityLevel set_fpsHistory].
  set (sample := JS.div (JS.Finite 1000) (JS.sub (JS.Finite now) (JS.Finite lt))).
  set (l := hist ++ [sample]).
  cbv zeta.
  destruct (ml <? length l)%nat;
    unfold set_frameCount, set_lastFrameTime, set_currentFPS, set_fpsHistory;
    cbn [monitoringEnabled fpsHistory maxHistoryLength lastFrameTime
         frameCount adaptiveQuality callbacks qualityLevel targetFPS device
         currentFPS];
    match goal with
    | |- context [bind (if _ then bind (adjustQuality ?s) _ else _) _ _] =>
        destruct (frame_tail s h) as (this' & h' & E & St & N & U)
    end;
    exists this', h';
    (split; [exact E|]);
    cbn [frameCount adaptiveQuality callbacks qualityLevel] in N, U;
    pose proof (f_equal fpsHistory St) as F1;
    pose proof (f_equal currentFPS St) as F2;
    pose proof (f_equal lastFrameTime St) as F3;
    pose proof (f_equal frameCount St) as F4;
    pose proof (f_equal maxHistoryLength St) as F5;
    pose proof (f_equal monitoringEnabled St) as F6;
    pose proof (f_equal adaptiveQuality St) as F7;
    pose proof (f_equal callbacks St) as F8;
    cbn in F1, F2, F3, F4, F5, F6, F7, F8;
    split_and!; auto;
    try (rewrite F2, F1; reflexivity);
    intros Ev; rewrite (U Ev); reflexivity.
Qed.

(** *** The sample buffer *)

Lemma last_n_length {A} (n : nat) (l : list A) :
  length (last_n n l) = Nat.min n (length l).
Proof. unfold last_n. rewrite length_drop. lia. Qed.

Lemma last_n_short {A} (n : nat) (l : list A) :
  (length l <= n)%nat -> last_n n l = l.
Proof.
  intros H. unfold last_n.
  replace (length l - n)%nat with 0%nat by lia. reflexivity.
Qed.

Lemma last_n_app {A} (n : nat) (a b : list A) :
  last_n n (last_n n a ++ b) = last_n n (a ++ b).
Proof.
  destruct (decide (length a <= n)%nat) as [Hle|Hgt].
  - now rewrite (last_n_short n a).
  - unfold last_n at 1 3. rewrite !length_app, last_n_length.
    unfold last_n.
    replace (Nat.min n (length a) + length b - n)%nat with (length b) by lia.
    replace (length a + length b - n)%nat
      with ((length a - n) + length b)%nat by lia.
    rewrite <- drop_drop. f_equal.
    rewrite drop_app_le by lia. reflexivity.
Qed.

Lemma last_n_app_r {A} (n : nat) (a b : list A) :
  (n <= length b)%nat -> last_n n (a ++ b) = last_n n b.
Proof.
  intros H. unfold last_n. rewrite length_app.
  replace (length a + length b - n)%nat
    with (length a + (length b - n))%nat by lia.
  apply drop_app_add.
Qed.

(** Pushing onto a buffer within its bound and shifting when the bound is
    passed keeps the most recent elements. *)
Lemma push_shift_last_n {A} (n : nat) (hist : list A) (x : A) :
  (length hist <= n)%nat ->
  (let l := hist ++ [x] in if (n <? length l)%nat then tail l else l)
  = last_n n (hist ++ [x]).
Proof.
  intros H. cbv zeta. rewrite length_app. simpl.
  destruct (n <? length hist + 1)%nat eqn:C.
  - apply Nat.ltb_lt in C. unfold last_n. rewrite length_app. simpl.
    replace (length hist + 1 - n)%nat with 1%nat by lia.
    now destruct (hist ++ [x]).
  - apply Nat.ltb_ge in C. symmetry. apply last_n_short.
    rewrite length_app. simpl. lia.
Qed.

Lemma samples_length (last : Q) (ts : list Q) :
  length (samples last ts) = length ts.
Proof. revert last. induction ts; intros; simpl; auto. Qed.

(** The frame loop returns, and its buffer is the most recent part of
    everything recorded. *)
Lemma frames_returns (ts : list Q) this h :
  monitoringEnabled this = true ->
  (length (fpsHistory this) <= maxHistoryLength this)%nat ->
  exists this' h',
    frames ts this h = (Returned this', h')
    /\ fpsHistory this'
       = last_n (maxHistoryLength this)
                (fpsHistory this ++ samples (lastFrameTime this) ts)
    /\ (ts <> [] -> currentFPS this' = mean (fpsHistory this'))
    /\ maxHistoryLength this' = maxHistoryLength this
    /\ monitoringEnabled this' = true
    /\ frameCount this' = (frameCount this + length ts)%nat.
Proof.
  revert this h. induction ts as [|t ts IH]; intros this h En Len.
  - exists this, h. simpl. rewrite app_nil_r, last_n_short by exact Len.
    split_and!; auto. congruence.
  - destruct (monitor_returns t this h En)
      as (this1 & h1 & E1 & H1 & C1 & L1 & F1 & M1 & En1 & _).
    rewrite push_shift_last_n in H1 by exact Len.
    assert (Len1 : (length (fpsHistory this1) <= maxHistoryLength this1)%nat).
    { rewrite H1, M1, last_n_length. lia. }
    destruct (IH this1 h1 En1 Len1)
      as (this2 & h2 & E2 & H2 & C2 & M2 & En2 & F2).
    exists this2, h2. split_and!.
    + simpl. unfold bind. rewrite E1. exact E2.
    + rewrite H2, H1, M1, L1, last_n_app. simpl.
      now rewrite <- app_assoc.
    + intros _. destruct ts as [|t' ts'].
      * simpl in E2. injection E2 as <- <-. exact C1.
      * apply C2. discriminate.
    + congruence.
    + exact En2.
    + rewrite F2, F1. simpl. lia.
Qed.

(** The running sum and the mean of numbers between two integers: the
    rounding of each addition and of the division keeps them between the
    same bounds, as long as the bounds of the sum are below 2^53. *)
Lemma sum_within (lo hi : Z) (l : list JS.number) (a : Q) (k : Z) :
  (0 <= lo)%Z -> (0 <= k)%Z ->
  (hi * (k + Z.of_nat (length l)) <= 2 ^ 53)%Z ->
  Forall (within lo hi) l ->
  inject_Z (lo * k) <= a -> a <= inject_Z (hi * k) ->
  exists a',
    fold_left JS.add l (JS.Finite a) = JS.Finite a'
    /\ inject_Z (lo * (k + Z.of_nat (length l))) <= a'
    /\ a' <= inject_Z (hi * (k + Z.of_nat (length l))).
Proof.
  intros L0. revert a k.
  induction l as [|x l IH]; intros a k K0 B Hl A1 A2.
  - exists a. simpl. rewrite Z.add_0_r. auto.
  - apply Forall_cons in Hl. destruct Hl as [Hx Hl].
    destruct x as [| |q|]; try contradiction. destruct Hx as [Q1 Q2].
    assert (LH : (lo <= hi)%Z) by (rewrite Zle_Qle; lra).
    cbn [length] in *. rewrite Nat2Z.inj_succ in *.
    destruct (binary64_between (lo * (k + 1)) (hi * (k + 1)) (a + q))
      as (r & E & R1 & R2).
    + nia.
    + nia.
    + rewrite Z.mul_add_distr_l, Z.mul_1_r, inject_Z_plus. lra.
    + rewrite Z.mul_add_distr_l, Z.mul_1_r, inject_Z_plus. lra.
    + destruct (IH r (k + 1)%Z) as (a' & E' & B1 & B2);
        [lia | | exact Hl | exact R1 | exact R2 |].
      * replace (k + 1 + Z.of_nat (length l))%Z
          with (k + Z.succ (Z.of_nat (length l)))%Z by lia. exact B.
      * exists a'. cbn [fold_left JS.add]. rewrite E.
        replace (k + Z.succ (Z.of_nat (length l)))%Z
          with (k + 1 + Z.of_nat (length l))%Z by lia.
        auto.
Qed.

Lemma mean_within (lo hi : Z) (l : list JS.number) :
  l <> [] ->
  (0 <= lo)%Z ->
  (hi * Z.of_nat (length l) <= 2 ^ 53)%Z ->
  Forall (within lo hi) l ->
  within lo hi (mean l).
Proof.
  intros Hne L0 B Hl.
  destruct (sum_within lo hi l 0 0 L0 (Z.le_refl 0)) as (s & E & S1 & S2);
    [exact B | exact Hl | rewrite Z.mul_0_r; apply Qle_refl
     | rewrite Z.mul_0_r; apply Qle_refl |].
  rewrite Z.add_0_l in S1, S2.
  unfold mean, JS.of_nat. rewrite E.
  set (n := Z.of_nat (length l)) in *.
  assert (Hn : (0 < n)%Z).
  { subst n. destruct l; [congruence | simpl; lia]. }
  assert (Hq : 0 < inject_Z n).
  { change 0 with (inject_Z 0). now rewrite <- Zlt_Qlt. }
  assert (LH : (lo <= hi)%Z).
  { destruct l as [|x l]; [congruence|].
    apply Forall_cons in Hl. destruct Hl as [Hx _].
    destruct x as [| |q|]; try contradiction.
    rewrite Zle_Qle. destruct Hx. lra. }
  unfold JS.div.
  destruct (Qeq_bool (inject_Z n) 0) eqn:Z0.
  { apply Qeq_bool_iff in Z0. lra. }
  rewrite inject_Z_mult in S1, S2.
  destruct (binary64_between lo hi (s / inject_Z n)) as (r & Er & R1 & R2).
  - exact L0.
  - nia.
  - apply Qle_shift_div_l; [exact Hq | exact S1].
  - apply Qle_shift_div_r; [exact Hq | exact S2].
  - rewrite Er. simpl. auto.
Qed.

(** C3.  Over every run of the frame loop the sample buffer stays within 60
    entries; it holds the most recent 60 of everything recorded, in recording
    order, and after more than 60 recordings exactly the 60 most recent
    samples.  The average FPS is their running sum in doubles, taken from 0
    in recording order, over their number: it lies between any two integers
    up to 2^47 that enclose the samples. *)
Theorem sample_buffer_last_60 (ts : list Q) this h :
  monitoringEnabled this = true ->
  maxHistoryLength this = 60%nat ->
  (length (fpsHistory this) <= 60)%nat ->
  exists this' h',
    frames ts this h = (Returned this', h')
    /\ (length (fpsHistory this') <= 60)%nat
    /\ fpsHistory this'
       = last_n 60 (fpsHistory this ++ samples (lastFrameTime this) ts)
    /\ ((60 < length ts)%nat ->
        fpsHistory this' = last_n 60 (samples (lastFrameTime this) ts)
        /\ length (fpsHistory this') = 60%nat
        /\ currentFPS this'
           = JS.div (fold_left JS.add
                       (last_n 60 (samples (lastFrameTime this) ts))
                       (JS.Finite 0))
                    (JS.Finite 60)
        /\ forall lo hi : Z,
             (0 <= lo)%Z -> (hi <= 2 ^ 47)%Z ->
             Forall (within lo hi)
                    (last_n 60 (samples (lastFrameTime this) ts)) ->
             within lo hi (currentFPS this')).
Proof.
  intros En Max Len.
  destruct (frames_returns ts this h En) as (this' & h' & E & H & C & _).
  { rewrite Max. exact Len. }
  rewrite Max in H.
  exists this', h'. split_and!; auto.
  - rewrite H, last_n_length. lia.
  - intros Hn.
    assert (H' : fpsHistory this' = last_n 60 (samples (lastFrameTime this) ts)).
    { rewrite H. apply last_n_app_r. rewrite samples_length. lia. }
    assert (L' : length (fpsHistory this') = 60%nat).
    { rewrite H', last_n_length, samples_length. lia. }
    assert (C' : currentFPS this'
                 = mean (last_n 60 (samples (lastFrameTime this) ts))).
    { rewrite <- H'. apply C. destruct ts; [simpl in Hn; lia | discriminate]. }
    split_and!; auto.
    + rewrite C'. unfold mean. rewrite <- H', L'. reflexivity.
    + intros lo hi L0 H47 Hw. rewrite C'. rewrite <- H' in *.
      apply mean_within; auto.
      * intros E0. rewrite E0 in L'. discriminate.
      * rewrite L'. assert (lo <= hi)%Z.
        { destruct (fpsHistory this') as [|x l]; [discriminate|].
          apply Forall_cons in Hw. destruct Hw as [Hx _].
          destruct x as [| |q|]; try contradiction.
          rewrite Zle_Qle. destruct Hx. lra. }
        change (Z.of_nat 60) with 60%Z. lia.
Qed.

(** *** Notifications *)

(** C4, as the code has it.  A frame of the monitoring loop returns, and the
    calls it makes are all notifications of the state it leaves.  When no
    evaluation is due it calls nobody and keeps the tier.  When an evaluation
    is due (every 60th frame, in adaptive mode) it ends by notifying every
    subscriber once, whether or not the tier changed: a step that keeps the
    tier makes exactly that one round of calls, and a step that changes the
    tier makes the round of [applyQualitySettings] before it. *)
Theorem evaluation_notifies (now : Q) this h :
  monitoringEnabled this = true ->
  exists this' h',
    monitor now this h = (Returned this', h')
    /\ calls h' = calls h ++ calls_since h h'
    /\ Forall (fun c => argument c = notification this') (calls_since h h')
    /\ ((S (frameCount this) mod 60 =? 0)%nat && adaptiveQuality this = false ->
        calls_since h h' = [] /\ qualityLevel this' = qualityLevel this)
    /\ ((S (frameCount this) mod 60 =? 0)%nat && adaptiveQuality this = true ->
        qualityLevel this' = qualityLevel this ->
        callee <$> calls_since h h' = callbacks this)
    /\ ((S (frameCount this) mod 60 =? 0)%nat && adaptiveQuality this = true ->
        qualityLevel this' <> qualityLevel this ->
        callee <$> calls_since h h' = callbacks this ++ callbacks this).
Proof.
  intros En.
  destruct (monitor_returns now this h En)
    as (this' & h' & E & _ & _ & _ & _ & _ & _ & _ & _ & N & U).
  exists this', h'. apply notified_calls_since in N.
  destruct N as (C & Cs & A).
  split_and!; auto.
  - intros Ev. rewrite Ev in Cs. split; [|auto].
    now apply fmap_nil_inv in Cs.
  - intros Ev Hq. rewrite Ev, Hq, String.eqb_refl in Cs. exact Cs.
  - intros Ev Hq. rewrite Ev in Cs.
    destruct (String.eqb_spec (qualityLevel this) (qualityLevel this'));
      [congruence | exact Cs].
Qed.

(** *** The average and the empty buffer *)

Lemma detectDevicePerformance_returns (nav : navigator) this h :
  exists this' h',
    detectDevicePerformance nav this h = (Returned this', h')
    /\ this' = set_device (device this')
                          (set_qualityLevel (qualityLevel this') this)
    /\ calls h' = calls h.
Proof.
  unfold detectDevicePerformance.
  repeat match goal with
  | |- context [if ?b then _ else _] => destruct b
  end; eexists; eexists; (split; [reflexivity|]);
    (split; [now destruct this | reflexivity]).
Qed.

Lemma detectDevicePerformance_level (nav : navigator) this h this' h' :
  detectDevicePerformance nav this h = (Returned this', h') ->
  qualityLevel this' ∈ ["high"; "medium"; "low"].
Proof.
  unfold detectDevicePerformance.
  repeat match goal with
  | |- context [if ?b then _ else _] => destruct b
  end; intros E; injection E as <- _; cbn [qualityLevel set_device
    set_qualityLevel]; rewrite !elem_of_cons; auto.
Qed.



End Facts.



(** C4, the unchanged tier.  A new manager with one subscriber runs 59
    frames at 50 frames per second on the medium tier without calling the
    subscriber; the 60th frame evaluates, keeps the tier, and calls the
    subscriber all the same. *)
Lemma unchanged_tier_is_notified :
  exists this59 h59 this60 h60,
    Examples.after_frames 58 (Examples.counting_host performanceData)
    = (Returned this59, h59)
    /\ frameCount this59 = 59%nat
    /\ qualityLevel this59 = "medium"
    /\ calls h59 = []
    /\ monitor 1200 this59 h59 = (Returned this60, h60)
    /\ qualityLevel this60 = "medium"
    /\ callee <$> calls_since h59 h60 = [2%nat].
Proof.
  eexists. eexists. eexists. eexists.
  split; [vm_compute; reflexivity|].
  split; [reflexivity|]. split; [reflexivity|]. split; [reflexivity|].
  split; [vm_compute; reflexivity|].
  split; reflexivity.
Qed.

(** The sixtieth frame of two managers with the subscriber 2.  At 50 frames
    per second the evaluation keeps the tier and the subscriber is called
    once; at 40 frames per second it moves from high to medium and the
    subscriber is called twice. *)
Lemma evaluation_notifies_witness :
  monitoringEnabled Examples.monitoring_59 = true
  /\ monitoringEnabled Examples.slow_high_59 = true
  /\ (exists this' h',
        monitor 20 Examples.monitoring_59
                (Examples.counting_host performanceData)
        = (Returned this', h')
        /\ qualityLevel this' = qualityLevel Examples.monitoring_59
        /\ callee <$> calls_since (Examples.counting_host performanceData) h'
           = [2%nat])
  /\ (exists this' h',
        monitor 25 Examples.slow_high_59
                (Examples.counting_host performanceData)
        = (Returned this', h')
        /\ qualityLevel this' = "medium"
        /\ callee <$> calls_since (Examples.counting_host performanceData) h'
           = [2%nat; 2%nat]).
Proof.
  split; [reflexivity|]. split; [reflexivity|]. split.
  - destruct (evaluation_notifies 20 Examples.monitoring_59
                (Examples.counting_host performanceData) eq_refl)
      as (this' & h' & E & _ & _ & _ & Same & _).
    assert (Q : qualityLevel this' = qualityLevel Examples.monitoring_59).
    { pose proof E as E'. vm_compute in E'. injection E' as <- _.
      reflexivity. }
    exists this', h'. split; [exact E|]. split; [exact Q|].
    exact (Same eq_refl Q).
  - destruct (evaluation_notifies 25 Examples.slow_high_59
                (Examples.counting_host performanceData) eq_refl)
      as (this' & h' & E & _ & _ & _ & _ & Changed).
    assert (Q : qualityLevel this' = "medium").
    { pose proof E as E'. vm_compute in E'. injection E' as <- _.
      reflexivity. }
    exists this', h'. split; [exact E|]. split; [exact Q|].
    apply (Changed eq_refl). rewrite Q. discriminate.
Defined.

(** C3, the rounding.  After 25 frames 20 ms apart and 36 frames 24 ms
    apart the buffer holds 24 samples of 50 and 36 samples of the double
    next to 1000/24.  Their arithmetic mean is 45 up to the rounding of the
    samples, and the double next to it is 45; the average FPS is a different
    number, two doubles below 45, so that the governor finds it below 45. *)
Lemma average_is_not_the_mean :
  exists this' h' qs,
    frames Examples.slowing Examples.monitoring
           (Examples.counting_host performanceData)
    = (Returned this', h')
    /\ (60 < length Examples.slowing)%nat
    /\ fpsHistory this' = JS.Finite <$> qs
    /\ length qs = 60%nat
    /\ JS.binary64 (Qmean qs) = JS.Finite 45
    /\ ~ JS.same (currentFPS this') (JS.Finite (Qmean qs))
    /\ currentFPS this' <> JS.binary64 (Qmean qs)
    /\ currentFPS this' = JS.Finite (Qred (45 - 2 ^ (-46)%Z))
    /\ JS.lt (currentFPS this') (JS.Finite 45) = true
    /\ JS.lt (JS.binary64 (Qmean qs)) (JS.Finite 45) = false.
Proof.
  eexists. eexists.
  exists (Qred <$> (repeat 50 24 ++ repeat (JS.literal (1000 / 24)) 36)).
  split; [vm_compute; reflexivity|].
  split; [vm_compute; lia|].
  split; [vm_compute; reflexivity|].
  split; [reflexivity|].
  split; [vm_compute; reflexivity|].
  split; [vm_compute; intros X; discriminate X|].
  split; [vm_compute; discriminate|].
  split; [vm_compute; reflexivity|].
  split; vm_compute; reflexivity.
Qed.

(** Sixty-one frames from an empty buffer. *)
Lemma sample_buffer_last_60_witness :
  exists this' h',
    frames (Examples.every_20ms 61) Examples.monitoring
           (Examples.counting_host performanceData)
    = (Returned this', h')
    /\ length (fpsHistory this') = 60%nat.
Proof.
  destruct (sample_buffer_last_60 (Examples.every_20ms 61) Examples.monitoring
              (Examples.counting_host performanceData) eq_refl eq_refl)
    as (this' & h' & E & _ & _ & L).
  - simpl. lia.
  - exists this', h'. split; [exact E|].
    apply L. vm_compute. lia.
Defined.

(** From high at 40 frames per second, one evaluation gives medium. *)
Lemma adjustQuality_one_tier_witness :
  exists this' h',
    adjustQuality Examples.slow_high
                  (Examples.counting_host performanceData)
    = (Returned this', h')
    /\ qualityLevel this' = "medium".
Proof.
  destruct (adjustQuality_one_tier high (JS.Finite 40) Examples.slow_high
              (Examples.counting_host performanceData) eq_refl eq_refl)
    as (this' & h' & E & _ & D & _).
  exists this', h'. split; [exact E|].
  apply D; [reflexivity | discriminate].
Defined.

End PerformanceFacts.

(** ** Sets of callbacks *)

Module SetFacts.

Section SetFacts.
Context `{EqDecision A}.
Implicit Types (x y : A) (s : list A).

Lemma Set_add_elem x s : x ∈ JS.Set_add x s.
Proof.
  unfold JS.Set_add. case_decide; [assumption|].
  apply elem_of_app. right. apply list_elem_of_singleton. reflexivity.
Qed.

Lemma Set_add_present x s : x ∈ s -> JS.Set_add x s = s.
Proof. intros H. unfold JS.Set_add. now case_decide. Qed.

Lemma Set_add_twice x s : JS.Set_add x (JS.Set_add x s) = JS.Set_add x s.
Proof. apply Set_add_present, Set_add_elem. Qed.

Lemma Set_add_other x y s : y ∈ JS.Set_add x s <-> y = x \/ y ∈ s.
Proof.
  unfold JS.Set_add. case_decide.
  - split; [tauto | intros [E|?]; [rewrite E|]; assumption].
  - rewrite elem_of_app, list_elem_of_singleton. tauto.
Qed.

Lemma Set_add_NoDup x s : NoDup s -> NoDup (JS.Set_add x s).
Proof.
  intros H. unfold JS.Set_add. case_decide; [assumption|].
  apply NoDup_app. split_and!; auto.
  - intros y Hy Hx. apply list_elem_of_singleton in Hx. congruence.
  - apply NoDup_singleton.
Qed.

Lemma Set_delete_elem x y s : y ∈ JS.Set_delete x s <-> y ≠ x /\ y ∈ s.
Proof. unfold JS.Set_delete. now rewrite list_elem_of_filter. Qed.

Lemma Set_delete_gone x s : x ∉ JS.Set_delete x s.
Proof. rewrite Set_delete_elem. tauto. Qed.

Lemma Set_delete_absent x s : x ∉ s -> JS.Set_delete x s = s.
Proof.
  unfold JS.Set_delete. induction s as [|y s IH]; intros H; [reflexivity|].
  apply not_elem_of_cons in H. destruct H as [Hne Hs].
  rewrite filter_cons_True by congruence. now rewrite IH.
Qed.

Lemma Set_delete_twice x s :
  JS.Set_delete x (JS.Set_delete x s) = JS.Set_delete x s.
Proof. apply Set_delete_absent, Set_delete_gone. Qed.

Lemma Set_delete_NoDup x s : NoDup s -> NoDup (JS.Set_delete x s).
Proof. apply NoDup_filter. Qed.

Lemma Set_delete_add x s : x ∉ s -> JS.Set_delete x (JS.Set_add x s) = s.
Proof.
  intros H. unfold JS.Set_add. case_decide; [contradiction|].
  unfold JS.Set_delete. rewrite filter_app.
  fold (JS.Set_delete x s). rewrite Set_delete_absent by assumption.
  rewrite filter_cons_False by tauto. apply app_nil_r.
Qed.

(** A member of a set occurs in it exactly once. *)
Lemma NoDup_occurs_once x s :
  NoDup s -> x ∈ s -> length (filter (fun y => y = x) s) = 1%nat.
Proof.
  induction 1 as [|y s Hy Hs IH]; intros Hx.
  - now apply elem_of_nil in Hx.
  - destruct (decide (y = x)) as [->|Hne].
    + rewrite filter_cons_True by reflexivity. simpl. f_equal.
      apply length_zero_iff_nil.
      destruct (filter (fun y => y = x) s) as [|z l] eqn:E; [reflexivity|].
      assert (Hz : z ∈ filter (fun y => y = x) s)
        by (rewrite E; apply list_elem_of_here).
      apply list_elem_of_filter in Hz. destruct Hz as [-> Hz]. contradiction.
    + rewrite filter_cons_False by assumption. apply IH.
      apply elem_of_cons in Hx. destruct Hx; [congruence | assumption].
Qed.

Lemma absent_occurs_never x s :
  x ∉ s -> filter (fun y => y = x) s = [].
Proof.
  induction s as [|y s IH]; intros H; [reflexivity|].
  apply not_elem_of_cons in H. destruct H as [Hne Hs].
  rewrite filter_cons_False by congruence. now apply IH.
Qed.

End SetFacts.
End SetFacts.

(** ** The input manager *)

Module InputFacts.
Import Host Input Spec InputRun JSFacts DispatchFacts SetFacts.
Local Open Scope string_scope.
Local Open Scope list_scope.

Section Facts.
Context {W : Type}.
Implicit Types (h : host eventData W) (this : manager).

Lemma triggerCallback_returns (event : string) (data : eventData) this h :
  exists h',
    triggerCallback event data this h = (Returned tt, h')
    /\ delivered (warn_input_callback event) data (subscribers event this)
                 h h'.
Proof.
  unfold triggerCallback, subscribers.
  destruct (callbacks this !! event) as [cbs|]; simpl.
  - apply forEach_guarded.
  - exists h. split; [reflexivity | apply delivered_nil].
Qed.

End Facts.

(** C6.  A publish by either manager returns to its caller without an
    exception, whatever its callbacks do; every callback registered for the
    event is run once, in order, with the data of the publish, each in the
    world that the one before it left, also after an earlier one has thrown;
    what a callback throws is written to the console as a warning; nothing
    else of the host is touched. *)
Theorem publish_isolates_failures :
  (forall (W : Type) (event : string) (data : eventData) (this : manager)
          (h : host eventData W),
      exists h',
        triggerCallback event data this h = (Returned tt, h')
        /\ calls h' = calls h ++ calls_since h h'
        /\ callee <$> calls_since h h' = subscribers event this
        /\ Forall (fun c => argument c = data) (calls_since h h')
        /\ console h'
           = console h
             ++ omap (fun c => warn_input_callback event <$> thrown c)
                     (calls_since h h')
        /\ thrown <$> calls_since h h'
           = snd (outcomes (handlers h) data (subscribers event this)
                           (world h))
        /\ world h'
           = fst (outcomes (handlers h) data (subscribers event this)
                           (world h))
        /\ handlers h' = handlers h
        /\ style h' = style h
        /\ storage h' = storage h
        /\ storageWritable h' = storageWritable h
        /\ animationFrames h' = animationFrames h
        /\ prevented h' = prevented h)
  /\ (forall (W : Type) (this : Performance.manager)
            (h : host Performance.performanceData W),
        exists h',
          Performance.notifyCallbacks this h = (Returned tt, h')
          /\ calls h' = calls h ++ calls_since h h'
          /\ callee <$> calls_since h h' = Performance.callbacks this
          /\ Forall (fun c => argument c = notification this)
                    (calls_since h h')
          /\ console h'
             = console h
               ++ omap (fun c => warn_performance_callback <$> thrown c)
                       (calls_since h h')
          /\ thrown <$> calls_since h h'
             = snd (outcomes (handlers h) (notification this)
                             (Performance.callbacks this) (world h))
          /\ world h'
             = fst (outcomes (handlers h) (notification this)
                             (Performance.callbacks this) (world h))
          /\ handlers h' = handlers h
          /\ style h' = style h
          /\ storage h' = storage h
          /\ storageWritable h' = storageWritable h
          /\ animationFrames h' = animationFrames h
          /\ prevented h' = prevented h).
Proof.
  split.
  - intros W event data this h.
    destruct (triggerCallback_returns event data this h)
      as (h' & E & new & C & N & A & L & Hh & St & So & An & Pr & Wr & T & Wd).
    exists h'. unfold calls_since. rewrite C, drop_app_length.
    split_and!; auto.
  - intros W this h.
    destruct (PerformanceFacts.notifyCallbacks_returns this h)
      as (h' & E & new & C & N & A & L & Hh & St & So & An & Pr & Wr & T & Wd).
    exists h'. unfold calls_since. rewrite C, drop_app_length.
    split_and!; auto.
Qed.

(** Two subscribers of [keydown], the first of which throws: both are
    called, the second counts its call, and the failure is on the console. *)
Section Ascii.
#[local] Existing Instance Examples.ascii_strings.

Example second_subscriber_runs :
  let this := fst (on "keydown" 2%nat (fst (on "keydown" 1%nat constructor))) in
  let e := mkKeyboardEvent "A" false false false in
  exists this' h',
    keydown e this (Examples.counting_host eventData) = (Returned this', h')
    /\ callee <$> calls h' = [1%nat; 2%nat]
    /\ thrown <$> calls h' = [Some "boom"; None]
    /\ world h' = 2%nat
    /\ console h' = [warn_input_callback "keydown" "boom"]
    /\ isKeyPressed "a" this' = true.
Proof.
  eexists. eexists. split; [vm_compute; reflexivity|].
  split_and!; reflexivity.
Qed.

End Ascii.

End InputFacts.

(** ** The key tracker *)

Module KeyFacts.
Import Host Input Spec InputRun.
Local Open Scope string_scope.
Local Open Scope list_scope.

(** C9.  The [blur] listener returns the manager with an empty key map:
    no key is pressed and the list of pressed keys is empty.  The host is as
    it was, so no callback was called, for [keyup] or for anything else, and
    nothing was logged; the touches, the subscriptions and the settings of
    the manager are as they were. *)
Theorem focus_loss_clears_keys (W : Type) `{JS.Strings} (this : manager)
  (h : host eventData W) :
  exists this',
    blur this h = (Returned this', h)
    /\ calls_since h h = []
    /\ (forall k : string, isKeyPressed k this' = false)
    /\ getPressedKeys this' = []
    /\ touches this' = touches this
    /\ getActiveTouches this' = getActiveTouches this
    /\ callbacks this' = callbacks this
    /\ enabled this' = enabled this
    /\ thresholds this' = thresholds this
    /\ preventDefaultConfig this' = preventDefaultConfig this.
Proof.
  exists (set_keys ∅ this). split_and!; try reflexivity.
  unfold calls_since. apply drop_all.
Qed.

(** The key "a" is pressed, then the window loses focus: the key counts as
    released, and the subscriber of [keyup] has not been called; a key-up
    would have called it. *)
Section Ascii.
#[local] Existing Instance Examples.ascii_strings.

Example focus_loss_after_keydown :
  let this := fst (on "keyup" 2%nat constructor) in
  let e := mkKeyboardEvent "a" false false false in
  exists this1 h1 this2 h2 this3 h3,
    keydown e this (Examples.counting_host eventData) = (Returned this1, h1)
    /\ isKeyPressed "a" this1 = true
    /\ blur this1 h1 = (Returned this2, h2)
    /\ isKeyPressed "a" this2 = false
    /\ calls h2 = []
    /\ keyup e this1 h1 = (Returned this3, h3)
    /\ calls h3 = [mkCall 2%nat (keyupData "a" e) None].
Proof.
  do 6 eexists.
  split; [vm_compute; reflexivity|]. split; [reflexivity|].
  split; [vm_compute; reflexivity|]. split; [reflexivity|].
  split; [reflexivity|]. split; [vm_compute; reflexivity|]. reflexivity.
Qed.

End Ascii.

End KeyFacts.

(** ** Subscriptions of the input manager *)

Module InputSubscriptionFacts.
Import Host Input Spec InputRun JSFacts DispatchFacts SetFacts InputFacts.
Local Open Scope string_scope.
Local Open Scope list_scope.

Lemma set_callbacks_same (this : manager) :
  set_callbacks (callbacks this) this = this.
Proof. now destruct this. Qed.

Lemma on_callbacks (event : string) (cb : callback) (this : manager) :
  callbacks (fst (on event cb this))
  = <[event := JS.Set_add cb (subscribers event this)]> (callbacks this).
Proof.
  unfold on, subscribers. cbn [fst]. case_bool_decide as H.
  - destruct H as [cbs E]. rewrite E. cbn [callbacks set_callbacks default].
    rewrite <- (insert_id (callbacks this) event cbs E) at 1.
    apply alter_insert_eq.
  - apply eq_None_not_Some in H. rewrite H.
    cbn [callbacks set_callbacks default].
    apply alter_insert_eq.
Qed.

Lemma on_subscribers (event : string) (cb : callback) (this : manager) :
  subscribers event (fst (on event cb this))
  = JS.Set_add cb (subscribers event this).
Proof.
  unfold subscribers at 1. rewrite on_callbacks.
  now rewrite lookup_insert_eq.
Qed.

Lemma on_subscribers_other (event event' : string) (cb : callback)
  (this : manager) :
  event' <> event ->
  subscribers event' (fst (on event cb this)) = subscribers event' this.
Proof.
  intros Hne. unfold subscribers at 1. rewrite on_callbacks.
  now rewrite lookup_insert_ne by congruence.
Qed.

Lemma on_frame (event : string) (cb : callback) (this : manager) :
  fst (on event cb this) = set_callbacks (callbacks (fst (on event cb this))) this.
Proof.
  unfold on. cbn [fst]. case_bool_decide; now destruct this.
Qed.

(** The function that [on] returns does what [off] does. *)
Lemma on_returns_off (event : string) (cb : callback) (this s : manager) :
  snd (on event cb this) s = off event cb s.
Proof. reflexivity. Qed.

Lemma off_subscribers (event : string) (cb : callback) (s : manager) :
  subscribers event (off event cb s) = JS.Set_delete cb (subscribers event s).
Proof.
  unfold off, subscribers.
  destruct (callbacks s !! event) as [cbs|] eqn:E; simpl.
  - now rewrite lookup_insert_eq.
  - now rewrite E.
Qed.

Lemma off_subscribers_other (event event' : string) (cb : callback)
  (s : manager) :
  event' <> event ->
  subscribers event' (off event cb s) = subscribers event' s.
Proof.
  intros Hne. unfold off, subscribers.
  destruct (callbacks s !! event) as [cbs|] eqn:E; simpl; [|reflexivity].
  now rewrite lookup_insert_ne by congruence.
Qed.

Lemma off_absent (event : string) (cb : callback) (s : manager) :
  cb ∉ subscribers event s -> off event cb s = s.
Proof.
  unfold off, subscribers. intros H.
  destruct (callbacks s !! event) as [cbs|] eqn:E; simpl in *; [|reflexivity].
  rewrite Set_delete_absent by assumption.
  rewrite insert_id by assumption. apply set_callbacks_same.
Qed.

Lemma off_twice (event : string) (cb : callback) (s : manager) :
  off event cb (off event cb s) = off event cb s.
Proof.
  apply off_absent. rewrite off_subscribers. apply Set_delete_gone.
Qed.

Lemma off_frame (event : string) (cb : callback) (s : manager) :
  off event cb s = set_callbacks (callbacks (off event cb s)) s.
Proof.
  unfold off. destruct (callbacks s !! event); [reflexivity|].
  symmetry. apply set_callbacks_same.
Qed.

(** Subscribing a callback that is subscribed changes nothing. *)
Lemma on_present (event : string) (cb : callback) (this : manager) :
  cb ∈ subscribers event this -> fst (on event cb this) = this.
Proof.
  intros H. rewrite on_frame, on_callbacks.
  rewrite Set_add_present by assumption.
  unfold subscribers in *.
  destruct (callbacks this !! event) as [cbs|] eqn:E; simpl in *.
  - rewrite insert_id by assumption. apply set_callbacks_same.
  - now apply elem_of_nil in H.
Qed.

End InputSubscriptionFacts.

(** ** Runs of the input manager *)

Module InputRunFacts.
Import Host Input Spec InputRun JSFacts DispatchFacts SetFacts InputFacts.
Import InputSubscriptionFacts.
Local Open Scope string_scope.
Local Open Scope list_scope.

Section Runs.
Context {W : Type} `{JS.Strings}.
Implicit Types (h : host eventData W) (this : manager).

Lemma dispatched_refl this h : dispatched this h h.
Proof. exists []. rewrite app_nil_r. auto. Qed.

Lemma dispatched_quiet this h h' : calls h' = calls h -> dispatched this h h'.
Proof. intros E. exists []. rewrite E, app_nil_r. auto. Qed.

Lemma dispatched_trans this h h1 h2 :
  dispatched this h h1 -> dispatched this h1 h2 -> dispatched this h h2.
Proof.
  intros (n1 & C1 & F1) (n2 & C2 & F2). exists (n1 ++ n2). split.
  - rewrite C2, C1. now rewrite app_assoc.
  - apply Forall_app; auto.
Qed.

Lemma dispatched_callbacks this this' h h' :
  callbacks this' = callbacks this ->
  dispatched this h h' -> dispatched this' h h'.
Proof. intros E (n & C & F). exists n. rewrite E. auto. Qed.

Lemma triggerCallback_dispatched (data : eventData) this h :
  exists h',
    triggerCallback (kind_of data) data this h = (Returned tt, h')
    /\ dispatched this h h'.
Proof.
  destruct (triggerCallback_returns (kind_of data) data this h)
    as (h' & E & new & C & N & A & _).
  exists h'. split; [exact E|]. exists new. split; [exact C|].
  apply Forall_forall. intros c Hc.
  rewrite Forall_forall in A. rewrite (A c Hc).
  fold (subscribers (kind_of data) this). rewrite <- N.
  apply list_elem_of_fmap. eauto.
Qed.

Lemma touchstart_callbacks (ts : list touch) (now : Q) this :
  callbacks
    (fold_left (fun this t =>
       set_touches
         (<[identifier t :=
              mkTouchData (identifier t) (clientX t) (clientY t)
                          (clientX t) (clientY t) now]> (touches this)) this)
       ts this)
  = callbacks this.
Proof. revert this. induction ts as [|t ts IH]; intros; simpl; [|rewrite IH]; auto. Qed.

Lemma touchmove_callbacks (ts : list touch) this :
  callbacks
    (fold_left (fun this t =>
       set_touches
         (alter (fun d => mkTouchData (id d) (startX d) (startY d)
                                      (clientX t) (clientY t) (startTime d))
                (identifier t) (touches this)) this)
       ts this)
  = callbacks this.
Proof. revert this. induction ts as [|t ts IH]; intros; simpl; [|rewrite IH]; auto. Qed.

Lemma touchend_each_returns (sqrt : Q -> Q) (all rest : list touch) (now : Q)
  this h :
  exists this' h',
    touchend_each sqrt all rest now this h = (Returned this', h')
    /\ callbacks this' = callbacks this
    /\ dispatched this h h'.
Proof.
  revert this h. induction rest as [|t rest IH]; intros this h.
  - exists this, h. split_and!; auto. apply dispatched_refl.
  - simpl. unfold bind at 1.
    destruct (touches this !! identifier t) as [d|].
    + set (data := touchendData _ _).
      unfold bind at 1.
      destruct (triggerCallback_dispatched data this h) as (h1 & E1 & D1).
      change "touchend" with (kind_of data). rewrite E1. unfold ret at 1.
      set (this1 := set_touches _ this).
      destruct (IH this1 h1) as (this2 & h2 & E2 & C2 & D2).
      exists this2, h2. split_and!; auto.
      apply (dispatched_trans this h h1 h2); auto.
    + unfold ret at 1. destruct (IH this h) as (this2 & h2 & E2 & C2 & D2).
      exists this2, h2. auto.
Qed.

(** Every operation returns; the subscriptions change only by [on], [off]
    and [dispose]; and only subscribers are called. *)
Lemma perform_returns (sqrt : Q -> Q) (a : action) this h :
  exists this' h',
    perform sqrt a this h = (Returned this', h')
    /\ callbacks this'
       = match a with
         | subscribe event cb => callbacks (fst (on event cb this))
         | unsubscribe event cb => callbacks (off event cb this)
         | disposing => ∅
         | _ => callbacks this
         end
    /\ dispatched this h h'.
Proof.
  destruct a; simpl;
    try (eexists; eexists; split_and!;
         [reflexivity | reflexivity | apply dispatched_refl]).
  - (* keydown *)
    unfold keydown. destruct (enabled this); simpl;
      [|exists this, h; split_and!; auto; apply dispatched_refl].
    set (data := keydownData _ _ _ _ _). set (this1 := set_keys _ this).
    destruct (triggerCallback_dispatched data this1 h) as (h1 & E1 & D1).
    change "keydown" with (kind_of data). unfold bind at 1. rewrite E1.
    destruct (shouldPreventDefault _ _ _); eexists; eexists;
      (split_and!; [reflexivity | reflexivity |]);
      apply (dispatched_callbacks this1 this); auto.
  - (* keyup *)
    unfold keyup. destruct (enabled this); simpl;
      [|exists this, h; split_and!; auto; apply dispatched_refl].
    set (data := keyupData _ _). set (this1 := set_keys _ this).
    destruct (triggerCallback_dispatched data this1 h) as (h1 & E1 & D1).
    change "keyup" with (kind_of data). unfold bind at 1. rewrite E1.
    eexists; eexists; (split_and!; [reflexivity | reflexivity |]).
    apply (dispatched_callbacks this1 this); auto.
  - (* touchstart *)
    unfold touchstart. destruct (enabled this); simpl;
      [|exists this, h; split_and!; auto; apply dispatched_refl].
    set (data := touchstartData _). set (this1 := fold_left _ _ this).
    assert (C1 : callbacks this1 = callbacks this)
      by apply touchstart_callbacks.
    destruct (triggerCallback_dispatched data this1 h) as (h1 & E1 & D1).
    change "touchstart" with (kind_of data). unfold bind at 1. rewrite E1.
    eexists; eexists; (split_and!; [reflexivity | exact C1 |]).
    apply (dispatched_callbacks this1 this); [congruence|]. exact D1.
  - (* touchmove *)
    unfold touchmove. destruct (enabled this); simpl;
      [|exists this, h; split_and!; auto; apply dispatched_refl].
    set (data := touchmoveData _). set (this1 := fold_left _ _ this).
    assert (C1 : callbacks this1 = callbacks this)
      by apply touchmove_callbacks.
    destruct (triggerCallback_dispatched data this1 h) as (h1 & E1 & D1).
    change "touchmove" with (kind_of data). unfold bind at 1. rewrite E1.
    eexists; eexists; (split_and!; [reflexivity | exact C1 |]).
    apply (dispatched_callbacks this1 this); [congruence|]. exact D1.
  - (* touchend *)
    unfold touchend. destruct (enabled this); simpl;
      [|exists this, h; split_and!; auto; apply dispatched_refl].
    destruct (touchend_each_returns sqrt changedTouches changedTouches now
                                    this h) as (this1 & h1 & E1 & C1 & D1).
    unfold bind at 1. rewrite E1.
    eexists; eexists; (split_and!; [reflexivity | exact C1 |]).
    exact D1.
Qed.

End Runs.
End InputRunFacts.

(** ** Runs of the performance manager *)

Module PerformanceRunFacts.
Import Host Performance Spec PerformanceRun JSFacts DispatchFacts SetFacts.
Import PerformanceFacts.
Local Open Scope string_scope.
Local Open Scope list_scope.

Section Runs.
Context {W : Type}.
Implicit Types (h : host performanceData W) (this : manager).

Lemma governor_dispatched_refl this h : dispatched this h h.
Proof. exists []. rewrite app_nil_r. auto. Qed.

Lemma governor_dispatched_trans this h h1 h2 :
  dispatched this h h1 -> dispatched this h1 h2 -> dispatched this h h2.
Proof.
  intros (n1 & C1 & F1) (n2 & C2 & F2). exists (n1 ++ n2). split.
  - rewrite C2, C1. now rewrite app_assoc.
  - apply Forall_app; auto.
Qed.

Lemma notified_dispatched (data : performanceData) (cbs : list callback)
  this h h' :
  notified data cbs h h' ->
  (forall c, c ∈ cbs -> c ∈ callbacks this) ->
  dispatched this h h'.
Proof.
  intros (new & C & N & _) Sub. exists new. split; [exact C|].
  apply Forall_forall. intros c Hc. apply Sub. rewrite <- N.
  apply list_elem_of_fmap. eauto.
Qed.

Lemma setQualityLevel_returns (nav : navigator) (level : string) this h :
  exists this' h',
    setQualityLevel nav level this h = (Returned this', h')
    /\ callbacks this' = callbacks this
    /\ dispatched this h h'.
Proof.
  unfold setQualityLevel. case_bool_decide as Hl; simpl;
    [|exists this, h; split_and!; auto; apply governor_dispatched_refl].
  unfold bind at 1.
  assert (Hstep : exists this1 h1,
    (if String.eqb level "auto"
     then bind (detectDevicePerformance nav this)
               (fun this => ret (set_adaptiveQuality true this))
     else ret (set_adaptiveQuality false (set_qualityLevel level this))) h
    = (Returned this1, h1)
    /\ callbacks this1 = callbacks this /\ calls h1 = calls h
    /\ qualityLevel this1 ∈ ["high"; "medium"; "low"]).
  { destruct (String.eqb level "auto") eqn:Ea.
    - destruct (detectDevicePerformance_returns nav this h)
        as (this1 & h1 & E1 & S1 & C1).
      exists (set_adaptiveQuality true this1), h1.
      unfold bind. rewrite E1. split_and!; auto.
      + rewrite S1. reflexivity.
      + apply (detectDevicePerformance_level _ _ _ _ _ E1).
    - eexists; eexists; split_and!; try reflexivity.
      cbn [qualityLevel set_adaptiveQuality set_qualityLevel].
      rewrite !elem_of_cons in *.
      destruct Hl as [->|[->|[->|[->|Hl]]]]; auto; try discriminate;
        try (now apply elem_of_nil in Hl). }
  destruct Hstep as (this1 & h1 & E1 & K1 & C1 & T1). rewrite E1.
  destruct (applyQualitySettings_returns this1 h1 (tiers_not_inherited _ T1))
    as (h2 & E2 & N2).
  unfold bind at 1. rewrite E2.
  destruct (saveSettings_returns this1 h2) as (h3 & E3 & C3).
  unfold bind at 1. rewrite E3.
  exists this1, h3. split_and!; auto.
  destruct N2 as (new & C & N & A). exists new. split.
  - rewrite C3, C, C1. reflexivity.
  - apply Forall_forall. intros c Hc. rewrite <- K1, <- N.
    apply list_elem_of_fmap. eauto.
Qed.

Lemma monitor_dispatched (now : Q) this h :
  exists this' h',
    monitor now this h = (Returned this', h')
    /\ callbacks this' = callbacks this
    /\ dispatched this h h'.
Proof.
  destruct (monitoringEnabled this) eqn:En.
  - destruct (monitor_returns now this h En)
      as (this' & h' & E & _ & _ & _ & _ & _ & _ & _ & C & N & _).
    exists this', h'. split_and!; auto.
    apply (notified_dispatched _ _ _ _ _ N).
    intros c. destruct (_ && _); [|intros Hc; now apply elem_of_nil in Hc].
    destruct (String.eqb _ _); rewrite ?elem_of_app;
      [intros [Hc|Hc]; [now apply elem_of_nil in Hc | exact Hc] | tauto].
  - exists this, h. unfold monitor. rewrite En. split_and!; auto.
    apply governor_dispatched_refl.
Qed.

(** Every operation returns; the set of callbacks changes only by
    registration and by the function that registration returns; and only
    registered callbacks are called. *)
Lemma governor_perform_returns (a : action) this h :
  exists this' h',
    perform a this h = (Returned this', h')
    /\ callbacks this'
       = match a with
         | subscribe cb => JS.Set_add cb (callbacks this)
         | unsubscribe cb => JS.Set_delete cb (callbacks this)
         | _ => callbacks this
         end
    /\ dispatched this h h'.
Proof.
  destruct a; simpl;
    try (eexists; eexists; split_and!;
         [reflexivity | reflexivity | apply governor_dispatched_refl]).
  - (* startMonitoring *)
    unfold startMonitoring. destruct (monitoringEnabled this) eqn:En.
    + exists this, h. split_and!; auto. apply governor_dispatched_refl.
    + destruct (monitor_dispatched now (set_monitoringEnabled true this) h)
        as (this' & h' & E & C & D).
      exists this', h'. auto.
  - (* monitor *) apply monitor_dispatched.
  - (* adjustQuality *)
    destruct (adjustQuality_returns this h)
      as (this' & h' & E & S & _ & _ & N).
    exists this', h'. split_and!; auto.
    + rewrite S. reflexivity.
    + apply (notified_dispatched _ _ _ _ _ N).
      intros c. destruct (String.eqb _ _); [|auto].
      intros Hc. now apply elem_of_nil in Hc.
  - (* notifyCallbacks *)
    destruct (notifyCallbacks_returns this h) as (h' & E & D).
    exists this, h'. unfold bind. rewrite E. split_and!; auto.
    apply delivered_notified in D.
    apply (notified_dispatched _ _ _ _ _ D). auto.
  - (* setQualityLevel *) apply setQualityLevel_returns.
Qed.

(** While a callback is not registered, nothing calls it. *)
Lemma governor_performs_never_calls (cb : callback) (acts : list action) this h :
  (subscribe cb) ∉ acts ->
  cb ∉ callbacks this ->
  exists this' h',
    performs acts this h = (Returned this', h')
    /\ (cb ∉ callbacks this')
    /\ silent_for cb h h'.
Proof.
  revert this h. induction acts as [|a acts IH]; intros this h Hs Hc.
  - exists this, h. split_and!; auto. exists []. rewrite app_nil_r. auto.
  - apply not_elem_of_cons in Hs. destruct Hs as [Ha Hs].
    destruct (governor_perform_returns a this h) as (this1 & h1 & E1 & C1 & D1).
    assert (Hc1 : cb ∉ callbacks this1).
    { rewrite C1. destruct a; auto.
      - rewrite Set_add_other. intros [->|?]; [congruence | contradiction].
      - rewrite Set_delete_elem. tauto. }
    destruct (IH this1 h1 Hs Hc1) as (this2 & h2 & E2 & C2 & n2 & K2 & F2).
    exists this2, h2. split_and!; auto.
    + simpl. unfold bind. rewrite E1. exact E2.
    + destruct D1 as (n1 & K1 & F1). exists (n1 ++ n2). split.
      * rewrite K2, K1. now rewrite app_assoc.
      * apply Forall_app. split; [|exact F2].
        eapply Forall_impl; [exact F1|]. simpl. intros c Hin Heq.
        rewrite Heq in Hin. contradiction.
Qed.

(** The callbacks are a set: no operation registers one twice. *)
Lemma governor_performs_NoDup (acts : list action) this h this' h' :
  NoDup (callbacks this) ->
  performs acts this h = (Returned this', h') ->
  NoDup (callbacks this').
Proof.
  revert this h. induction acts as [|a acts IH]; intros this h Hn E.
  - simpl in E. injection E as <- <-. exact Hn.
  - destruct (governor_perform_returns a this h) as (this1 & h1 & E1 & C1 & _).
    simpl in E. unfold bind in E. rewrite E1 in E.
    apply (IH this1 h1); [|exact E].
    rewrite C1. destruct a; auto using Set_add_NoDup, Set_delete_NoDup.
Qed.

End Runs.
End PerformanceRunFacts.

(** ** Runs of the input manager, continued *)

Module InputTraceFacts.
Import Host Input Spec InputRun JSFacts DispatchFacts SetFacts InputFacts.
Import InputSubscriptionFacts InputRunFacts.
Local Open Scope string_scope.
Local Open Scope list_scope.

Section Runs.
Context {W : Type} `{JS.Strings}.
Implicit Types (h : host eventData W) (this : manager).

Lemma subscribers_callbacks (event : string) this this' :
  callbacks this' = callbacks this ->
  subscribers event this' = subscribers event this.
Proof. unfold subscribers. now intros ->. Qed.

(** What an operation does to the subscribers of an event. *)
Lemma perform_subscribers (sqrt : Q -> Q) (a : action) (event : string)
  this h :
  exists this' h',
    perform sqrt a this h = (Returned this', h')
    /\ subscribers event this'
       = match a with
         | subscribe e cb =>
             if decide (e = event)
             then JS.Set_add cb (subscribers event this)
             else subscribers event this
         | unsubscribe e cb =>
             if decide (e = event)
             then JS.Set_delete cb (subscribers event this)
             else subscribers event this
         | disposing => []
         | _ => subscribers event this
         end
    /\ dispatched this h h'.
Proof.
  destruct (perform_returns sqrt a this h) as (this' & h' & E & C & D).
  exists this', h'. split_and!; auto.
  destruct a as [e c|e c|?|?| |? ?|?|? ?|? ? ?|? ? ?| | | | ];
    try (now apply subscribers_callbacks).
  - (* on *)
    rewrite (subscribers_callbacks event (fst (on e c this))) by exact C.
    case_decide as He.
    + subst. apply on_subscribers.
    + apply on_subscribers_other. congruence.
  - (* off *)
    rewrite (subscribers_callbacks event (off e c this)) by exact C.
    case_decide as He.
    + subst. apply off_subscribers.
    + apply off_subscribers_other. congruence.
  - (* dispose *)
    unfold subscribers. rewrite C. now rewrite lookup_empty.
Qed.

(** While a callback is not subscribed to an event, no publish of the event
    calls it. *)
Lemma performs_never_calls (sqrt : Q -> Q) (event : string) (cb : callback)
  (acts : list action) this h :
  (subscribe event cb) ∉ acts ->
  cb ∉ subscribers event this ->
  exists this' h',
    performs sqrt acts this h = (Returned this', h')
    /\ (cb ∉ subscribers event this')
    /\ silent_for event cb h h'.
Proof.
  revert this h. induction acts as [|a acts IH]; intros this h Hs Hc.
  - exists this, h. split_and!; auto. exists []. rewrite app_nil_r. auto.
  - apply not_elem_of_cons in Hs. destruct Hs as [Ha Hs].
    destruct (perform_subscribers sqrt a event this h)
      as (this1 & h1 & E1 & C1 & D1).
    assert (Hc1 : cb ∉ subscribers event this1).
    { rewrite C1. destruct a; auto.
      - case_decide; [|assumption]. subst.
        rewrite Set_add_other. intros [->|?]; [congruence | contradiction].
      - case_decide; [|assumption]. rewrite Set_delete_elem. tauto.
      - apply not_elem_of_nil. }
    destruct (IH this1 h1 Hs Hc1) as (this2 & h2 & E2 & C2 & n2 & K2 & F2).
    exists this2, h2. split_and!; auto.
    + simpl. unfold bind. rewrite E1. exact E2.
    + destruct D1 as (n1 & K1 & F1). exists (n1 ++ n2). split.
      * rewrite K2, K1. now rewrite app_assoc.
      * apply Forall_app. split; [|exact F2].
        eapply Forall_impl; [exact F1|]. simpl. intros c Hin [Hcb Hk].
        rewrite Hcb, Hk in Hin. contradiction.
Qed.

(** The subscribers of an event are a set: no operation subscribes one
    twice. *)
Lemma performs_NoDup (sqrt : Q -> Q) (acts : list action) this h this' h' :
  (forall event, NoDup (subscribers event this)) ->
  performs sqrt acts this h = (Returned this', h') ->
  forall event, NoDup (subscribers event this').
Proof.
  revert this h. induction acts as [|a acts IH]; intros this h Hn E.
  - simpl in E. injection E as <- <-. exact Hn.
  - simpl in E. unfold bind in E.
    destruct (perform sqrt a this h) as [[this1|e] h1] eqn:E1.
    + apply (IH this1 h1); [|exact E]. intros event.
      destruct (perform_subscribers sqrt a event this h)
        as (this1' & h1' & E1' & C1 & _).
      rewrite E1 in E1'. injection E1' as <- <-.
      rewrite C1. destruct a; auto; try case_decide;
        auto using Set_add_NoDup, Set_delete_NoDup, NoDup_nil_2.
    + discriminate.
Qed.

End Runs.
End InputTraceFacts.

(** ** Subscribing and unsubscribing *)

Module SubscriptionFacts.
Import Host Spec JSFacts DispatchFacts SetFacts.
Local Open Scope string_scope.
Local Open Scope list_scope.

Lemma occurrences_fmap {A B} `{EqDecision B} (f : A -> B) (x : B)
  (l : list A) :
  length (filter (fun a => f a = x) l)
  = length (filter (fun y => y = x) (f <$> l)).
Proof.
  induction l as [|a l IH]; [reflexivity|].
  rewrite fmap_cons. destruct (decide (f a = x)) as [E|E].
  - rewrite !filter_cons_True by assumption. simpl. now rewrite IH.
  - rewrite !filter_cons_False by assumption. exact IH.
Qed.

Lemma silent_calls_since {P W} (Q : call_record -> Prop) (h h' : host P W) :
  (exists new, calls h' = calls h ++ new /\ Forall Q new) ->
  calls h' = calls h ++ calls_since h h' /\ Forall Q (calls_since h h').
Proof.
  intros (new & C & F). unfold calls_since.
  rewrite C, drop_app_length. auto.
Qed.

(** C7.  The function returned by a subscription removes the callback, and
    only it, from the subscribers of its event, whatever has happened since:
    a publish then calls the other subscribers, in their order, and not the
    removed one, and so does every later publish in any run in which the
    callback is not subscribed again.  Calling the function again, or when
    the callback is not subscribed or the event has no subscribers, leaves
    the manager as it is.  This holds for [on] of the input manager and for
    [onPerformanceChange] of the performance manager. *)
Theorem unsubscribe_removes_callback :
  (forall (W : Type) `{JS.Strings} (event : string) (cb : callback)
          (this s : Input.manager),
      let unsubscribe := snd (Input.on event cb this) in
      subscribers event (unsubscribe s)
      = filter (fun c => c <> cb) (subscribers event s)
      /\ (forall (data : Input.eventData) (h : host Input.eventData W),
            exists h',
              Input.triggerCallback event data (unsubscribe s) h
              = (Returned tt, h')
              /\ callee <$> calls_since h h'
                 = filter (fun c => c <> cb) (subscribers event s)
              /\ cb ∉ callee <$> calls_since h h')
      /\ (forall (sqrt : Q -> Q) (acts : list InputRun.action)
                (h : host Input.eventData W),
            (InputRun.subscribe event cb) ∉ acts ->
            exists s' h',
              InputRun.performs sqrt acts (unsubscribe s) h = (Returned s', h')
              /\ calls h' = calls h ++ calls_since h h'
              /\ Forall (fun c => ~ (callee c = cb
                                     /\ InputRun.kind_of (argument c) = event))
                        (calls_since h h'))
      /\ unsubscribe (unsubscribe s) = unsubscribe s
      /\ (cb ∉ subscribers event s -> unsubscribe s = s)
      /\ (Input.callbacks s !! event = None -> unsubscribe s = s)
      /\ (forall event', event' <> event ->
            subscribers event' (unsubscribe s) = subscribers event' s)
      /\ Input.keys (unsubscribe s) = Input.keys s
      /\ Input.touches (unsubscribe s) = Input.touches s)
  /\ (forall (W : Type) (cb : callback) (this s : Performance.manager),
        let unsubscribe := snd (Performance.onPerformanceChange cb this) in
        Performance.callbacks (unsubscribe s)
        = filter (fun c => c <> cb) (Performance.callbacks s)
        /\ (forall h : host Performance.performanceData W,
              exists h',
                Performance.notifyCallbacks (unsubscribe s) h
                = (Returned tt, h')
                /\ callee <$> calls_since h h'
                   = filter (fun c => c <> cb) (Performance.callbacks s)
                /\ cb ∉ callee <$> calls_since h h')
        /\ (forall (acts : list PerformanceRun.action)
                  (h : host Performance.performanceData W),
              (PerformanceRun.subscribe cb) ∉ acts ->
              exists s' h',
                PerformanceRun.performs acts (unsubscribe s) h
                = (Returned s', h')
                /\ calls h' = calls h ++ calls_since h h'
                /\ Forall (fun c => callee c <> cb) (calls_since h h'))
        /\ unsubscribe (unsubscribe s) = unsubscribe s
        /\ (cb ∉ Performance.callbacks s -> unsubscribe s = s)).
Proof.
  split.
  - intros W strings event cb this s unsubscribe.
    assert (U : forall s, unsubscribe s = Input.off event cb s)
      by reflexivity.
    assert (G : cb ∉ subscribers event (unsubscribe s)).
    { rewrite U, InputSubscriptionFacts.off_subscribers.
      apply Set_delete_gone. }
    split_and!.
    + rewrite U. apply InputSubscriptionFacts.off_subscribers.
    + intros data h.
      destruct (InputFacts.triggerCallback_returns event data (unsubscribe s) h)
        as (h' & E & D).
      apply delivered_calls_since in D. destruct D as [N _].
      exists h'. split; [exact E|].
      rewrite N, U, InputSubscriptionFacts.off_subscribers.
      split; [reflexivity | apply Set_delete_gone].
    + intros sqrt acts h Hs.
      destruct (InputTraceFacts.performs_never_calls sqrt event cb acts
                  (unsubscribe s) h Hs G) as (s' & h' & E & _ & D).
      exists s', h'. split; [exact E|]. now apply silent_calls_since.
    + rewrite !U. apply InputSubscriptionFacts.off_twice.
    + intros Hc. rewrite U. now apply InputSubscriptionFacts.off_absent.
    + intros Hn. rewrite U. unfold Input.off. now rewrite Hn.
    + intros event' Hne. rewrite U.
      now apply InputSubscriptionFacts.off_subscribers_other.
    + rewrite U. unfold Input.off.
      now destruct (Input.callbacks s !! event).
    + rewrite U. unfold Input.off.
      now destruct (Input.callbacks s !! event).
  - intros W cb this s unsubscribe.
    assert (U : forall s, unsubscribe s
                = Performance.set_callbacks
                    (JS.Set_delete cb (Performance.callbacks s)) s)
      by reflexivity.
    assert (G : cb ∉ Performance.callbacks (unsubscribe s)).
    { rewrite U. simpl. apply Set_delete_gone. }
    split_and!.
    + reflexivity.
    + intros h.
      destruct (PerformanceFacts.notifyCallbacks_returns (unsubscribe s) h)
        as (h' & E & D).
      apply delivered_calls_since in D. destruct D as [N _].
      exists h'. split; [exact E|]. rewrite N.
      split; [reflexivity | exact G].
    + intros acts h Hs.
      destruct (PerformanceRunFacts.governor_performs_never_calls cb acts
                  (unsubscribe s) h Hs G) as (s' & h' & E & _ & D).
      exists s', h'. split; [exact E|]. now apply silent_calls_since.
    + rewrite !U. simpl. rewrite Set_delete_twice. now destruct s.
    + intros Hc. rewrite U, Set_delete_absent by assumption. now destruct s.
Qed.

Section Ascii.
#[local] Existing Instance Examples.ascii_strings.

(** Callback 1 unsubscribes from [keydown]; a key is pressed and released;
    callback 1 is not called with key-down data. *)
Lemma unsubscribe_removes_callback_witness :
  let e := Input.mkKeyboardEvent "a" false false false in
  let acts := [InputRun.key_down e; InputRun.key_up e] in
  let s := fst (Input.on "keydown" 2%nat
                  (fst (Input.on "keydown" 1%nat Input.constructor))) in
  ((InputRun.subscribe "keydown" 1%nat) ∉ acts)
  /\ exists s' h',
       InputRun.performs (fun x => x) acts
         (snd (Input.on "keydown" 1%nat Input.constructor) s)
         (Examples.counting_host Input.eventData)
       = (Returned s', h')
       /\ Forall (fun c => ~ (callee c = 1%nat
                              /\ InputRun.kind_of (argument c) = "keydown"))
                 (calls_since (Examples.counting_host Input.eventData) h').
Proof.
  intros e acts s.
  assert (Hs : (InputRun.subscribe "keydown" 1%nat) ∉ acts).
  { intros H. apply elem_of_cons in H. destruct H as [H|H]; [discriminate|].
    apply elem_of_cons in H. destruct H as [H|H]; [discriminate|].
    now apply elem_of_nil in H. }
  split; [exact Hs|].
  destruct (proj1 unsubscribe_removes_callback nat _ "keydown" 1%nat
              Input.constructor s) as (_ & _ & T & _).
  destruct (T (fun x => x) acts (Examples.counting_host Input.eventData) Hs)
    as (s' & h' & E & _ & F).
  exists s', h'. split; assumption.
Defined.

End Ascii.

(** C10.  Subscribing a callback that is subscribed to the event leaves the
    manager as it is; a publish then calls the callback exactly once; the
    two functions returned by the two subscriptions are the same function,
    and one call of it removes the callback from the subscribers, so that no
    publish calls it until it is subscribed again.  This holds for [on] of
    the input manager and for [onPerformanceChange] of the performance
    manager. *)
Theorem duplicate_subscription_is_idempotent :
  (forall (W : Type) `{JS.Strings} (event : string) (cb : callback)
          (this : Input.manager),
      let this1 := fst (Input.on event cb this) in
      let this2 := fst (Input.on event cb this1) in
      let unsubscribe1 := snd (Input.on event cb this) in
      let unsubscribe2 := snd (Input.on event cb this1) in
      this2 = this1
      /\ (NoDup (subscribers event this) ->
          NoDup (subscribers event this2)
          /\ forall (data : Input.eventData) (h : host Input.eventData W),
               exists h',
                 Input.triggerCallback event data this2 h = (Returned tt, h')
                 /\ length (filter (fun c => callee c = cb)
                                   (calls_since h h')) = 1%nat)
      /\ (forall s, unsubscribe1 s = unsubscribe2 s)
      /\ (cb ∉ subscribers event (unsubscribe1 this2))
      /\ (forall (data : Input.eventData) (h : host Input.eventData W),
            exists h',
              Input.triggerCallback event data (unsubscribe1 this2) h
              = (Returned tt, h')
              /\ filter (fun c => callee c = cb) (calls_since h h') = [])
      /\ (forall (sqrt : Q -> Q) (acts : list InputRun.action)
                (h : host Input.eventData W),
            (InputRun.subscribe event cb) ∉ acts ->
            exists s' h',
              InputRun.performs sqrt acts (unsubscribe1 this2) h
              = (Returned s', h')
              /\ Forall (fun c => ~ (callee c = cb
                                     /\ InputRun.kind_of (argument c) = event))
                        (calls_since h h')))
  /\ (forall (W : Type) (cb : callback) (this : Performance.manager),
        let this1 := fst (Performance.onPerformanceChange cb this) in
        let this2 := fst (Performance.onPerformanceChange cb this1) in
        let unsubscribe1 := snd (Performance.onPerformanceChange cb this) in
        let unsubscribe2 := snd (Performance.onPerformanceChange cb this1) in
        this2 = this1
        /\ (NoDup (Performance.callbacks this) ->
            NoDup (Performance.callbacks this2)
            /\ forall h : host Performance.performanceData W,
                 exists h',
                   Performance.notifyCallbacks this2 h = (Returned tt, h')
                   /\ length (filter (fun c => callee c = cb)
                                     (calls_since h h')) = 1%nat)
        /\ (forall s, unsubscribe1 s = unsubscribe2 s)
        /\ (cb ∉ Performance.callbacks (unsubscribe1 this2))
        /\ (forall h : host Performance.performanceData W,
              exists h',
                Performance.notifyCallbacks (unsubscribe1 this2) h
                = (Returned tt, h')
                /\ filter (fun c => callee c = cb) (calls_since h h') = [])
        /\ (forall (acts : list PerformanceRun.action)
                  (h : host Performance.performanceData W),
              (PerformanceRun.subscribe cb) ∉ acts ->
              exists s' h',
                PerformanceRun.performs acts (unsubscribe1 this2) h
                = (Returned s', h')
                /\ Forall (fun c => callee c <> cb) (calls_since h h'))).
Proof.
  split.
  - intros W strings event cb this this1 this2 unsubscribe1 unsubscribe2.
    assert (In1 : cb ∈ subscribers event this1).
    { subst this1. rewrite InputSubscriptionFacts.on_subscribers.
      apply Set_add_elem. }
    assert (E21 : this2 = this1).
    { subst this2. now apply InputSubscriptionFacts.on_present. }
    assert (G : cb ∉ subscribers event (unsubscribe1 this2)).
    { change (unsubscribe1 this2) with (Input.off event cb this2).
      rewrite InputSubscriptionFacts.off_subscribers.
      apply Set_delete_gone. }
    split_and!; auto.
    + intros Hn.
      assert (Hn2 : NoDup (subscribers event this2)).
      { rewrite E21. subst this1.
        rewrite InputSubscriptionFacts.on_subscribers.
        now apply Set_add_NoDup. }
      split; [exact Hn2|]. intros data h.
      destruct (InputFacts.triggerCallback_returns event data this2 h)
        as (h' & E & D).
      apply delivered_calls_since in D. destruct D as [N _].
      exists h'. split; [exact E|].
      rewrite (occurrences_fmap callee cb), N.
      apply NoDup_occurs_once; [exact Hn2 | now rewrite E21].
    + intros data h.
      destruct (InputFacts.triggerCallback_returns event data
                  (unsubscribe1 this2) h) as (h' & E & D).
      apply delivered_calls_since in D. destruct D as [N _].
      exists h'. split; [exact E|].
      apply length_zero_iff_nil.
      rewrite (occurrences_fmap callee cb), N.
      now rewrite absent_occurs_never.
    + intros sqrt acts h Hs.
      destruct (InputTraceFacts.performs_never_calls sqrt event cb acts
                  (unsubscribe1 this2) h Hs G) as (s' & h' & E & _ & D).
      exists s', h'. split; [exact E|]. now apply silent_calls_since.
  - intros W cb this this1 this2 unsubscribe1 unsubscribe2.
    assert (In1 : cb ∈ Performance.callbacks this1).
    { subst this1. simpl. apply Set_add_elem. }
    assert (E21 : this2 = this1).
    { subst this2. unfold Performance.onPerformanceChange. cbn [fst].
      rewrite Set_add_present by exact In1. now destruct this1. }
    assert (G : cb ∉ Performance.callbacks (unsubscribe1 this2)).
    { subst unsubscribe1. simpl. apply Set_delete_gone. }
    split_and!; auto.
    + intros Hn.
      assert (Hn2 : NoDup (Performance.callbacks this2)).
      { rewrite E21. subst this1. simpl. now apply Set_add_NoDup. }
      split; [exact Hn2|]. intros h.
      destruct (PerformanceFacts.notifyCallbacks_returns this2 h)
        as (h' & E & D).
      apply delivered_calls_since in D. destruct D as [N _].
      exists h'. split; [exact E|].
      rewrite (occurrences_fmap callee cb), N.
      apply NoDup_occurs_once; [exact Hn2 | now rewrite E21].
    + intros h.
      destruct (PerformanceFacts.notifyCallbacks_returns
                  (unsubscribe1 this2) h) as (h' & E & D).
      apply delivered_calls_since in D. destruct D as [N _].
      exists h'. split; [exact E|].
      apply length_zero_iff_nil.
      rewrite (occurrences_fmap callee cb), N.
      now rewrite absent_occurs_never.
    + intros acts h Hs.
      destruct (PerformanceRunFacts.governor_performs_never_calls cb acts
                  (unsubscribe1 this2) h Hs G) as (s' & h' & E & _ & D).
      exists s', h'. split; [exact E|]. now apply silent_calls_since.
Qed.

Section Ascii.
#[local] Existing Instance Examples.ascii_strings.

(** Callback 2 subscribes twice to [keydown] of a new input manager; a
    publish calls it once. *)
Lemma duplicate_subscription_is_idempotent_witness :
  let this := Input.constructor in
  let this2 := fst (Input.on "keydown" 2%nat
                      (fst (Input.on "keydown" 2%nat this))) in
  let e := Input.mkKeyboardEvent "a" false false false in
  let data := Input.keydownData "a" e false false false in
  NoDup (subscribers "keydown" this)
  /\ exists h',
       Input.triggerCallback "keydown" data this2
         (Examples.counting_host Input.eventData)
       = (Returned tt, h')
       /\ length (filter (fun c => callee c = 2%nat)
                         (calls_since (Examples.counting_host Input.eventData)
                                      h')) = 1%nat.
Proof.
  intros this this2 e data.
  assert (Hn : NoDup (subscribers "keydown" this)) by apply NoDup_nil_2.
  split; [exact Hn|].
  destruct (proj1 duplicate_subscription_is_idempotent nat _ "keydown" 2%nat
              this) as (_ & T & _).
  destruct (T Hn) as (_ & T').
  exact (T' data (Examples.counting_host Input.eventData)).
Defined.

End Ascii.

End SubscriptionFacts.

(** ** Keys: tracking, queries, default prevention *)

Module KeyTrackingFacts.
Import Host Input Spec InputRun JSFacts DispatchFacts SetFacts InputFacts.
Local Open Scope string_scope.
Local Open Scope list_scope.

Section Keys.
Context {W : Type} `{JS.Strings}.
Implicit Types (h : host eventData W) (this : manager).

Lemma keydown_returns (e : keyboardEvent) this h :
  enabled this = true ->
  exists h1,
    delivered (warn_input_callback "keydown")
              (keydownData (JS.toLowerCase (key e)) e
                           (ctrlKey e) (shiftKey e) (altKey e))
              (subscribers "keydown" this) h h1
    /\ keydown e this h
       = (Returned (set_keys (<[JS.toLowerCase (key e) := true]> (keys this))
                             this),
          if shouldPreventDefault "keydown" (JS.toLowerCase (key e)) this
          then set_prevented (S (prevented h1)) h1 else h1).
Proof.
  intros En. unfold keydown. rewrite En. cbn [negb].
  set (k := JS.toLowerCase (key e)).
  set (this1 := set_keys _ this).
  destruct (triggerCallback_returns "keydown"
              (keydownData k e (ctrlKey e) (shiftKey e) (altKey e)) this1 h)
    as (h1 & E1 & D1).
  exists h1. split; [exact D1|].
  unfold bind at 1. rewrite E1.
  change (shouldPreventDefault "keydown" k this1)
    with (shouldPreventDefault "keydown" k this).
  now destruct (shouldPreventDefault "keydown" k this).
Qed.

Lemma keyup_returns (e : keyboardEvent) this h :
  enabled this = true ->
  exists h1,
    delivered (warn_input_callback "keyup")
              (keyupData (JS.toLowerCase (key e)) e)
              (subscribers "keyup" this) h h1
    /\ keyup e this h
       = (Returned (set_keys (<[JS.toLowerCase (key e) := false]> (keys this))
                             this), h1).
Proof.
  intros En. unfold keyup. rewrite En. cbn [negb].
  set (k := JS.toLowerCase (key e)).
  set (this1 := set_keys _ this).
  destruct (triggerCallback_returns "keyup" (keyupData k e) this1 h)
    as (h1 & E1 & D1).
  exists h1. split; [exact D1|].
  unfold bind at 1. now rewrite E1.
Qed.

Lemma isKeyPressed_insert (k k' : string) (b : bool) this :
  isKeyPressed k (set_keys (<[k' := b]> (keys this)) this)
  = if decide (JS.toLowerCase k = k') then b else isKeyPressed k this.
Proof.
  unfold isKeyPressed. cbn [keys set_keys].
  rewrite lookup_insert. destruct (decide (k' = JS.toLowerCase k)) as [->|Hne].
  - now rewrite decide_True by reflexivity.
  - now rewrite decide_False by congruence.
Qed.

End Keys.

(** X1.  While the manager is enabled, a key-down marks the key pressed and
    a key-up marks it released, whatever the letter case of the event's key
    and of the query: afterwards [isKeyPressed k] is the new state for every
    [k] that lower-cases to the same name and is as before for every other
    [k].  The subscribers of the event are called once each, in order, with
    the lower-cased key. *)
Theorem key_events_track_keys (W : Type) `{JS.Strings} (e : keyboardEvent)
  (this : manager) (h : host eventData W) :
  enabled this = true ->
  (exists this' h',
      keydown e this h = (Returned this', h')
      /\ (forall k : string,
            isKeyPressed k this'
            = if decide (JS.toLowerCase k = JS.toLowerCase (key e))
              then true else isKeyPressed k this)
      /\ callee <$> calls_since h h' = subscribers "keydown" this
      /\ Forall (fun c => argument c
                          = keydownData (JS.toLowerCase (key e)) e
                                        (ctrlKey e) (shiftKey e) (altKey e))
                (calls_since h h')
      /\ touches this' = touches this
      /\ callbacks this' = callbacks this)
  /\ (exists this' h',
        keyup e this h = (Returned this', h')
        /\ (forall k : string,
              isKeyPressed k this'
              = if decide (JS.toLowerCase k = JS.toLowerCase (key e))
                then false else isKeyPressed k this)
        /\ callee <$> calls_since h h' = subscribers "keyup" this
        /\ Forall (fun c => argument c
                            = keyupData (JS.toLowerCase (key e)) e)
                  (calls_since h h')
        /\ touches this' = touches this
        /\ callbacks this' = callbacks this).
Proof.
  intros En. split.
  - destruct (keydown_returns e this h En) as (h1 & D & E).
    eexists. eexists. split; [exact E|].
    apply delivered_calls_since in D. destruct D as [N A].
    split_and!; try reflexivity.
    + intros k. apply isKeyPressed_insert.
    + destruct (shouldPreventDefault _ _ _); exact N.
    + destruct (shouldPreventDefault _ _ _); exact A.
  - destruct (keyup_returns e this h En) as (h1 & D & E).
    eexists. eexists. split; [exact E|].
    apply delivered_calls_since in D. destruct D as [N A].
    split_and!; try reflexivity; auto.
    intros k. apply isKeyPressed_insert.
Qed.

Section Ascii.
#[local] Existing Instance Examples.ascii_strings.

(** Shift+A goes down on a new manager: "a" and "A" both count as pressed. *)
Lemma key_events_track_keys_witness :
  let e := mkKeyboardEvent "A" false true false in
  enabled constructor = true
  /\ exists this' h',
       keydown e constructor (Examples.counting_host eventData)
       = (Returned this', h')
       /\ isKeyPressed "a" this' = true
       /\ isKeyPressed "A" this' = true.
Proof.
  intros e. split; [reflexivity|].
  destruct (proj1 (key_events_track_keys nat e constructor
                     (Examples.counting_host eventData) eq_refl))
    as (this' & h' & E & K & _).
  exists this', h'. split; [exact E|].
  split; rewrite K; reflexivity.
Defined.

End Ascii.

End KeyTrackingFacts.

(** ** Keys: queries *)

Module KeyQueryFacts.
Import Host Input Spec InputRun JSFacts DispatchFacts SetFacts InputFacts.
Import KeyTrackingFacts.
Local Open Scope string_scope.
Local Open Scope list_scope.

Lemma lower_ascii_twice (c : ascii) :
  JS.lower_ascii (JS.lower_ascii c) = JS.lower_ascii c.
Proof. destruct c as [[] [] [] [] [] [] [] []]; reflexivity. Qed.

Lemma toLowerCase_twice (s : string) :
  JS.toLowerCase_ascii (JS.toLowerCase_ascii s) = JS.toLowerCase_ascii s.
Proof.
  induction s as [|c s IH]; [reflexivity|].
  simpl. now rewrite lower_ascii_twice, IH.
Qed.

(** X2.  The pressed keys are the names that the key map maps to true, each
    listed once; a key that has been released stays in the map and is not
    listed; and [isKeyPressed] agrees with the list on the lower-cased
    name. *)
Theorem pressed_keys_are_the_true_entries `{JS.Strings} (this : manager) :
  (forall k : string, k ∈ getPressedKeys this <-> keys this !! k = Some true)
  /\ NoDup (getPressedKeys this)
  /\ (forall k : string,
        isKeyPressed k this = true
        <-> JS.toLowerCase k ∈ getPressedKeys this)
  /\ (forall k : string,
        keys this !! k = Some false -> k ∉ getPressedKeys this).
Proof.
  assert (M : forall k : string,
             k ∈ getPressedKeys this <-> keys this !! k = Some true).
  { intros k. unfold getPressedKeys. rewrite list_elem_of_fmap. split.
    - intros ([k' b] & -> & Hin). apply list_elem_of_filter in Hin.
      destruct Hin as [Hb Hin]. simpl in Hb. subst b.
      now apply elem_of_map_to_list in Hin.
    - intros Hk. exists (k, true). split; [reflexivity|].
      apply list_elem_of_filter. split; [reflexivity|].
      now apply elem_of_map_to_list. }
  split_and!.
  - exact M.
  - unfold getPressedKeys.
    eapply sublist_NoDup;
      [apply (NoDup_fst_map_to_list (keys this))
      | apply fmap_sublist, sublist_filter].
  - intros k. rewrite M. unfold isKeyPressed.
    destruct (keys this !! JS.toLowerCase k) as [[]|]; simpl;
      split; congruence.
  - intros k Hk Hin. apply M in Hin. congruence.
Qed.

(** X3.  The movement vector has components in {-1, 0, 1} and opposite keys
    cancel; the direction is the first of up, down, left, right that has one
    of its two keys pressed, and null exactly when none has, so that a
    non-zero vector always has a direction, while two opposite keys give a
    direction with a zero component. *)
Theorem direction_and_movement `{JS.Strings} (this : manager) :
  let up := isKeyPressed "arrowup" this || isKeyPressed "w" this in
  let down := isKeyPressed "arrowdown" this || isKeyPressed "s" this in
  let left := isKeyPressed "arrowleft" this || isKeyPressed "a" this in
  let right := isKeyPressed "arrowright" this || isKeyPressed "d" this in
  ((-1 <= fst (getMovementVector this) <= 1)%Z
   /\ (-1 <= snd (getMovementVector this) <= 1)%Z)
  /\ (fst (getMovementVector this) = 0%Z <-> left = right)
  /\ (snd (getMovementVector this) = 0%Z <-> up = down)
  /\ (fst (getMovementVector this) = 1%Z <-> right = true /\ left = false)
  /\ (snd (getMovementVector this) = 1%Z <-> down = true /\ up = false)
  /\ getDirection this
     = (if up then Some "up" else if down then Some "down"
        else if left then Some "left" else if right then Some "right"
        else None)
  /\ (getDirection this = None
      <-> up = false /\ down = false /\ left = false /\ right = false)
  /\ (getMovementVector this = (0, 0)%Z \/ getDirection this <> None).
Proof.
  unfold getMovementVector, getDirection. cbv zeta.
  destruct (isKeyPressed "arrowup" this || isKeyPressed "w" this);
    destruct (isKeyPressed "arrowdown" this || isKeyPressed "s" this);
    destruct (isKeyPressed "arrowleft" this || isKeyPressed "a" this);
    destruct (isKeyPressed "arrowright" this || isKeyPressed "d" this);
    cbn; split_and!; try reflexivity; try lia;
    try (split; intros; repeat split; try discriminate; try lia;
         try congruence; try tauto);
    try (intros; discriminate); try congruence.
  all: try match goal with
       | H : _ /\ _ |- _ => destruct H; congruence
       | H : _ /\ _ /\ _ /\ _ |- _ =>
           destruct H as (? & ? & ? & ?); congruence
       end.
  all: try (left; reflexivity); try (right; discriminate).
Qed.

End KeyQueryFacts.

(** ** Default prevention, disabling and disposal *)

Module InputControlFacts.
Import Host Input Spec InputRun InputEvents JSFacts DispatchFacts SetFacts.
Import InputFacts KeyTrackingFacts KeyQueryFacts InputSubscriptionFacts.
Import InputRunFacts.
Local Open Scope string_scope.
Local Open Scope list_scope.

Lemma shouldPreventDefault_set (event event' k k' : string) (prevent : bool)
  (this : manager) :
  shouldPreventDefault event k (setPreventDefault event' k' prevent this)
  = if decide (event = event' /\ k = k') then prevent
    else shouldPreventDefault event k this.
Proof.
  unfold shouldPreventDefault, setPreventDefault. cbn [preventDefaultConfig
    set_preventDefaultConfig].
  set (config := default ∅ (preventDefaultConfig this)).
  assert (Hold : match preventDefaultConfig this with
                 | Some c => match c !! event with
                             | Some eventKeys => bool_decide (k ∈ eventKeys)
                             | None => false
                             end
                 | None => false
                 end
                 = match config !! event with
                   | Some eventKeys => bool_decide (k ∈ eventKeys)
                   | None => false
                   end).
  { subst config. destruct (preventDefaultConfig this); simpl; [reflexivity|].
    now rewrite lookup_empty. }
  rewrite Hold. clear Hold. clearbody config.
  destruct (decide (event = event')) as [->|Hne].
  - rewrite lookup_alter_eq.
    assert (Hl : (if bool_decide (is_Some (config !! event')) then config
                  else <[event' := []]> config) !! event'
                 = Some (default [] (config !! event'))).
    { case_bool_decide as Hs.
      - destruct Hs as [l Hl]. now rewrite Hl.
      - apply eq_None_not_Some in Hs. rewrite Hs. simpl.
        apply lookup_insert_eq. }
    rewrite Hl. simpl.
    destruct (decide (k = k')) as [->|Hk].
    + rewrite decide_True by auto. destruct prevent.
      * apply bool_decide_eq_true_2, Set_add_elem.
      * apply bool_decide_eq_false_2, Set_delete_gone.
    + rewrite decide_False by tauto.
      destruct (config !! event') as [l|]; simpl; destruct prevent.
      * apply bool_decide_ext. rewrite Set_add_other. tauto.
      * apply bool_decide_ext. rewrite Set_delete_elem. tauto.
      * apply bool_decide_eq_false_2.
        rewrite Set_add_other, elem_of_nil. tauto.
      * apply bool_decide_eq_false_2.
        rewrite Set_delete_elem, elem_of_nil. tauto.
  - rewrite decide_False by tauto.
    rewrite lookup_alter_ne by congruence.
    case_bool_decide; [reflexivity|].
    now rewrite lookup_insert_ne by congruence.
Qed.

(** X4.  [shouldPreventDefault] answers what [setPreventDefault] last set
    for that event and key and is false where nothing was set.  An enabled
    key-down calls [preventDefault] once exactly when the lower-cased key of
    the event is set for "keydown".  So a registered key that is not the
    lower-casing of any key never matches; where lower-casing twice is
    lower-casing once, every key that lower-casing changes is such a key. *)
Theorem keydown_prevents_registered_keys `{JS.Strings} :
  (forall (event event' k k' : string) (prevent : bool) (this : manager),
      shouldPreventDefault event k (setPreventDefault event' k' prevent this)
      = if decide (event = event' /\ k = k') then prevent
        else shouldPreventDefault event k this)
  /\ (forall (event k : string), shouldPreventDefault event k constructor = false)
  /\ (forall (W : Type) (e : keyboardEvent) (this : manager)
            (h : host eventData W),
        enabled this = true ->
        exists this' h',
          keydown e this h = (Returned this', h')
          /\ prevented h'
             = (if shouldPreventDefault "keydown" (JS.toLowerCase (key e)) this
                then S (prevented h) else prevented h))
  /\ (forall (W : Type) (e : keyboardEvent) (k' : string) (this : manager)
            (h : host eventData W),
        enabled this = true ->
        (forall s : string, JS.toLowerCase s <> k') ->
        exists this' h',
          keydown e (setPreventDefault "keydown" k' true this) h
          = (Returned this', h')
          /\ prevented h'
             = (if shouldPreventDefault "keydown" (JS.toLowerCase (key e)) this
                then S (prevented h) else prevented h))
  /\ (forall k' : string,
        (forall s : string,
            JS.toLowerCase (JS.toLowerCase s) = JS.toLowerCase s) ->
        JS.toLowerCase k' <> k' ->
        forall s : string, JS.toLowerCase s <> k').
Proof.
  assert (K : forall (W : Type) (e : keyboardEvent) (this : manager)
                     (h : host eventData W),
             enabled this = true ->
             exists this' h',
               keydown e this h = (Returned this', h')
               /\ prevented h'
                  = (if shouldPreventDefault "keydown"
                          (JS.toLowerCase (key e)) this
                     then S (prevented h) else prevented h)).
  { intros W e this h En.
    destruct (keydown_returns e this h En)
      as (h1 & (new & _ & _ & _ & _ & _ & _ & _ & _ & P & _) & E).
    eexists. eexists. split; [exact E|].
    destruct (shouldPreventDefault _ _ _); simpl; congruence. }
  split_and!.
  - exact shouldPreventDefault_set.
  - reflexivity.
  - exact K.
  - intros W e k' this h En Hk.
    destruct (K W e (setPreventDefault "keydown" k' true this) h)
      as (this' & h' & E & P); [exact En|].
    exists this', h'. split; [exact E|]. rewrite P.
    rewrite shouldPreventDefault_set.
    rewrite decide_False; [reflexivity|].
    intros [_ Hl]. now apply (Hk (key e)).
  - intros k' Idem Hk s Hs. apply Hk. rewrite <- Hs. apply Idem.
Qed.

Section Ascii.
#[local] Existing Instance Examples.ascii_strings.

(** "ArrowUp" is registered for key-down; pressing the key prevents
    nothing. *)
Lemma keydown_prevents_registered_keys_witness :
  let e := mkKeyboardEvent "ArrowUp" false false false in
  enabled constructor = true
  /\ (forall s : string,
        JS.toLowerCase (JS.toLowerCase s) = JS.toLowerCase s)
  /\ JS.toLowerCase "ArrowUp" <> "ArrowUp"
  /\ (forall s : string, JS.toLowerCase s <> "ArrowUp")
  /\ exists this' h',
       keydown e (setPreventDefault "keydown" "ArrowUp" true constructor)
               (Examples.counting_host eventData)
       = (Returned this', h')
       /\ prevented h' = 0%nat.
Proof.
  intros e.
  assert (Idem : forall s : string,
             JS.toLowerCase (JS.toLowerCase s) = JS.toLowerCase s)
    by exact toLowerCase_twice.
  assert (Hk : JS.toLowerCase "ArrowUp" <> "ArrowUp") by discriminate.
  destruct (@keydown_prevents_registered_keys Examples.ascii_strings)
    as (_ & _ & _ & Never & Changed).
  pose proof (Changed "ArrowUp" Idem Hk) as Hall.
  split; [reflexivity|]. split; [exact Idem|]. split; [exact Hk|].
  split; [exact Hall|].
  destruct (Never nat e "ArrowUp" constructor
              (Examples.counting_host eventData) eq_refl Hall)
    as (this' & h' & E & P).
  exists this', h'. split; [exact E | exact P].
Defined.

End Ascii.

(** X5.  A disabled manager ignores the document: every key and touch
    listener returns at once, so that after [disable] any sequence of key,
    touch and focus events leaves the manager as [disable] left it, with no
    key pressed and no touch tracked, and calls no callback. *)
Theorem disabled_manager_ignores_events (W : Type) `{JS.Strings} (sqrt : Q -> Q)
  (this : manager) (h : host eventData W) :
  (forall a : action,
      enabled this = false ->
      guarded_by_enabled a = true ->
      perform sqrt a this h = (Returned this, h))
  /\ (forall acts : list action,
        Forall (fun a => from_document a = true) acts ->
        performs sqrt acts (disable this) h = (Returned (disable this), h))
  /\ getPressedKeys (disable this) = []
  /\ getTouchCount (disable this) = 0%nat
  /\ callbacks (disable this) = callbacks this.
Proof.
  assert (G : forall (a : action) (s : manager) (h0 : host eventData W),
             enabled s = false ->
             guarded_by_enabled a = true ->
             perform sqrt a s h0 = (Returned s, h0)).
  { intros a s h0 En Ha. destruct a; try discriminate; simpl;
      unfold keydown, keyup, touchstart, touchmove, touchend;
      rewrite En; reflexivity. }
  split_and!; try reflexivity.
  - intros a. apply G.
  - intros acts Hall. induction Hall as [|a acts Ha _ IH]; [reflexivity|].
    simpl. unfold bind.
    destruct (guarded_by_enabled a) eqn:Ga.
    + rewrite G by (auto; reflexivity). exact IH.
    + destruct a; try discriminate. simpl. exact IH.
Qed.

Section Ascii.
#[local] Existing Instance Examples.ascii_strings.

(** A key goes down on a manager that has been disabled. *)
Lemma disabled_manager_ignores_events_witness :
  let e := mkKeyboardEvent "a" false false false in
  let this := disable constructor in
  enabled this = false
  /\ perform (fun x => x) (key_down e) this (Examples.counting_host eventData)
     = (Returned this, Examples.counting_host eventData).
Proof.
  intros e this. split; [reflexivity|].
  apply (proj1 (disabled_manager_ignores_events nat (fun x => x) this
                  (Examples.counting_host eventData)) (key_down e));
    reflexivity.
Defined.

End Ascii.

Section Disposal.
Context {W : Type} `{JS.Strings}.
Implicit Types (h : host eventData W) (this : manager).

Lemma dispatched_to_nobody this h h' :
  callbacks this = ∅ -> dispatched this h h' -> calls h' = calls h.
Proof.
  intros Hc (new & C & F). rewrite C.
  destruct new as [|c new]; [apply app_nil_r|].
  apply Forall_cons in F. destruct F as [F _].
  rewrite Hc, lookup_empty in F. simpl in F.
  now apply elem_of_nil in F.
Qed.

Lemma performs_without_subscribers (sqrt : Q -> Q) (acts : list action)
  this h :
  callbacks this = ∅ ->
  Forall (fun a => subscribes a = false) acts ->
  exists this' h',
    performs sqrt acts this h = (Returned this', h')
    /\ callbacks this' = ∅
    /\ calls h' = calls h.
Proof.
  intros Hc Hall. revert this h Hc.
  induction Hall as [|a acts Ha _ IH]; intros this h Hc.
  - exists this, h. auto.
  - destruct (perform_returns sqrt a this h) as (this1 & h1 & E1 & C1 & D1).
    assert (Hc1 : callbacks this1 = ∅).
    { rewrite C1. destruct a; try discriminate; auto.
      unfold off. rewrite Hc, lookup_empty. exact Hc. }
    destruct (IH this1 h1 Hc1) as (this2 & h2 & E2 & C2 & K2).
    exists this2, h2. split_and!; auto.
    + simpl. unfold bind. rewrite E1. exact E2.
    + rewrite K2. now apply (dispatched_to_nobody this).
Qed.

End Disposal.

(** X6.  After [dispose] the manager has no subscribers, no pressed key and
    no tracked touch, and until someone subscribes again no operation and no
    event calls any callback; [dispose] does not disable the manager, which
    goes on tracking keys. *)
Theorem disposed_manager_calls_nobody (W : Type) `{JS.Strings} (sqrt : Q -> Q)
  (this : manager) (h : host eventData W) :
  (forall event : string, subscribers event (dispose this) = [])
  /\ getPressedKeys (dispose this) = []
  /\ getTouchCount (dispose this) = 0%nat
  /\ enabled (dispose this) = enabled this
  /\ (forall acts : list action,
        Forall (fun a => subscribes a = false) acts ->
        exists this' h',
          performs sqrt acts (dispose this) h = (Returned this', h')
          /\ calls h' = calls h
          /\ forall event : string, subscribers event this' = [])
  /\ (forall e : keyboardEvent,
        enabled this = true ->
        exists this' h',
          keydown e (dispose this) h = (Returned this', h')
          /\ isKeyPressed (key e) this' = true
          /\ calls h' = calls h).
Proof.
  split_and!; try reflexivity.
  - intros acts Hall.
    destruct (performs_without_subscribers sqrt acts (dispose this) h)
      as (this' & h' & E & C & K); [reflexivity | exact Hall |].
    exists this', h'. split_and!; auto.
    intros event. unfold subscribers. now rewrite C, lookup_empty.
  - intros e En.
    destruct (keydown_returns e (dispose this) h En) as (h1 & D & E).
    eexists. eexists. split; [exact E|]. split.
    + rewrite isKeyPressed_insert. now rewrite decide_True.
    + destruct D as (new & C & N & _).
      apply fmap_nil_inv in N. subst new. rewrite app_nil_r in C.
      destruct (shouldPreventDefault _ _ _); exact C.
Qed.

Section Ascii.
#[local] Existing Instance Examples.ascii_strings.

(** Keys go down and up after a disposal. *)
Lemma disposed_manager_calls_nobody_witness :
  let e := mkKeyboardEvent "a" false false false in
  let this := fst (on "keydown" 2%nat constructor) in
  enabled this = true
  /\ exists this' h',
       keydown e (dispose this) (Examples.counting_host eventData)
       = (Returned this', h')
       /\ isKeyPressed "a" this' = true
       /\ calls h' = [].
Proof.
  intros e this. split; [reflexivity|].
  destruct (disposed_manager_calls_nobody nat (fun x => x) this
              (Examples.counting_host eventData))
    as (_ & _ & _ & _ & _ & K).
  exact (K e eq_refl).
Defined.

End Ascii.

End InputControlFacts.

(** ** Touch contacts *)

Module TouchFacts.
Import Host Input Spec InputRun InputEvents JSFacts DispatchFacts SetFacts.
Import InputFacts InputRunFacts.
Local Open Scope string_scope.
Local Open Scope list_scope.

Section Contacts.
Context {W : Type} `{JS.Strings}.
Implicit Types (h : host eventData W) (this : manager).





End Contacts.


Section Ascii.
#[local] Existing Instance Examples.ascii_strings.


End Ascii.

Section Gesture.
Context {W : Type} `{JS.Strings}.
Implicit Types (h : host eventData W) (this : manager).

Lemma getSwipeDirection_thresholds (dX dY : Q) this this' :
  thresholds this' = thresholds this ->
  getSwipeDirection dX dY this' = getSwipeDirection dX dY this.
Proof. unfold getSwipeDirection. now intros ->. Qed.

Lemma touchmove_one (t : touch) this h :
  enabled this = true ->
  exists h',
    touchmove [t] this h
    = (Returned
         (set_touches
            (alter (fun d => mkTouchData (id d) (startX d) (startY d)
                                         (clientX t) (clientY t)
                                         (startTime d))
                   (identifier t) (touches this)) this), h').
Proof.
  intros En. unfold touchmove. rewrite En. cbn [negb fold_left].
  set (this1 := set_touches _ this).
  destruct (triggerCallback_returns "touchmove" (touchmoveData [t]) this1 h)
    as (h1 & E1 & _).
  eexists. unfold bind at 1. rewrite E1. reflexivity.
Qed.

Lemma moves_follow_contact (sqrt : Q -> Q) (i : Z) (x0 y0 t0 : Q)
  (moves : list (Q * Q)) (cx cy : Q) this h :
  enabled this = true ->
  touches this !! i = Some (mkTouchData i x0 y0 cx cy t0) ->
  exists this' h',
    performs sqrt ((fun p => touch_move [mkTouch i (fst p) (snd p)]) <$> moves)
             this h
    = (Returned this', h')
    /\ touches this' !! i
       = Some (mkTouchData i x0 y0 (fst (default (cx, cy) (last moves)))
                           (snd (default (cx, cy) (last moves))) t0)
    /\ enabled this' = true
    /\ callbacks this' = callbacks this
    /\ thresholds this' = thresholds this.
Proof.
  revert cx cy this h. induction moves as [|[x y] moves IH];
    intros cx cy this h En Ht.
  - exists this, h. simpl. auto.
  - destruct (touchmove_one (mkTouch i x y) this h En) as (h1 & E1).
    set (this1 := set_touches _ this) in E1.
    assert (Ht1 : touches this1 !! i = Some (mkTouchData i x0 y0 x y t0)).
    { subst this1. cbn [touches set_touches identifier].
      rewrite lookup_alter_eq, Ht. reflexivity. }
    destruct (IH x y this1 h1 En Ht1) as (this2 & h2 & E2 & T2 & En2 & C2 & G2).
    exists this2, h2. split_and!; auto.
    + rewrite fmap_cons. cbn [performs perform fst snd]. unfold bind at 1.
      rewrite E1. exact E2.
    + rewrite T2, last_cons. now destruct (last moves).
Qed.

End Gesture.

(** X8.  One finger goes down at (x0, y0) at time t0, moves any number of
    times and is lifted at time [now].  The touch end calls every subscriber
    of "touchend" once with a swipe whose deltas run from the start to the
    last position that a touch move reported (to the start itself when there
    was no move), whose duration is now - t0, each as a double, and whose
    direction is that of the classifier; the position carried by the
    touch-end event itself is not used.  Afterwards the contact is no longer
    tracked. *)
Theorem swipe_of_one_contact (W : Type) `{JS.Strings} (sqrt : Q -> Q) (i : Z)
  (x0 y0 t0 : Q) (moves : list (Q * Q)) (x2 y2 now : Q)
  (this : manager) (h : host eventData W) :
  enabled this = true ->
  let x1 := fst (default (x0, y0) (last moves)) in
  let y1 := snd (default (x0, y0) (last moves)) in
  let dX := JS.double (x1 - x0) in
  let dY := JS.double (y1 - y0) in
  exists this2 h2 this3 h3,
    performs sqrt
      (touch_start [mkTouch i x0 y0] t0
       :: ((fun p => touch_move [mkTouch i (fst p) (snd p)]) <$> moves))
      this h
    = (Returned this2, h2)
    /\ touchend sqrt [mkTouch i x2 y2] now this2 h2 = (Returned this3, h3)
    /\ callee <$> calls_since h2 h3 = subscribers "touchend" this
    /\ Forall (fun c =>
                 argument c
                 = touchendData [mkTouch i x2 y2]
                     (mkSwipe dX dY
                              (sqrt (JS.double (JS.double (dX * dX)
                                                + JS.double (dY * dY))))
                              (JS.double (now - t0))
                              (getSwipeDirection dX dY this)))
              (calls_since h2 h3)
    /\ touches this3 !! i = None.
Proof.
  intros En x1 y1 dX dY.
  (* the touch start *)
  assert (Hs : exists h1,
    touchstart [mkTouch i x0 y0] t0 this h
    = (Returned (set_touches (<[i := mkTouchData i x0 y0 x0 y0 t0]>
                                (touches this)) this), h1)).
  { unfold touchstart. rewrite En. cbn [negb fold_left identifier clientX
      clientY].
    set (this1 := set_touches _ this).
    destruct (triggerCallback_returns "touchstart"
                (touchstartData [mkTouch i x0 y0]) this1 h) as (h1 & E1 & _).
    eexists. unfold bind at 1. rewrite E1. reflexivity. }
  destruct Hs as (h1 & E1). set (this1 := set_touches _ this) in E1.
  destruct (moves_follow_contact sqrt i x0 y0 t0 moves x0 y0 this1 h1 En)
    as (this2 & h2 & E2 & T2 & En2 & C2 & G2).
  { subst this1. cbn [touches set_touches]. apply lookup_insert_eq. }
  fold x1 y1 in T2.
  exists this2, h2.
  (* the touch end *)
  unfold touchend. rewrite En2. cbn [negb touchend_each identifier].
  rewrite T2. cbn [startX startY currentX currentY startTime].
  set (data := touchendData _ _).
  destruct (triggerCallback_returns "touchend" data this2 h2)
    as (h3 & E3 & D3).
  eexists. eexists. split.
  { cbn [performs perform]. unfold bind at 1. rewrite E1. exact E2. }
  split.
  { unfold bind at 1 2 3. rewrite E3. reflexivity. }
  apply delivered_calls_since in D3. destruct D3 as [N A].
  split_and!.
  - unfold calls_since in *. cbn [calls set_prevented]. rewrite N.
    unfold subscribers. now rewrite C2.
  - unfold calls_since in *. cbn [calls set_prevented].
    eapply Forall_impl; [exact A|]. intros c ->. subst data.
    now rewrite (getSwipeDirection_thresholds _ _ this this2).
  - cbn [touches set_touches]. apply lookup_delete_eq.
Qed.

Section Ascii.
#[local] Existing Instance Examples.ascii_strings.

(** The finger goes from (10, 10) to (50, 12) in 150 ms and is lifted
    elsewhere: the swipe is (40, 2), to the right. *)
Lemma swipe_of_one_contact_witness :
  let this := fst (on "touchend" 2%nat constructor) in
  enabled this = true
  /\ exists this2 h2 this3 h3,
       performs (fun x => x)
         [touch_start [mkTouch 1 10 10] 0; touch_move [mkTouch 1 50 12]]
         this (Examples.counting_host eventData)
       = (Returned this2, h2)
       /\ touchend (fun x => x) [mkTouch 1 99 99] 150 this2 h2
          = (Returned this3, h3)
       /\ Forall (fun c =>
                    exists s, argument c = touchendData [mkTouch 1 99 99] s
                              /\ deltaX s == 40 /\ deltaY s == 2
                              /\ duration s == 150
                              /\ direction s = Some "right")
                 (calls_since h2 h3).
Proof.
  intros this. split; [reflexivity|].
  destruct (swipe_of_one_contact nat (fun x => x) 1 10 10 0 [(50, 12)]
              99 99 150 this (Examples.counting_host eventData) eq_refl)
    as (this2 & h2 & this3 & h3 & E & E' & _ & A & _).
  exists this2, h2, this3, h3. split; [exact E|]. split; [exact E'|].
  eapply Forall_impl; [exact A|]. intros c ->. eexists. split; [reflexivity|].
  split_and!; vm_compute; reflexivity.
Defined.

End Ascii.

End TouchFacts.

(** ** More on subscriptions and gestures *)

Module RoundTripFacts.
Import Host Spec JSFacts DispatchFacts SetFacts.
Local Open Scope string_scope.
Local Open Scope list_scope.

(** X9.  A callback that is not yet subscribed is put last in the order of
    its event, and the function returned by the subscription undoes it: the
    subscribers of every event are as before.  The performance manager is
    then as it was; the input manager is as it was when the event already
    had a set of callbacks, and otherwise keeps an empty set for the
    event. *)
Theorem subscribe_then_unsubscribe :
  (forall (event : string) (cb : callback) (this : Input.manager),
      cb ∉ subscribers event this ->
      let this1 := fst (Input.on event cb this) in
      let unsubscribe := snd (Input.on event cb this) in
      subscribers event this1 = subscribers event this ++ [cb]
      /\ (forall event', subscribers event' (unsubscribe this1)
                         = subscribers event' this)
      /\ (is_Some (Input.callbacks this !! event) -> unsubscribe this1 = this)
      /\ (Input.callbacks this !! event = None ->
          Input.callbacks (unsubscribe this1)
          = <[event := []]> (Input.callbacks this)))
  /\ (forall (cb : callback) (this : Performance.manager),
        cb ∉ Performance.callbacks this ->
        let this1 := fst (Performance.onPerformanceChange cb this) in
        let unsubscribe := snd (Performance.onPerformanceChange cb this) in
        Performance.callbacks this1 = Performance.callbacks this ++ [cb]
        /\ unsubscribe this1 = this).
Proof.
  split.
  - intros event cb this Hc this1 unsubscribe.
    assert (U : forall s, unsubscribe s = Input.off event cb s)
      by reflexivity.
    assert (S1 : subscribers event this1 = subscribers event this ++ [cb]).
    { subst this1. rewrite InputSubscriptionFacts.on_subscribers.
      unfold JS.Set_add. now rewrite decide_False. }
    assert (C1 : Input.callbacks (unsubscribe this1)
                 = <[event := subscribers event this]> (Input.callbacks this)).
    { rewrite U. unfold Input.off.
      assert (L : Input.callbacks this1 !! event
                  = Some (JS.Set_add cb (subscribers event this))).
      { subst this1. rewrite InputSubscriptionFacts.on_callbacks.
        apply lookup_insert_eq. }
      rewrite L. cbn [Input.callbacks Input.set_callbacks].
      rewrite Set_delete_add by exact Hc.
      subst this1. rewrite InputSubscriptionFacts.on_callbacks.
      apply insert_insert_eq. }
    split_and!.
    + exact S1.
    + intros event'. unfold subscribers at 1. rewrite C1.
      destruct (decide (event' = event)) as [->|Hne].
      * now rewrite lookup_insert_eq.
      * now rewrite lookup_insert_ne by congruence.
    + intros [l Hl].
      rewrite U, InputSubscriptionFacts.off_frame, <- U, C1.
      unfold subscribers. rewrite Hl. simpl.
      rewrite insert_id by exact Hl.
      subst this1. rewrite InputSubscriptionFacts.on_frame.
      now destruct this.
    + intros Hn. rewrite C1. unfold subscribers. now rewrite Hn.
  - intros cb this Hc this1 unsubscribe. split.
    + subst this1. simpl. unfold JS.Set_add. now rewrite decide_False.
    + subst this1 unsubscribe. simpl.
      rewrite Set_delete_add by exact Hc. now destruct this.
Qed.

Section Ascii.
#[local] Existing Instance Examples.ascii_strings.

(** Callback 3 subscribes to "keyup" after callback 2 and unsubscribes. *)
Lemma subscribe_then_unsubscribe_witness :
  let this := fst (Input.on "keyup" 2%nat Input.constructor) in
  (3%nat ∉ subscribers "keyup" this)
  /\ subscribers "keyup" (fst (Input.on "keyup" 3%nat this)) = [2%nat; 3%nat]
  /\ snd (Input.on "keyup" 3%nat this) (fst (Input.on "keyup" 3%nat this))
     = this.
Proof.
  intros this.
  assert (Hc : 3%nat ∉ subscribers "keyup" this).
  { intros H. apply elem_of_cons in H. destruct H as [H|H]; [discriminate|].
    now apply elem_of_nil in H. }
  split; [exact Hc|].
  destruct (proj1 subscribe_then_unsubscribe "keyup" 3%nat this Hc)
    as (S1 & _ & R & _).
  split; [exact S1|]. apply R. eexists. reflexivity.
Defined.

End Ascii.

(** X10.  The distance of a swipe is at least each of its deltas in
    absolute value, as their Euclidean norm is.  Then a swipe to which the
    classifier gives a direction always passes the distance test of
    [isValidSwipe], which then only tests the duration and the velocity.
    The converse fails: the deltas (21, 28) have norm 35 and pass the test
    with the default thresholds, and have no direction. *)
Theorem direction_implies_distance (dX dY d dur : Q) (dir : option string)
  (this : Input.manager) :
  Qabs dX <= d ->
  Qabs dY <= d ->
  Input.getSwipeDirection dX dY this <> None ->
  Input.minSwipeDistance (Input.thresholds this) <= d
  /\ (Input.isValidSwipe (Input.mkSwipe dX dY d dur dir) this = true
      <-> dur <= Input.maxSwipeTime (Input.thresholds this)
          /\ JS.lt (JS.div (JS.Finite d) (JS.Finite dur))
                   (JS.Finite (Input.minSwipeVelocity (Input.thresholds this)))
             = false)
  /\ (forall n : Q,
        0 <= n -> n * n == dX * dX + dY * dY -> Qabs dX <= n /\ Qabs dY <= n)
  /\ Input.getSwipeDirection 21 28 Input.constructor = None
  /\ Input.isValidSwipe (Input.mkSwipe 21 28 35 100 None) Input.constructor
     = true.
Proof.
  intros Hx Hy Hdir.
  assert (Hm : Input.minSwipeDistance (Input.thresholds this) <= d).
  { unfold Input.getSwipeDirection in Hdir.
    set (m := Input.minSwipeDistance (Input.thresholds this)) in *.
    destruct (JS.Qltb (Qabs dX) m) eqn:E1;
      [|apply Qltb_ge in E1; lra].
    destruct (JS.Qltb (Qabs dY) m) eqn:E2;
      [|apply Qltb_ge in E2; lra].
    simpl in Hdir. congruence. }
  split; [exact Hm|]. split; [|split; [|split; reflexivity]].
  - unfold Input.isValidSwipe. cbn [Input.distance Input.duration].
    destruct (JS.Qltb d _) eqn:E1; [apply Qltb_lt in E1; lra|].
    destruct (JS.Qltb _ dur) eqn:E2;
      [apply Qltb_lt in E2 | apply Qltb_ge in E2].
    + split; [discriminate | intros [? _]; lra].
    + destruct (JS.lt _ _); split; auto; try discriminate.
      intros [_ ?]. discriminate.
  - intros n Hn0 Hn. split.
    + apply Qnot_lt_le. intros Hlt.
      assert (Hsq : Qabs dX * Qabs dX == dX * dX).
      { apply Qabs_case; intros; ring. }
      assert (H0 : 0 <= dY * dY) by nra. nra.
    + apply Qnot_lt_le. intros Hlt.
      assert (Hsq : Qabs dY * Qabs dY == dY * dY).
      { apply Qabs_case; intros; ring. }
      assert (H0 : 0 <= dX * dX) by nra. nra.
Qed.

(** The deltas (40, 30) with the distance 50 have the direction right. *)
Lemma direction_implies_distance_witness :
  Qabs 40 <= 50
  /\ Qabs 30 <= 50
  /\ Input.getSwipeDirection 40 30 Input.constructor <> None
  /\ Input.minSwipeDistance (Input.thresholds Input.constructor) <= 50.
Proof.
  assert (H1 : Qabs 40 <= 50) by (vm_compute; discriminate).
  assert (H2 : Qabs 30 <= 50) by (vm_compute; discriminate).
  assert (H3 : Input.getSwipeDirection 40 30 Input.constructor <> None)
    by discriminate.
  split; [exact H1|]. split; [exact H2|]. split; [exact H3|].
  exact (proj1 (direction_implies_distance 40 30 50 100 (Some "right")
                  Input.constructor H1 H2 H3)).
Defined.

End RoundTripFacts.

(** ** The performance manager: detection, settings and persistence *)

Module QualityFacts.
Import Host Performance Spec PerformanceRun JSFacts DispatchFacts SetFacts.
Import PerformanceFacts.
Local Open Scope string_scope.
Local Open Scope list_scope.



End QualityFacts.

(** ** The performance manager: detection and the stored preference *)

Module DetectionFacts.
Import Host Performance Spec PerformanceRun DeviceScore JSFacts DispatchFacts.
Import SetFacts PerformanceFacts.
Local Open Scope string_scope.
Local Open Scope list_scope.

Section Detection.
Context {W : Type}.
Implicit Types (h : host performanceData W) (this : manager).

(** What [detectDevicePerformance] computes, part by part. *)
Lemma detectDevicePerformance_effect (nav : navigator) this h :
  exists h',
    detectDevicePerformance nav this h
    = (Returned
         (set_device
            (Some (mkDeviceInfo (cores nav) (memory nav) (network nav)
                                (points nav)))
            (set_qualityLevel (tier_of (points nav)) this)), h')
    /\ calls h' = calls h
    /\ storage h' = storage h
    /\ style h' = style h
    /\ world h' = world h
    /\ animationFrames h' = animationFrames h.
Proof.
  unfold detectDevicePerformance, points, cpu_points, memory_points,
    network_points, tier_of.
  fold (cores nav) (memory nav) (network nav).
  destruct (Qle_bool 8 (cores nav)), (Qle_bool 4 (cores nav)),
    (Qle_bool 2 (cores nav)), (Qle_bool 8 (memory nav)),
    (Qle_bool 4 (memory nav)), (Qle_bool 2 (memory nav)),
    (String.eqb (network nav) "4g"), (String.eqb (network nav) "3g");
    eexists; (split; [reflexivity|]); split_and!; reflexivity.
Qed.

Lemma detectDevicePerformance_writable (nav : navigator) this h this' h' :
  detectDevicePerformance nav this h = (Returned this', h') ->
  storageWritable h' = storageWritable h.
Proof.
  unfold detectDevicePerformance.
  repeat match goal with
  | |- context [if ?b then _ else _] => destruct b
  end; intros E; injection E as _ <-; reflexivity.
Qed.

Lemma loadSettings_effect this h :
  loadSettings this h
  = (Returned
       (match storage h with
        | Some m =>
            if negb (String.eqb (default "auto" (m !! "qualityLevel")) "auto")
            then set_adaptiveQuality false
                   (set_qualityLevel (default "auto" (m !! "qualityLevel"))
                                     this)
            else this
        | None => this
        end), h).
Proof.
  unfold loadSettings, bind, getSetting.
  destruct (storage h) as [m|]; [|reflexivity].
  now destruct (negb _).
Qed.

Lemma points_bounds (nav : navigator) : (1 <= points nav <= 9)%Z.
Proof.
  unfold points, cpu_points, memory_points, network_points.
  repeat match goal with
  | |- context [if ?b then _ else _] => destruct b
  end; lia.
Qed.

Lemma cpu_points_monotone (c1 c2 : Q) :
  c1 <= c2 -> (cpu_points c1 <= cpu_points c2)%Z.
Proof.
  intros Hc. unfold cpu_points.
  repeat match goal with
  | |- context [Qle_bool ?a ?b] =>
      let E := fresh "E" in
      destruct (Qle_bool a b) eqn:E;
      [apply Qle_bool_iff in E
      | assert (~ a <= b) by (intros H'; apply Qle_bool_iff in H'; congruence);
        clear E]
  end; try lia; exfalso; lra.
Qed.

Lemma memory_points_monotone (m1 m2 : Q) :
  m1 <= m2 -> (memory_points m1 <= memory_points m2)%Z.
Proof.
  intros Hc. unfold memory_points.
  repeat match goal with
  | |- context [Qle_bool ?a ?b] =>
      let E := fresh "E" in
      destruct (Qle_bool a b) eqn:E;
      [apply Qle_bool_iff in E
      | assert (~ a <= b) by (intros H'; apply Qle_bool_iff in H'; congruence);
        clear E]
  end; try lia; exfalso; lra.
Qed.

Lemma rank_tier_of_monotone (s1 s2 : Z) :
  (s1 <= s2)%Z -> (rank (tier_of s1) <= rank (tier_of s2))%Z.
Proof.
  intros Hs. unfold tier_of.
  destruct (7 <=? s1)%Z eqn:A1, (7 <=? s2)%Z eqn:A2,
    (4 <=? s1)%Z eqn:B1, (4 <=? s2)%Z eqn:B2; cbn; lia.
Qed.

End Detection.

(** X12.  [detectDevicePerformance] gives the device a score between 1 and
    9 and selects high from 7, medium from 4 and low below; it records what
    it worked with and only changes the level and the device record of the
    manager; it calls no callback and touches neither the storage nor the
    style sheet.  A navigator that reports nothing scores 6, which is
    medium. *)
Theorem detection_scores_the_device (W : Type) (nav : navigator)
  (this : manager) (h : host performanceData W) :
  exists this' h' info,
    detectDevicePerformance nav this h = (Returned this', h')
    /\ device this' = Some info
    /\ (1 <= score info <= 9)%Z
    /\ score info = points nav
    /\ qualityLevel this' = tier_of (score info)
    /\ (qualityLevel this' = "high" \/ qualityLevel this' = "medium"
        \/ qualityLevel this' = "low")
    /\ this' = set_device (device this')
                 (set_qualityLevel (qualityLevel this') this)
    /\ calls h' = calls h
    /\ storage h' = storage h
    /\ style h' = style h
    /\ points Examples.bare_navigator = 6%Z
    /\ tier_of 6 = "medium".
Proof.
  destruct (detectDevicePerformance_effect nav this h)
    as (h' & E & C & S & T & _).
  eexists. exists h'. eexists. split; [exact E|].
  cbn [device set_device score qualityLevel set_qualityLevel].
  pose proof (points_bounds nav) as B.
  split; [reflexivity|]. cbn [score].
  split; [exact B|]. split; [reflexivity|]. split; [reflexivity|].
  split.
  { unfold tier_of. destruct (7 <=? points nav)%Z; [now left|].
    destruct (4 <=? points nav)%Z; [right; now left | right; now right]. }
  split; [now destruct this|].
  split; [exact C|]. split; [exact S|]. split; [exact T|].
  split; reflexivity.
Qed.

(** X13.  More reported hardware never gives a lower tier: when the cores
    and the memory that detection works with are no smaller and the network
    is the same, the score and the tier are no lower.  The values that
    detection works with are the reported ones, except that a report of
    zero counts like no report, as 2 cores or 4 GB. *)
Theorem detection_is_monotone (W : Type) (nav1 nav2 : navigator)
  (this : manager) (h : host performanceData W) :
  cores nav1 <= cores nav2 ->
  memory nav1 <= memory nav2 ->
  network nav1 = network nav2 ->
  exists this1 h1 this2 h2,
    detectDevicePerformance nav1 this h = (Returned this1, h1)
    /\ detectDevicePerformance nav2 this h = (Returned this2, h2)
    /\ (score <$> device this1 = Some (points nav1))
    /\ (score <$> device this2 = Some (points nav2))
    /\ (points nav1 <= points nav2)%Z
    /\ (rank (qualityLevel this1) <= rank (qualityLevel this2))%Z
    /\ cores (mkNavigator (Some 0) None None) = 2
    /\ memory (mkNavigator None (Some 0) None) = 4.
Proof.
  intros Hc Hm Hn.
  destruct (detectDevicePerformance_effect nav1 this h) as (h1 & E1 & _).
  destruct (detectDevicePerformance_effect nav2 this h) as (h2 & E2 & _).
  eexists. exists h1. eexists. exists h2.
  split; [exact E1|]. split; [exact E2|].
  assert (Hp : (points nav1 <= points nav2)%Z).
  { unfold points. rewrite Hn.
    pose proof (cpu_points_monotone _ _ Hc).
    pose proof (memory_points_monotone _ _ Hm). lia. }
  cbn [device set_device qualityLevel set_qualityLevel fmap option_fmap
       option_map score].
  split_and!; try reflexivity; auto.
  now apply rank_tier_of_monotone.
Qed.

(** One core against a report of no cores, which counts as two. *)
Lemma detection_is_monotone_witness :
  let nav1 := mkNavigator (Some 1) None None in
  let nav2 := mkNavigator (Some 0) None None in
  cores nav1 <= cores nav2
  /\ (points nav1 <= points nav2)%Z.
Proof.
  intros nav1 nav2.
  assert (Hc : cores nav1 <= cores nav2) by (vm_compute; discriminate).
  assert (Hm : memory nav1 <= memory nav2) by (vm_compute; discriminate).
  split; [exact Hc|].
  destruct (detection_is_monotone nat nav1 nav2 Examples.monitoring
              (Examples.counting_host performanceData) Hc Hm eq_refl)
    as (_ & _ & _ & _ & _ & _ & _ & _ & P & _).
  exact P.
Defined.

End DetectionFacts.

(** ** The performance manager: choosing a level and remembering it *)

Module PreferenceFacts.
Import Host Performance Spec PerformanceRun DeviceScore JSFacts DispatchFacts.
Import SetFacts PerformanceFacts DetectionFacts.
Local Open Scope string_scope.
Local Open Scope list_scope.

Section Preference.
Context {W : Type}.
Implicit Types (h : host performanceData W) (this : manager).

Lemma css_loop_effect (l : list (string * string)) h :
  exists h',
    forEach l (fun kv => setProperty (fst kv) (snd kv)) h = (Returned tt, h')
    /\ calls h' = calls h
    /\ storage h' = storage h
    /\ animationFrames h' = animationFrames h
    /\ storageWritable h' = storageWritable h
    /\ console h' = console h
    /\ (forall k, k ∉ fst <$> l -> style h' !! k = style h !! k)
    /\ (NoDup (fst <$> l) ->
        forall k v, (k, v) ∈ l -> style h' !! k = Some v).
Proof.
  revert h. induction l as [|[k0 v0] l IH]; intros h.
  - exists h. split_and!; auto. intros _ k v Hin.
    now apply elem_of_nil in Hin.
  - simpl. unfold bind, setProperty at 1. cbn [fst snd].
    destruct (IH (set_style (<[k0 := v0]> (style h)) h))
      as (h' & E & C & S & A & Wr & Co & Out & In).
    exists h'. split_and!; auto.
    + intros k Hk. apply not_elem_of_cons in Hk. destruct Hk as [Hne Hk].
      rewrite (Out k Hk). cbn [style set_style].
      now rewrite lookup_insert_ne by congruence.
    + intros Hnd k v Hin. apply NoDup_cons in Hnd.
      destruct Hnd as [Hfresh Hnd].
      apply elem_of_cons in Hin. destruct Hin as [Heq|Hin].
      * injection Heq as -> ->. rewrite (Out k0 Hfresh).
        cbn [style set_style]. apply lookup_insert_eq.
      * now apply In.
Qed.

Lemma tier_css_NoDup this (s : qualitySettings) :
  getQualitySettings this = tier_settings s -> NoDup (fst <$> css s).
Proof.
  unfold getQualitySettings.
  repeat match goal with
  | |- context [if ?b then _ else _] => destruct b
  end; intros E; try discriminate; injection E as <-;
    apply (bool_decide_unpack _); vm_compute; exact I.
Qed.

(** What [applyQualitySettings] and [saveSettings] do to the host when the
    level names no member of [Object.prototype]. *)
Lemma apply_and_save_effect this h :
  qualityLevel this ∉ Object_prototype ->
  exists h' s,
    bind (applyQualitySettings this)
         (fun _ => bind (saveSettings this) (fun _ => ret this)) h
    = (Returned this, h')
    /\ getQualitySettings this = tier_settings s
    /\ notified (notification this) (callbacks this) h h'
    /\ storage h'
       = (if storageWritable h
          then <["qualityLevel" := qualityLevel this]> <$> storage h
          else storage h)
    /\ animationFrames h' = animationFrames h
    /\ (forall k v, (k, v) ∈ css s -> style h' !! k = Some v)
    /\ storageWritable h' = storageWritable h
    /\ (storageWritable h = false -> is_Some (storage h) ->
        last (console h') = Some warn_save_failed).
Proof.
  intros Hl. destruct (getQualitySettings_tier this Hl) as (s & Hs).
  unfold applyQualitySettings. rewrite Hs. unfold bind at 1.
  destruct (css_loop_effect (css s) h)
    as (h1 & E1 & C1 & S1 & A1 & W1 & _ & _ & In1).
  unfold bind at 1. rewrite E1.
  destruct (notifyCallbacks_returns this h1)
    as (h2 & E2 & (new & C2 & N2 & G2 & _ & _ & T2 & S2 & A2 & _ & W2 & _)).
  rewrite E2. unfold bind at 1, saveSettings, saveSetting.
  assert (Hstyle : forall k v, (k, v) ∈ css s -> style h2 !! k = Some v).
  { intros k v Hin. rewrite T2. apply In1; [|exact Hin].
    exact (tier_css_NoDup this s Hs). }
  assert (Hn : forall h3, calls h3 = calls h2 ->
                 notified (notification this) (callbacks this) h h3).
  { intros h3 C3. exists new. rewrite C3, C2, C1. auto. }
  assert (Hw : storageWritable h2 = storageWritable h) by congruence.
  assert (Hs2 : storage h2 = storage h) by congruence.
  rewrite Hw.
  destruct (storage h2) as [m|] eqn:Sm.
  - destruct (storageWritable h) eqn:Wh.
    + eexists. exists s. split; [reflexivity|]. split; [reflexivity|].
      cbn [storage set_storage style set_style animationFrames
           set_animationFrames storageWritable console].
      split; [now apply Hn|]. split; [now rewrite <- Hs2|].
      split; [congruence|]. split; [exact Hstyle|]. split; [exact Hw|].
      discriminate.
    + eexists. exists s. split; [reflexivity|]. split; [reflexivity|].
      cbn [storage set_console style set_style animationFrames
           storageWritable console].
      split; [now apply Hn|]. split; [congruence|].
      split; [congruence|]. split; [exact Hstyle|]. split; [exact Hw|].
      intros _ _. apply last_snoc.
  - exists h2, s. split; [reflexivity|]. split; [reflexivity|].
    split; [now apply Hn|].
    split; [rewrite <- Hs2; now destruct (storageWritable h)|].
    split; [congruence|]. split; [exact Hstyle|]. split; [exact Hw|].
    intros _ [m Hm]. congruence.
Qed.

Lemma setQualityLevel_effect (nav : navigator) (level : string) this h :
  level ∈ ["high"; "medium"; "low"; "auto"] ->
  let this1 :=
    if String.eqb level "auto"
    then set_adaptiveQuality true
           (set_device
              (Some (mkDeviceInfo (cores nav) (memory nav) (network nav)
                                  (points nav)))
              (set_qualityLevel (tier_of (points nav)) this))
    else set_adaptiveQuality false (set_qualityLevel level this) in
  exists h' s,
    setQualityLevel nav level this h = (Returned this1, h')
    /\ getQualitySettings this1 = tier_settings s
    /\ notified (notification this1) (callbacks this) h h'
    /\ storage h'
       = (if storageWritable h
          then <["qualityLevel" := qualityLevel this1]> <$> storage h
          else storage h)
    /\ animationFrames h' = animationFrames h
    /\ (forall k v, (k, v) ∈ css s -> style h' !! k = Some v)
    /\ storageWritable h' = storageWritable h
    /\ (storageWritable h = false -> is_Some (storage h) ->
        last (console h') = Some warn_save_failed).
Proof.
  intros Hl this1. unfold setQualityLevel.
  rewrite bool_decide_eq_true_2 by exact Hl.
  unfold bind at 1.
  assert (Ht : qualityLevel this1 ∉ Object_prototype).
  { apply tiers_not_inherited. subst this1.
    destruct (String.eqb_spec level "auto") as [Ea|Ea];
      cbn [qualityLevel set_adaptiveQuality set_device set_qualityLevel].
    - unfold tier_of.
      destruct (7 <=? points nav)%Z; [|destruct (4 <=? points nav)%Z];
        rewrite !elem_of_cons; auto.
    - rewrite !elem_of_cons in *. tauto. }
  destruct (String.eqb level "auto") eqn:Ea.
  - destruct (detectDevicePerformance_effect nav this h)
      as (h0 & E0 & C0 & S0 & _ & _ & A0).
    pose proof (detectDevicePerformance_writable _ _ _ _ _ E0) as W0.
    unfold bind at 1. rewrite E0. unfold ret at 1.
    destruct (apply_and_save_effect this1 h0 Ht)
      as (h' & s & E & Hs & N & S & A & T & Wr & L).
    exists h', s. split; [exact E|]. split; [exact Hs|].
    split.
    { destruct N as (new & C & N & G). exists new. rewrite C, C0. auto. }
    split; [now rewrite S, W0, S0|]. split; [congruence|].
    split; [exact T|]. split; [congruence|].
    intros Hw Hm. apply L; congruence.
  - unfold ret at 1.
    destruct (apply_and_save_effect this1 h Ht)
      as (h' & s & E & Hs & N & S & A & T & Wr & L).
    exists h', s. split; [exact E|]. auto 10.
Qed.

Lemma constructor_effect (nav : navigator) (now : Q) h :
  let detected :=
    mkManager (JS.Finite 60) (JS.Finite 60) [] 60 (tier_of (points nav)) now 0
              true false []
              (Some (mkDeviceInfo (cores nav) (memory nav) (network nav)
                                  (points nav))) in
  exists h',
    constructor nav now h
    = (Returned
         (match storage h with
          | Some m =>
              if negb (String.eqb (default "auto" (m !! "qualityLevel"))
                                  "auto")
              then set_adaptiveQuality false
                     (set_qualityLevel
                        (default "auto" (m !! "qualityLevel")) detected)
              else detected
          | None => detected
          end), h')
    /\ calls h' = calls h
    /\ storage h' = storage h.
Proof.
  intros detected. unfold constructor, init, bind.
  destruct (detectDevicePerformance_effect nav
              (mkManager (JS.Finite 60) (JS.Finite 60) [] 60 "auto" now 0
                         true false [] None) h)
    as (h' & E & C & S & _).
  rewrite E, loadSettings_effect, S. exists h'. auto.
Qed.

End Preference.

(** X14.  [setQualityLevel] ignores a level that is not high, medium, low
    or auto: the manager and the host stay as they are.  A tier pins the
    level and turns adaptive mode off; "auto" takes the tier of the device
    score and turns adaptive mode on.  In both cases every subscriber is
    notified once with the new settings and the CSS variables of the new
    tier are set.  Where the storage takes the write, the level that is
    stored is the tier in force, so that "auto" itself is never stored;
    where the storage refuses it, the storage stays as it was and the
    failure is the last line of the console. *)
Theorem setQualityLevel_selects (W : Type) (nav : navigator) (level : string)
  (this : manager) (h : host performanceData W) :
  (level ∉ ["high"; "medium"; "low"; "auto"] ->
   setQualityLevel nav level this h = (Returned this, h))
  /\ (level ∈ ["high"; "medium"; "low"; "auto"] ->
      exists this' h' s,
        setQualityLevel nav level this h = (Returned this', h')
        /\ qualityLevel this'
           = (if String.eqb level "auto" then tier_of (points nav) else level)
        /\ adaptiveQuality this' = String.eqb level "auto"
        /\ callbacks this' = callbacks this
        /\ fpsHistory this' = fpsHistory this
        /\ monitoringEnabled this' = monitoringEnabled this
        /\ callee <$> calls_since h h' = callbacks this
        /\ Forall (fun c => argument c = notification this')
                  (calls_since h h')
        /\ (storageWritable h = true ->
            storage h'
            = <["qualityLevel" := qualityLevel this']> <$> storage h)
        /\ (storageWritable h = false ->
            storage h' = storage h
            /\ (is_Some (storage h) ->
                last (console h') = Some warn_save_failed))
        /\ storageWritable h' = storageWritable h
        /\ qualityLevel this' <> "auto"
        /\ getQualitySettings this' = tier_settings s
        /\ forall k v, (k, v) ∈ css s -> style h' !! k = Some v).
Proof.
  split.
  - intros Hl. unfold setQualityLevel.
    now rewrite bool_decide_eq_false_2 by exact Hl.
  - intros Hl.
    destruct (setQualityLevel_effect nav level this h Hl)
      as (h' & s & E & Hs & N & S & _ & T & Wr & L).
    eexists. exists h', s. split; [exact E|].
    apply notified_calls_since in N. destruct N as (_ & N & G).
    assert (Hauto : tier_of (points nav) <> "auto").
    { unfold tier_of. destruct (7 <=? points nav)%Z; [discriminate|].
      destruct (4 <=? points nav)%Z; discriminate. }
    destruct (String.eqb_spec level "auto") as [Ea|Ea];
      cbn [qualityLevel adaptiveQuality callbacks fpsHistory monitoringEnabled
           set_adaptiveQuality set_qualityLevel set_device] in *;
      (split; [reflexivity|]); (split; [reflexivity|]);
      (split; [reflexivity|]); (split; [reflexivity|]);
      (split; [reflexivity|]); (split; [exact N|]); (split; [exact G|]);
      (split; [intros Hw; now rewrite Hw in S|]);
      (split; [intros Hw; rewrite Hw in S; split; [exact S | now apply L]|]);
      (split; [exact Wr|]); (split; [assumption|]);
      (split; [exact Hs | exact T]).
Qed.

(** The level "ultra" is ignored; the level "low" is taken, and stored by a
    storage that takes the write. *)
Lemma setQualityLevel_selects_witness :
  ("ultra" ∉ ["high"; "medium"; "low"; "auto"])
  /\ setQualityLevel Examples.bare_navigator "ultra" Examples.monitoring
       (Examples.counting_host performanceData)
     = (Returned Examples.monitoring, Examples.counting_host performanceData)
  /\ ("low" ∈ ["high"; "medium"; "low"; "auto"])
  /\ (exists this' h',
       setQualityLevel Examples.bare_navigator "low" Examples.monitoring
         (Examples.storing_host performanceData)
       = (Returned this', h')
       /\ qualityLevel this' = "low"
       /\ adaptiveQuality this' = false
       /\ storage h' = Some {["qualityLevel" := "low"]})
  /\ (exists this' h',
       setQualityLevel Examples.bare_navigator "low" Examples.monitoring
         (Examples.refusing_host performanceData)
       = (Returned this', h')
       /\ storage h' = Some ∅
       /\ last (console h') = Some warn_save_failed).
Proof.
  assert (H1 : "ultra" ∉ ["high"; "medium"; "low"; "auto"]).
  { intros H. repeat (apply elem_of_cons in H;
                      destruct H as [H|H]; [discriminate|]).
    now apply elem_of_nil in H. }
  assert (H2 : "low" ∈ ["high"; "medium"; "low"; "auto"]).
  { do 2 apply list_elem_of_further. apply list_elem_of_here. }
  split; [exact H1|]. split.
  { exact (proj1 (setQualityLevel_selects nat Examples.bare_navigator "ultra"
                    Examples.monitoring
                    (Examples.counting_host performanceData)) H1). }
  split; [exact H2|]. split.
  - destruct (proj2 (setQualityLevel_selects nat Examples.bare_navigator "low"
                       Examples.monitoring
                       (Examples.storing_host performanceData)) H2)
      as (this' & h' & s & E & Q & A & _ & _ & _ & _ & _ & S & _).
    exists this', h'. split; [exact E|]. split; [exact Q|].
    split; [exact A|]. rewrite (S eq_refl), Q. reflexivity.
  - destruct (proj2 (setQualityLevel_selects nat Examples.bare_navigator "low"
                       Examples.monitoring
                       (Examples.refusing_host performanceData)) H2)
      as (this' & h' & s & E & _ & _ & _ & _ & _ & _ & _ & _ & S & _).
    exists this', h'. split; [exact E|].
    destruct (S eq_refl) as [S1 S2]. split; [exact S1|].
    apply S2. eexists. reflexivity.
Defined.

(** X15.  A new manager starts from the tier of its device score in
    adaptive mode, unless the storage holds a level other than "auto": that
    level is taken as it is, whatever it says, and adaptive mode is off.  So
    a tier chosen with [setQualityLevel] on a storage that takes the write
    is the level of every manager that is later constructed on the same
    storage, on whatever device.  Where the storage refuses the write, it is
    left as it was, and the choice is lost. *)
Theorem stored_level_is_restored (W : Type) (nav : navigator) (now : Q)
  (h : host performanceData W) :
  (exists this h',
      constructor nav now h = (Returned this, h')
      /\ calls h' = calls h
      /\ storage h' = storage h
      /\ fpsHistory this = []
      /\ callbacks this = []
      /\ monitoringEnabled this = false
      /\ match storage h with
         | Some m =>
             match m !! "qualityLevel" with
             | Some q =>
                 if String.eqb q "auto"
                 then qualityLevel this = tier_of (points nav)
                      /\ adaptiveQuality this = true
                 else qualityLevel this = q /\ adaptiveQuality this = false
             | None => qualityLevel this = tier_of (points nav)
                       /\ adaptiveQuality this = true
             end
         | None => qualityLevel this = tier_of (points nav)
                   /\ adaptiveQuality this = true
         end)
  /\ (forall (nav0 : navigator) (level : string) (this0 : manager),
        level ∈ ["high"; "medium"; "low"] ->
        is_Some (storage h) ->
        storageWritable h = true ->
        exists this1 h1 this2 h2,
          setQualityLevel nav0 level this0 h = (Returned this1, h1)
          /\ constructor nav now h1 = (Returned this2, h2)
          /\ qualityLevel this2 = level
          /\ adaptiveQuality this2 = false)
  /\ (forall (nav0 : navigator) (level : string) (this0 : manager),
        level ∈ ["high"; "medium"; "low"] ->
        storageWritable h = false ->
        exists this1 h1 this2 h2 h',
          setQualityLevel nav0 level this0 h = (Returned this1, h1)
          /\ storage h1 = storage h
          /\ constructor nav now h1 = (Returned this2, h2)
          /\ constructor nav now h = (Returned this2, h')).
Proof.
  split; [|split].
  - destruct (constructor_effect nav now h) as (h' & E & C & S).
    eexists. exists h'. split; [exact E|]. split; [exact C|].
    split; [exact S|].
    destruct (storage h) as [m|]; [|split_and!; reflexivity].
    destruct (m !! "qualityLevel") as [q|]; cbn [default from_option id];
      [|split_and!; reflexivity].
    destruct (String.eqb q "auto"); split_and!; reflexivity.
  - intros nav0 level this0 Hl [m Hm] Hw.
    assert (Hl' : level ∈ ["high"; "medium"; "low"; "auto"]).
    { rewrite !elem_of_cons in *. tauto. }
    assert (Ha : String.eqb level "auto" = false).
    { rewrite !elem_of_cons in Hl.
      destruct Hl as [->|[->|[->|Hl]]]; try reflexivity.
      now apply elem_of_nil in Hl. }
    destruct (setQualityLevel_effect nav0 level this0 h Hl')
      as (h1 & s & E1 & _ & _ & S1 & _).
    rewrite Ha in E1, S1. rewrite Hw in S1.
    cbn [qualityLevel set_adaptiveQuality set_qualityLevel] in S1.
    destruct (constructor_effect nav now h1) as (h2 & E2 & _).
    rewrite S1, Hm in E2. cbn [fmap option_fmap option_map] in E2.
    rewrite lookup_insert_eq in E2. cbn [default from_option id] in E2.
    rewrite Ha in E2. cbn [negb] in E2.
    eexists. exists h1. eexists. exists h2.
    split; [exact E1|]. split; [exact E2|]. split; reflexivity.
  - intros nav0 level this0 Hl Hw.
    assert (Hl' : level ∈ ["high"; "medium"; "low"; "auto"]).
    { rewrite !elem_of_cons in *. tauto. }
    destruct (setQualityLevel_effect nav0 level this0 h Hl')
      as (h1 & s & E1 & _ & _ & S1 & _).
    rewrite Hw in S1.
    destruct (constructor_effect nav now h1) as (h2 & E2 & _).
    destruct (constructor_effect nav now h) as (h' & E & _).
    rewrite S1 in E2.
    eexists. exists h1. eexists. exists h2, h'.
    split; [exact E1|]. split; [exact S1|]. split; [exact E2 | exact E].
Qed.

(** The level low is chosen on a weak device and found again by a manager
    on a device that reports eight cores; on a storage that refuses the
    write, the storage stays empty. *)
Lemma stored_level_is_restored_witness :
  let strong := mkNavigator (Some 8) (Some 8) None in
  ("low" ∈ ["high"; "medium"; "low"])
  /\ is_Some (storage (Examples.storing_host performanceData))
  /\ storageWritable (Examples.storing_host performanceData) = true
  /\ (exists this1 h1 this2 h2,
       setQualityLevel Examples.bare_navigator "low" Examples.monitoring
         (Examples.storing_host performanceData)
       = (Returned this1, h1)
       /\ constructor strong 0 h1 = (Returned this2, h2)
       /\ qualityLevel this2 = "low"
       /\ adaptiveQuality this2 = false)
  /\ storageWritable (Examples.refusing_host performanceData) = false
  /\ (exists this1 h1,
       setQualityLevel Examples.bare_navigator "low" Examples.monitoring
         (Examples.refusing_host performanceData)
       = (Returned this1, h1)
       /\ storage h1 = Some ∅).
Proof.
  intros strong.
  assert (H1 : "low" ∈ ["high"; "medium"; "low"]).
  { do 2 apply list_elem_of_further. apply list_elem_of_here. }
  assert (H2 : is_Some (storage (Examples.storing_host performanceData)))
    by (eexists; reflexivity).
  split; [exact H1|]. split; [exact H2|]. split; [reflexivity|].
  split.
  - exact (proj1 (proj2 (stored_level_is_restored nat strong 0
                           (Examples.storing_host performanceData)))
                 Examples.bare_navigator "low" Examples.monitoring H1 H2
                 eq_refl).
  - split; [reflexivity|].
    destruct (proj2 (proj2 (stored_level_is_restored nat strong 0
                              (Examples.refusing_host performanceData)))
                    Examples.bare_navigator "low" Examples.monitoring H1
                    eq_refl)
      as (this1 & h1 & _ & _ & _ & E & S & _).
    exists this1, h1. split; [exact E | exact S].
Defined.

(** X16.  The choice of "auto" is not remembered.  [setQualityLevel] with
    "auto" turns adaptive mode on.  On a storage that takes the write it
    stores the tier that detection gave, so a manager that is later
    constructed on the same storage takes that tier as a stored preference:
    it starts with adaptive mode off, on the tier of the device on which
    "auto" was chosen.  On an empty storage that refuses the write, the
    later manager starts in adaptive mode on the tier of its own device. *)
Theorem auto_is_not_remembered (W : Type) (nav0 nav : navigator) (now : Q)
  (this0 : manager) (h : host performanceData W) :
  is_Some (storage h) ->
  exists this1 h1 this2 h2,
    setQualityLevel nav0 "auto" this0 h = (Returned this1, h1)
    /\ adaptiveQuality this1 = true
    /\ qualityLevel this1 = tier_of (points nav0)
    /\ constructor nav now h1 = (Returned this2, h2)
    /\ (storageWritable h = true ->
        adaptiveQuality this2 = false
        /\ qualityLevel this2 = tier_of (points nav0))
    /\ (storageWritable h = false -> storage h = Some ∅ ->
        adaptiveQuality this2 = true
        /\ qualityLevel this2 = tier_of (points nav)).
Proof.
  intros [m Hm].
  assert (Hl : "auto" ∈ ["high"; "medium"; "low"; "auto"]).
  { do 3 apply list_elem_of_further. apply list_elem_of_here. }
  destruct (setQualityLevel_effect nav0 "auto" this0 h Hl)
    as (h1 & s & E1 & _ & _ & S1 & _).
  cbn [String.eqb Ascii.eqb Bool.eqb qualityLevel set_adaptiveQuality
       set_device set_qualityLevel] in E1, S1.
  destruct (constructor_effect nav now h1) as (h2 & E2 & _).
  assert (Ht : String.eqb (tier_of (points nav0)) "auto" = false).
  { unfold tier_of. destruct (7 <=? points nav0)%Z; [reflexivity|].
    destruct (4 <=? points nav0)%Z; reflexivity. }
  destruct (storageWritable h) eqn:Hw.
  - rewrite S1, Hm in E2. cbn [fmap option_fmap option_map] in E2.
    rewrite lookup_insert_eq in E2. cbn [default from_option id] in E2.
    rewrite Ht in E2. cbn [negb] in E2.
    eexists. exists h1. eexists. exists h2.
    split; [exact E1|]. split; [reflexivity|]. split; [reflexivity|].
    split; [exact E2|]. split; [intros _; split; reflexivity|].
    discriminate.
  - eexists. exists h1. eexists. exists h2.
    split; [exact E1|]. split; [reflexivity|]. split; [reflexivity|].
    split; [exact E2|]. split; [discriminate|].
    intros _ He. rewrite S1, He. rewrite lookup_empty.
    cbn [default from_option id String.eqb Ascii.eqb Bool.eqb negb].
    split; reflexivity.
Qed.

(** "auto" is chosen on a device that reports nothing; the next manager, on
    a device with eight cores and 8 GB, is pinned to medium.  On a storage
    that refuses the write, the next manager is adaptive on high. *)
Lemma auto_is_not_remembered_witness :
  let strong := mkNavigator (Some 8) (Some 8) None in
  is_Some (storage (Examples.storing_host performanceData))
  /\ tier_of (points strong) = "high"
  /\ (exists this1 h1 this2 h2,
       setQualityLevel Examples.bare_navigator "auto" Examples.monitoring
         (Examples.storing_host performanceData)
       = (Returned this1, h1)
       /\ constructor strong 0 h1 = (Returned this2, h2)
       /\ adaptiveQuality this2 = false
       /\ qualityLevel this2 = "medium")
  /\ is_Some (storage (Examples.refusing_host performanceData))
  /\ (exists this1 h1 this2 h2,
       setQualityLevel Examples.bare_navigator "auto" Examples.monitoring
         (Examples.refusing_host performanceData)
       = (Returned this1, h1)
       /\ constructor strong 0 h1 = (Returned this2, h2)
       /\ adaptiveQuality this2 = true
       /\ qualityLevel this2 = "high").
Proof.
  intros strong.
  assert (H2 : is_Some (storage (Examples.storing_host performanceData)))
    by (eexists; reflexivity).
  assert (H3 : is_Some (storage (Examples.refusing_host performanceData)))
    by (eexists; reflexivity).
  split; [exact H2|]. split; [reflexivity|]. split.
  - destruct (auto_is_not_remembered nat Examples.bare_navigator strong 0
                Examples.monitoring (Examples.storing_host performanceData)
                H2)
      as (this1 & h1 & this2 & h2 & E1 & _ & _ & E2 & P & _).
    exists this1, h1, this2, h2. destruct (P eq_refl) as [A Q].
    split; [exact E1|]. split; [exact E2|]. split; [exact A | exact Q].
  - split; [exact H3|].
    destruct (auto_is_not_remembered nat Examples.bare_navigator strong 0
                Examples.monitoring (Examples.refusing_host performanceData)
                H3)
      as (this1 & h1 & this2 & h2 & E1 & _ & _ & E2 & _ & P).
    exists this1, h1, this2, h2. destruct (P eq_refl eq_refl) as [A Q].
    split; [exact E1|]. split; [exact E2|]. split; [exact A | exact Q].
Defined.

End PreferenceFacts.

(** ** The frame loop: pinned tiers, the dead band, starting and stopping *)

Module FrameFacts.
Import Host Performance Spec PerformanceRun DeviceScore JSFacts DispatchFacts.
Import SetFacts PerformanceFacts DetectionFacts PreferenceFacts.
Local Open Scope string_scope.
Local Open Scope list_scope.

Section Frames.
Context {W : Type}.
Implicit Types (h : host performanceData W) (this : manager).

Lemma adjustQuality_effect this h :
  exists this' h',
    adjustQuality this h = (Returned this', h')
    /\ this' = set_qualityLevel (qualityLevel this') this
    /\ animationFrames h' = animationFrames h
    /\ (JS.lt (currentFPS this) (JS.Finite 45) = false ->
        JS.gt (currentFPS this) (JS.Finite 55) = false ->
        this' = this /\ h' = h).
Proof.
  destruct (adjustQuality_returns this h)
    as (this' & h' & E & S & Q & Same & _).
  exists this', h'. split_and!; auto.
  - unfold adjustQuality in E.
    set (this1 := if JS.lt _ _ && _ then _ else _) in E.
    assert (T1 : qualityLevel this1 = qualityLevel this
                 \/ qualityLevel this1 ∈ ["high"; "medium"; "low"]).
    { subst this1.
      repeat match goal with
      | |- context [if ?b then _ else _] => destruct b
      end; cbn [qualityLevel set_qualityLevel]; auto; right;
        rewrite !elem_of_cons; auto. }
    destruct (negb (String.eqb (qualityLevel this) (qualityLevel this1)))
      eqn:Eq.
    + assert (Hl : qualityLevel this1 ∉ Object_prototype).
      { apply tiers_not_inherited. destruct T1 as [T1|T1]; [|exact T1].
        rewrite T1, String.eqb_refl in Eq. discriminate. }
      unfold bind at 1, console_write at 1 in E.
      destruct (apply_and_save_effect this1
                  (set_console
                     (console h
                      ++ [log_auto_adjust (qualityLevel this)
                            (qualityLevel this1)
                            (JS.round (currentFPS this))]) h) Hl)
        as (h1 & s & E1 & _ & _ & _ & A1 & _).
      rewrite E1 in E. injection E as _ <-. exact A1.
    + injection E as _ <-. reflexivity.
  - intros L G. rewrite L, G in Q. simpl in Q.
    assert (Eq : this' = this).
    { rewrite S, Q. apply set_qualityLevel_same. }
    split; [exact Eq|]. apply Same. now rewrite Eq.
Qed.

Lemma frame_tail_effect this h :
  exists this' h',
    bind (if (frameCount this mod 60 =? 0)%nat && adaptiveQuality this
          then bind (adjustQuality this) (fun this =>
                 bind (notifyCallbacks this) (fun _ => ret this))
          else ret this)
         (fun this => bind requestAnimationFrame (fun _ => ret this)) h
    = (Returned this', h')
    /\ this' = set_qualityLevel (qualityLevel this') this
    /\ animationFrames h' = S (animationFrames h)
    /\ (JS.lt (currentFPS this) (JS.Finite 45) = false ->
        JS.gt (currentFPS this) (JS.Finite 55) = false ->
        this' = this /\ style h' = style h /\ storage h' = storage h).
Proof.
  destruct ((frameCount this mod 60 =? 0)%nat && adaptiveQuality this).
  - destruct (adjustQuality_effect this h) as (this1 & h1 & E1 & S1 & A1 & K1).
    destruct (notifyCallbacks_returns this1 h1)
      as (h2 & E2 & (new & _ & _ & _ & _ & _ & T2 & S2 & A2 & _)).
    exists this1, (set_animationFrames (S (animationFrames h2)) h2).
    split_and!.
    + unfold bind at 1 2. rewrite E1. unfold bind at 1. rewrite E2.
      reflexivity.
    + exact S1.
    + cbn [animationFrames set_animationFrames]. congruence.
    + intros L G. destruct (K1 L G) as [-> ->].
      cbn [style storage set_animationFrames]. auto.
  - exists this, (set_animationFrames (S (animationFrames h)) h).
    split_and!; auto. symmetry. apply set_qualityLevel_same.
Qed.

(** One frame, continued: the request for the next frame, and the level
    inside the dead band. *)
Lemma monitor_effect (now : Q) this h :
  monitoringEnabled this = true ->
  exists this' h',
    monitor now this h = (Returned this', h')
    /\ animationFrames h' = S (animationFrames h)
    /\ (JS.lt (currentFPS this') (JS.Finite 45) = false ->
        JS.gt (currentFPS this') (JS.Finite 55) = false ->
        qualityLevel this' = qualityLevel this
        /\ style h' = style h /\ storage h' = storage h).
Proof.
  intros En.
  destruct this as [tf cf hist ml q lt fc ad me cbs dev].
  simpl in En. subst me.
  unfold monitor, JS.push, JS.shift, JS.reduce.
  cbn [monitoringEnabled negb fpsHistory maxHistoryLength lastFrameTime
       frameCount adaptiveQuality callbacks qualityLevel set_fpsHistory].
  set (sample := JS.div (JS.Finite 1000) (JS.sub (JS.Finite now) (JS.Finite lt))).
  set (l := hist ++ [sample]).
  cbv zeta.
  destruct (ml <? length l)%nat;
    unfold set_frameCount, set_lastFrameTime, set_currentFPS, set_fpsHistory;
    cbn [monitoringEnabled fpsHistory maxHistoryLength lastFrameTime
         frameCount adaptiveQuality callbacks qualityLevel targetFPS device
         currentFPS];
    match goal with
    | |- context [bind (if _ then bind (adjustQuality ?s) _ else _) _ _] =>
        destruct (frame_tail_effect s h) as (this1 & h1 & E1 & S1 & A1 & K1)
    end;
    exists this1, h1; (split; [exact E1|]); (split; [exact A1|]);
    intros L G;
    pose proof (f_equal currentFPS S1) as F1;
    cbn in F1; cbn [currentFPS] in K1;
    rewrite F1 in L, G; destruct (K1 L G) as (-> & T & S);
    split_and!; auto.
Qed.

(** The mean in doubles of fewer than 2^47 samples inside the dead band
    lies inside the dead band, and the mean of no samples is not a number;
    neither is below 45 or above 55. *)
Lemma mean_in_band (l : list JS.number) :
  (Z.of_nat (length l) <= 2 ^ 47)%Z ->
  Forall in_band l ->
  JS.lt (mean l) (JS.Finite 45) = false
  /\ JS.gt (mean l) (JS.Finite 55) = false.
Proof.
  intros Hn Hb.
  destruct l as [|x l]; [split; reflexivity|].
  assert (Hw : within 45 55 (mean (x :: l))).
  { apply mean_within.
    - discriminate.
    - lia.
    - change (2 ^ 53)%Z with (64 * 2 ^ 47)%Z. lia.
    - exact Hb. }
  destruct (mean (x :: l)) as [| |q|]; try contradiction.
  destruct Hw as [H1 H2]. unfold JS.gt. simpl.
  split; apply Qltb_ge; [exact H1 | exact H2].
Qed.

(** One frame on samples inside the dead band. *)
Lemma monitor_in_band (now : Q) this h :
  monitoringEnabled this = true ->
  (Z.of_nat (length (fpsHistory this)) < 2 ^ 47)%Z ->
  Forall in_band (fpsHistory this) ->
  in_band (JS.div (JS.Finite 1000)
                  (JS.sub (JS.Finite now) (JS.Finite (lastFrameTime this)))) ->
  exists this' h',
    monitor now this h = (Returned this', h')
    /\ qualityLevel this' = qualityLevel this
    /\ monitoringEnabled this' = true
    /\ lastFrameTime this' = now
    /\ Forall in_band (fpsHistory this')
    /\ (length (fpsHistory this') <= S (length (fpsHistory this)))%nat
    /\ animationFrames h' = S (animationFrames h)
    /\ style h' = style h
    /\ storage h' = storage h.
Proof.
  intros En Hn Hh Hs.
  destruct (monitor_returns now this h En)
    as (this' & h' & E & H & C & L & _ & _ & En' & _).
  destruct (monitor_effect now this h En) as (this2 & h2 & E2 & A & K).
  rewrite E in E2. injection E2 as <- <-.
  assert (Hb : Forall in_band (fpsHistory this')
               /\ (length (fpsHistory this')
                   <= S (length (fpsHistory this)))%nat).
  { rewrite H. cbv zeta.
    assert (Hl : Forall in_band
                   (fpsHistory this
                    ++ [JS.div (JS.Finite 1000)
                               (JS.sub (JS.Finite now)
                                       (JS.Finite (lastFrameTime this)))])).
    { apply Forall_app. split; [exact Hh|]. now repeat constructor. }
    assert (Hlen : length (fpsHistory this
                    ++ [JS.div (JS.Finite 1000)
                               (JS.sub (JS.Finite now)
                                       (JS.Finite (lastFrameTime this)))])
                   = S (length (fpsHistory this))).
    { rewrite length_app. simpl. lia. }
    destruct (maxHistoryLength this <? _)%nat;
      [|split; [exact Hl | rewrite Hlen; lia]].
    destruct (fpsHistory this ++ _) as [|x l];
      [split; [constructor | simpl; lia]|].
    simpl in *. split; [now apply Forall_cons in Hl | lia]. }
  destruct Hb as [Hb Hlen].
  destruct (mean_in_band (fpsHistory this')) as [Lt Gt]; [lia | exact Hb |].
  rewrite <- C in Lt, Gt.
  destruct (K Lt Gt) as (Q & T & S).
  exists this', h'. split_and!; auto.
Qed.

Lemma frames_in_band (ts : list Q) this h :
  monitoringEnabled this = true ->
  (Z.of_nat (length (fpsHistory this) + length ts) <= 2 ^ 47)%Z ->
  Forall in_band (fpsHistory this) ->
  Forall in_band (samples (lastFrameTime this) ts) ->
  exists this' h',
    frames ts this h = (Returned this', h')
    /\ qualityLevel this' = qualityLevel this
    /\ Forall in_band (fpsHistory this')
    /\ (length (fpsHistory this')
        <= length (fpsHistory this) + length ts)%nat
    /\ animationFrames h' = (animationFrames h + length ts)%nat
    /\ style h' = style h
    /\ storage h' = storage h.
Proof.
  revert this h. induction ts as [|t ts IH]; intros this h En Hn Hh Hs.
  - exists this, h. split_and!; auto. simpl. lia.
  - cbn [samples] in Hs. apply Forall_cons in Hs. destruct Hs as [Hs Hss].
    cbn [length] in Hn.
    destruct (monitor_in_band t this h En)
      as (this1 & h1 & E1 & Q1 & En1 & L1 & Hb1 & Len1 & A1 & T1 & S1);
      [lia | exact Hh | exact Hs |].
    rewrite <- L1 in Hss.
    destruct (IH this1 h1 En1)
      as (this2 & h2 & E2 & Q2 & Hb2 & Len2 & A2 & T2 & S2);
      [lia | exact Hb1 | exact Hss |].
    exists this2, h2. split_and!; try congruence.
    + simpl. unfold bind. rewrite E1. exact E2.
    + cbn [length]. lia.
    + rewrite A2, A1. simpl. lia.
Qed.

(** One frame of any manager whose adaptive mode is off, or whose frame
    count does not reach a multiple of 60: nothing is evaluated. *)
Lemma monitor_quiet (now : Q) this h :
  (S (frameCount this) mod 60 =? 0)%nat && adaptiveQuality this = false ->
  exists this' h',
    monitor now this h = (Returned this', h')
    /\ qualityLevel this' = qualityLevel this
    /\ adaptiveQuality this' = adaptiveQuality this
    /\ callbacks this' = callbacks this
    /\ monitoringEnabled this' = monitoringEnabled this
    /\ (frameCount this'
        = if monitoringEnabled this then S (frameCount this)
          else frameCount this)
    /\ calls h' = calls h.
Proof.
  intros Ev. destruct (monitoringEnabled this) eqn:En.
  - destruct (monitor_returns now this h En)
      as (this1 & h1 & E & _ & _ & _ & F & _ & En1 & A & C & N & U).
    rewrite Ev in N. destruct N as (new & K & Hn & _).
    apply fmap_nil_inv in Hn. subst new. rewrite app_nil_r in K.
    exists this1, h1. split_and!; auto.
  - exists this, h. unfold monitor. rewrite En. split_and!; auto.
Qed.

Lemma frames_pinned (ts : list Q) this h :
  adaptiveQuality this = false ->
  exists this' h',
    frames ts this h = (Returned this', h')
    /\ qualityLevel this' = qualityLevel this
    /\ adaptiveQuality this' = false
    /\ callbacks this' = callbacks this
    /\ calls h' = calls h.
Proof.
  revert this h. induction ts as [|t ts IH]; intros this h Ad.
  - exists this, h. auto.
  - destruct (monitor_quiet t this h)
      as (this1 & h1 & E1 & Q1 & A1 & C1 & _ & _ & K1).
    { rewrite Ad. apply andb_false_r. }
    rewrite Ad in A1.
    destruct (IH this1 h1 A1) as (this2 & h2 & E2 & Q2 & A2 & C2 & K2).
    exists this2, h2. split_and!; try congruence.
    simpl. unfold bind. rewrite E1. exact E2.
Qed.

Lemma frames_quiet (ts : list Q) this h :
  (frameCount this mod 60 + length ts < 60)%nat ->
  exists this' h',
    frames ts this h = (Returned this', h')
    /\ qualityLevel this' = qualityLevel this
    /\ callbacks this' = callbacks this
    /\ calls h' = calls h.
Proof.
  revert this h. induction ts as [|t ts IH]; intros this h Hlt.
  - exists this, h. auto.
  - cbn [length] in Hlt.
    assert (Hs : (S (frameCount this) mod 60
                  = S (frameCount this mod 60))%nat).
    { replace (S (frameCount this)) with (frameCount this + 1)%nat by lia.
      rewrite Nat.Div0.add_mod.
      change (1 mod 60)%nat with 1%nat.
      rewrite Nat.mod_small by lia. lia. }
    destruct (monitor_quiet t this h)
      as (this1 & h1 & E1 & Q1 & _ & C1 & _ & F1 & K1).
    { rewrite Hs. reflexivity. }
    destruct (IH this1 h1) as (this2 & h2 & E2 & Q2 & C2 & K2).
    { rewrite F1. destruct (monitoringEnabled this); [rewrite Hs|]; lia. }
    exists this2, h2. split_and!; try congruence.
    simpl. unfold bind. rewrite E1. exact E2.
Qed.

End Frames.

(** X17.  While adaptive mode is off the frame loop never evaluates: any
    number of frames leaves the level as it is and calls no subscriber.  So
    a tier chosen with [setQualityLevel] stays in force however the frame
    rate develops. *)
Theorem pinned_level_survives_frames (W : Type) (ts : list Q)
  (this : manager) (h : host performanceData W) :
  (adaptiveQuality this = false ->
   exists this' h',
     frames ts this h = (Returned this', h')
     /\ qualityLevel this' = qualityLevel this
     /\ adaptiveQuality this' = false
     /\ callbacks this' = callbacks this
     /\ calls h' = calls h)
  /\ (forall (nav : navigator) (level : string),
        level ∈ ["high"; "medium"; "low"] ->
        exists this1 h1 this2 h2,
          setQualityLevel nav level this h = (Returned this1, h1)
          /\ frames ts this1 h1 = (Returned this2, h2)
          /\ qualityLevel this2 = level
          /\ calls h2 = calls h1).
Proof.
  split; [apply frames_pinned|].
  intros nav level Hl.
  assert (Hl' : level ∈ ["high"; "medium"; "low"; "auto"]).
  { rewrite !elem_of_cons in *. tauto. }
  assert (Ha : String.eqb level "auto" = false).
  { rewrite !elem_of_cons in Hl.
    destruct Hl as [->|[->|[->|Hl]]]; try reflexivity.
    now apply elem_of_nil in Hl. }
  destruct (setQualityLevel_effect nav level this h Hl')
    as (h1 & s & E1 & _).
  rewrite Ha in E1.
  destruct (frames_pinned ts
              (set_adaptiveQuality false (set_qualityLevel level this)) h1
              eq_refl)
    as (this2 & h2 & E2 & Q2 & _ & _ & K2).
  eexists. exists h1, this2, h2. split; [exact E1|]. auto.
Qed.

(** The slow manager of the examples, pinned to high, stays on high over
    three frames at 50 frames per second and over three frames after "low"
    was chosen stays on low. *)
Lemma pinned_level_survives_frames_witness :
  let pinned := set_adaptiveQuality false Examples.slow_high in
  adaptiveQuality pinned = false
  /\ ("low" ∈ ["high"; "medium"; "low"])
  /\ (exists this' h',
        frames (Examples.every_20ms 3) pinned
          (Examples.counting_host performanceData) = (Returned this', h')
        /\ qualityLevel this' = "high")
  /\ (exists this1 h1 this2 h2,
        setQualityLevel Examples.bare_navigator "low" pinned
          (Examples.counting_host performanceData) = (Returned this1, h1)
        /\ frames (Examples.every_20ms 3) this1 h1 = (Returned this2, h2)
        /\ qualityLevel this2 = "low").
Proof.
  intros pinned.
  assert (H1 : adaptiveQuality pinned = false) by reflexivity.
  assert (H2 : "low" ∈ ["high"; "medium"; "low"]).
  { do 2 apply list_elem_of_further. apply list_elem_of_here. }
  split; [exact H1|]. split; [exact H2|].
  pose proof (pinned_level_survives_frames nat (Examples.every_20ms 3) pinned
                (Examples.counting_host performanceData)) as [P1 P2].
  split.
  - destruct (P1 H1) as (this' & h' & E & Q & _). exists this', h'. auto.
  - destruct (P2 Examples.bare_navigator "low" H2)
      as (this1 & h1 & this2 & h2 & E1 & E2 & Q & _).
    exists this1, h1, this2, h2. auto.
Defined.

(** X18.  The dead band of the governor.  While every sample in the buffer
    and every new sample is a finite rate from 45 to 55 frames per second,
    and the buffer and the run together have at most 2^47 samples, so that
    the sums of the averages are exact enough in doubles, the level stays as
    it is over the whole run, whatever the adaptive mode and the frame count
    are: nothing is written to the style sheet or to the storage, and each
    frame requests exactly one next frame. *)
Theorem dead_band_keeps_level (W : Type) (ts : list Q)
  (this : manager) (h : host performanceData W) :
  monitoringEnabled this = true ->
  (Z.of_nat (length (fpsHistory this) + length ts) <= 2 ^ 47)%Z ->
  Forall in_band (fpsHistory this) ->
  Forall in_band (samples (lastFrameTime this) ts) ->
  exists this' h',
    frames ts this h = (Returned this', h')
    /\ qualityLevel this' = qualityLevel this
    /\ Forall in_band (fpsHistory this')
    /\ JS.lt (mean (fpsHistory this')) (JS.Finite 45) = false
    /\ JS.gt (mean (fpsHistory this')) (JS.Finite 55) = false
    /\ animationFrames h' = (animationFrames h + length ts)%nat
    /\ style h' = style h
    /\ storage h' = storage h.
Proof.
  intros En Hn Hh Hs.
  destruct (frames_in_band ts this h En Hn Hh Hs)
    as (this' & h' & E & Q & Hb & Len & A & T & S).
  destruct (mean_in_band (fpsHistory this')) as [Lt Gt]; [lia | exact Hb |].
  exists this', h'. split_and!; auto.
Qed.

(** Sixty frames at 50 frames per second, with an evaluation at the
    sixtieth, leave the monitoring manager of the examples on medium. *)
Lemma dead_band_keeps_level_witness :
  monitoringEnabled Examples.monitoring = true
  /\ (Z.of_nat (length (fpsHistory Examples.monitoring)
                + length (Examples.every_20ms 60)) <= 2 ^ 47)%Z
  /\ Forall in_band (fpsHistory Examples.monitoring)
  /\ Forall in_band
       (samples (lastFrameTime Examples.monitoring) (Examples.every_20ms 60))
  /\ exists this' h',
       frames (Examples.every_20ms 60) Examples.monitoring
         (Examples.counting_host performanceData) = (Returned this', h')
       /\ qualityLevel this' = "medium"
       /\ animationFrames h' = 60%nat.
Proof.
  assert (H1 : monitoringEnabled Examples.monitoring = true) by reflexivity.
  assert (H0 : (Z.of_nat (length (fpsHistory Examples.monitoring)
                          + length (Examples.every_20ms 60)) <= 2 ^ 47)%Z)
    by (vm_compute; discriminate).
  assert (H2 : Forall in_band (fpsHistory Examples.monitoring))
    by constructor.
  assert (H3 : Forall in_band
                 (samples (lastFrameTime Examples.monitoring)
                          (Examples.every_20ms 60))).
  { apply Forall_forall. intros x Hx.
    assert (Hall : forallb (fun x => match x with
                                     | JS.Finite q =>
                                         Qle_bool 45 q && Qle_bool q 55
                                     | _ => false
                                     end)
                     (samples (lastFrameTime Examples.monitoring)
                              (Examples.every_20ms 60)) = true)
      by (vm_compute; reflexivity).
    rewrite forallb_forall in Hall.
    apply list_elem_of_In in Hx. specialize (Hall x Hx).
    destruct x as [| |q|]; try discriminate.
    apply andb_true_iff in Hall. destruct Hall as [Ha Hb].
    split; now apply Qle_bool_iff. }
  split; [exact H1|]. split; [exact H0|]. split; [exact H2|].
  split; [exact H3|].
  destruct (dead_band_keeps_level nat (Examples.every_20ms 60)
              Examples.monitoring (Examples.counting_host performanceData)
              H1 H0 H2 H3)
    as (this' & h' & E & Q & _ & _ & _ & A & _).
  exists this', h'. auto.
Defined.

(** X19.  Starting and stopping.  [startMonitoring] on a manager that is
    monitoring does nothing, so no second frame loop is started; on a
    stopped manager it turns monitoring on and runs one frame at once, which
    requests the next one.  A frame of a monitoring manager requests exactly
    one further frame.  After [stopMonitoring] every frame callback returns
    at once: it records nothing, calls nobody and requests no further
    frame, so the loop ends with the frame that was already requested. *)
Theorem monitoring_lifecycle (W : Type) (now : Q) (ts : list Q)
  (this : manager) (h : host performanceData W) :
  (monitoringEnabled this = true ->
   startMonitoring now this h = (Returned this, h)
   /\ exists this' h',
        monitor now this h = (Returned this', h')
        /\ monitoringEnabled this' = true
        /\ animationFrames h' = S (animationFrames h))
  /\ (monitoringEnabled this = false ->
      exists this' h',
        startMonitoring now this h = (Returned this', h')
        /\ monitoringEnabled this' = true
        /\ frameCount this' = S (frameCount this)
        /\ lastFrameTime this' = now
        /\ animationFrames h' = S (animationFrames h))
  /\ monitoringEnabled (stopMonitoring this) = false
  /\ frames ts (stopMonitoring this) h = (Returned (stopMonitoring this), h).
Proof.
  split_and!.
  - intros En. split.
    + unfold startMonitoring. now rewrite En.
    + destruct (monitor_returns now this h En)
        as (this' & h' & E & _ & _ & _ & _ & _ & En' & _).
      destruct (monitor_effect now this h En) as (this2 & h2 & E2 & A & _).
      rewrite E in E2. injection E2 as <- <-.
      exists this', h'. auto.
  - intros En. unfold startMonitoring. rewrite En.
    destruct (monitor_returns now (set_monitoringEnabled true this) h eq_refl)
      as (this' & h' & E & _ & _ & L & F & _ & En' & _).
    destruct (monitor_effect now (set_monitoringEnabled true this) h eq_refl)
      as (this2 & h2 & E2 & A & _).
    rewrite E in E2. injection E2 as <- <-.
    exists this', h'. split_and!; auto.
  - reflexivity.
  - induction ts as [|t ts IH]; [reflexivity|].
    simpl. unfold bind, monitor at 1. cbn [monitoringEnabled stopMonitoring
      set_monitoringEnabled negb]. unfold ret at 1. exact IH.
Qed.

(** The monitoring manager of the examples ignores a second start; stopped,
    it starts again with one frame. *)
Lemma monitoring_lifecycle_witness :
  monitoringEnabled Examples.monitoring = true
  /\ monitoringEnabled (stopMonitoring Examples.monitoring) = false
  /\ startMonitoring 20 Examples.monitoring
       (Examples.counting_host performanceData)
     = (Returned Examples.monitoring, Examples.counting_host performanceData)
  /\ exists this' h',
       startMonitoring 20 (stopMonitoring Examples.monitoring)
         (Examples.counting_host performanceData) = (Returned this', h')
       /\ monitoringEnabled this' = true
       /\ animationFrames h' = 1%nat.
Proof.
  assert (H1 : monitoringEnabled Examples.monitoring = true) by reflexivity.
  assert (H2 : monitoringEnabled (stopMonitoring Examples.monitoring) = false)
    by reflexivity.
  split; [exact H1|]. split; [exact H2|]. split.
  - exact (proj1 (proj1 (monitoring_lifecycle nat 20 [] Examples.monitoring
                           (Examples.counting_host performanceData)) H1)).
  - destruct (proj1 (proj2 (monitoring_lifecycle nat 20 []
                              (stopMonitoring Examples.monitoring)
                              (Examples.counting_host performanceData))) H2)
      as (this' & h' & E & En & _ & _ & A).
    exists this', h'. auto.
Defined.

(** X20.  The governor looks at the level only on every sixtieth frame:
    frames that do not take the frame count to a multiple of 60 leave the
    level as it is and call no subscriber, however low or high the rate.
    [resetStats] empties the buffer and sets the count to zero but keeps the
    average last computed; after it the next 59 frames evaluate nothing, so
    the level stays, and the buffer holds their samples alone. *)
Theorem evaluation_only_every_60th_frame (W : Type) (now : Q) (ts : list Q)
  (this : manager) (h : host performanceData W) :
  ((frameCount this mod 60 + length ts < 60)%nat ->
   exists this' h',
     frames ts this h = (Returned this', h')
     /\ qualityLevel this' = qualityLevel this
     /\ callbacks this' = callbacks this
     /\ calls h' = calls h)
  /\ fpsHistory (resetStats now this) = []
  /\ frameCount (resetStats now this) = 0%nat
  /\ currentFPS (resetStats now this) = currentFPS this
  /\ (monitoringEnabled this = true ->
      (length ts < 60)%nat ->
      exists this' h',
        frames ts (resetStats now this) h = (Returned this', h')
        /\ qualityLevel this' = qualityLevel this
        /\ calls h' = calls h
        /\ frameCount this' = length ts
        /\ fpsHistory this'
           = last_n (maxHistoryLength this) (samples now ts)).
Proof.
  split; [apply frames_quiet|].
  split; [reflexivity|]. split; [reflexivity|]. split; [reflexivity|].
  intros En Hlt.
  destruct (frames_quiet ts (resetStats now this) h)
    as (this' & h' & E & Q & _ & K).
  { cbn [frameCount resetStats set_lastFrameTime set_frameCount]. simpl. lia. }
  destruct (frames_returns ts (resetStats now this) h)
    as (this2 & h2 & E2 & H2 & _ & _ & _ & F2).
  { exact En. }
  { simpl. lia. }
  rewrite E in E2. injection E2 as <- <-.
  exists this', h'. split_and!; auto.
Qed.

(** The slow manager of the examples, at frame 1, runs three frames without
    an evaluation; reset, it holds the three samples. *)
Lemma evaluation_only_every_60th_frame_witness :
  (frameCount Examples.slow_high mod 60 + length (Examples.every_20ms 3) < 60)%nat
  /\ monitoringEnabled Examples.slow_high = true
  /\ (exists this' h',
        frames (Examples.every_20ms 3) Examples.slow_high
          (Examples.counting_host performanceData) = (Returned this', h')
        /\ qualityLevel this' = "high"
        /\ calls h' = [])
  /\ (exists this' h',
        frames (Examples.every_20ms 3) (resetStats 0 Examples.slow_high)
          (Examples.counting_host performanceData) = (Returned this', h')
        /\ frameCount this' = 3%nat
        /\ length (fpsHistory this') = 3%nat).
Proof.
  assert (H1 : (frameCount Examples.slow_high mod 60
                + length (Examples.every_20ms 3) < 60)%nat)
    by (vm_compute; lia).
  assert (H2 : monitoringEnabled Examples.slow_high = true) by reflexivity.
  assert (H3 : (length (Examples.every_20ms 3) < 60)%nat)
    by (vm_compute; lia).
  split; [exact H1|]. split; [exact H2|].
  pose proof (evaluation_only_every_60th_frame nat 0 (Examples.every_20ms 3)
                Examples.slow_high (Examples.counting_host performanceData))
    as (P1 & _ & _ & _ & P2).
  split.
  - destruct (P1 H1) as (this' & h' & E & Q & _ & K).
    exists this', h'. auto.
  - destruct (P2 H2 H3) as (this' & h' & E & _ & _ & F & H).
    exists this', h'. split_and!; auto. rewrite H. reflexivity.
Defined.

End FrameFacts.

(** ** The storage manager *)

Module StorageFacts.
Import Storage.
Local Open Scope string_scope.
Local Open Scope list_scope.

(** *** Strings *)

Lemma string_append_assoc (a b c : string) :
  String.append (String.append a b) c = String.append a (String.append b c).
Proof.
  induction a as [|x a IH]; [reflexivity|].
  change (String x (String.append (String.append a b) c)
          = String x (String.append a (String.append b c))).
  now rewrite IH.
Qed.

Lemma string_append_inj (p a b : string) :
  String.append p a = String.append p b -> a = b.
Proof.
  induction p as [|x p IH]; simpl; intros H; [exact H|].
  injection H as H. auto.
Qed.

Lemma prefix_append (p s : string) :
  String.prefix p (String.append p s) = true.
Proof.
  induction p as [|x p IH]; simpl; [now destruct s|].
  destruct (Ascii.ascii_dec x x); [exact IH | contradiction].
Qed.

(** *** Full keys *)

Lemma fullKey_inj (key1 key2 g : string) :
  fullKey key1 g = fullKey key2 g -> key1 = key2.
Proof. unfold fullKey. apply string_append_inj. Qed.

Lemma fullKey_collision (g b key : string) :
  g <> "" ->
  fullKey (String.append b (String.append "_" key)) g
  = fullKey key (String.append g (String.append "_" b)).
Proof.
  intros Hg. unfold fullKey.
  assert (E1 : String.eqb g "" = false) by now apply String.eqb_neq.
  assert (E2 : String.eqb (String.append g (String.append "_" b)) "" = false)
    by (destruct g; [contradiction | reflexivity]).
  rewrite E1, E2. rewrite !string_append_assoc. reflexivity.
Qed.

Lemma fullKey_starts_with (g key : string) :
  g <> "" ->
  String.prefix (String.append (String.append prefix g) "_") (fullKey key g)
  = true.
Proof.
  intros Hg. unfold fullKey.
  assert (E1 : String.eqb g "" = false) by now apply String.eqb_neq.
  rewrite E1. apply prefix_append.
Qed.

(** *** Removing by prefix *)

Lemma remove_starting_with_lookup (p : string) (ks : list string)
  (m : gmap string text) (k : string) :
  remove_starting_with p ks m !! k
  = if String.prefix p k && bool_decide (k ∈ ks) then None else m !! k.
Proof.
  unfold remove_starting_with. revert m.
  induction ks as [|key ks IH]; intros m; cbn [fold_left].
  - destruct (String.prefix p k); [|reflexivity]. cbn [andb].
    case_bool_decide as H; [now apply elem_of_nil in H | reflexivity].
  - rewrite IH.
    destruct (String.prefix p k) eqn:Pk; cbn [andb].
    + destruct (decide (k = key)) as [->|Ne].
      * rewrite Pk.
        rewrite (bool_decide_eq_true_2 (key ∈ key :: ks))
          by apply list_elem_of_here.
        case_bool_decide; [reflexivity|]. apply lookup_delete_eq.
      * assert (bool_decide (k ∈ key :: ks) = bool_decide (k ∈ ks)) as ->.
        { apply bool_decide_ext. rewrite elem_of_cons. intuition. }
        case_bool_decide; [reflexivity|].
        destruct (String.prefix p key); [|reflexivity].
        apply lookup_delete_ne. congruence.
    + destruct (String.prefix p key) eqn:Pkey; [|reflexivity].
      apply lookup_delete_ne. intros ->. congruence.
Qed.

Lemma elem_of_keys (st : store) (k : string) :
  k ∈ keys st <-> is_Some (entries st !! k).
Proof.
  unfold keys. rewrite list_elem_of_fmap. split.
  - intros ([k' x] & -> & H). apply elem_of_map_to_list in H. eauto.
  - intros [x H]. exists (k, x). split; [reflexivity|].
    now apply elem_of_map_to_list.
Qed.

Lemma remove_all_starting_with (p : string) (st : store) (k : string) :
  remove_starting_with p (keys st) (entries st) !! k
  = if String.prefix p k then None else entries st !! k.
Proof.
  rewrite remove_starting_with_lookup.
  destruct (String.prefix p k); [|reflexivity]. simpl.
  case_bool_decide as H; [reflexivity|].
  rewrite elem_of_keys in H.
  destruct (entries st !! k) eqn:E; [|reflexivity].
  exfalso. apply H. eauto.
Qed.

(** *** Reading *)

(** [load] leaves the entries alone, and what it answers depends on the
    entry of the full key only. *)
Lemma load_entries (key : string) (d : jsvalue) (g : string) (st : store) :
  entries (snd (load key d g st)) = entries st
  /\ writable (snd (load key d g st)) = writable st.
Proof.
  unfold load. destruct (entries st !! fullKey key g) as [[j|s]|].
  - destruct j; split; reflexivity.
  - destruct s; split; reflexivity.
  - split; reflexivity.
Qed.

Lemma load_depends_on_entry (key : string) (d : jsvalue) (g : string)
  (st1 st2 : store) :
  entries st1 !! fullKey key g = entries st2 !! fullKey key g ->
  fst (load key d g st1) = fst (load key d g st2).
Proof.
  intros H. unfold load. rewrite H.
  destruct (entries st2 !! fullKey key g) as [[j|s]|].
  - destruct j; reflexivity.
  - destruct s; reflexivity.
  - reflexivity.
Qed.

Lemma load_missing (key : string) (d : jsvalue) (g : string) (st : store) :
  entries st !! fullKey key g = None ->
  load key d g st = (default JNull d, st).
Proof. intros H. unfold load. now rewrite H. Qed.

(** X21.  What [save] stores, [load] answers: after a successful [save] of
    a value, [load] of the same key and game answers that value, whatever
    the default is and also when the value is null, false, zero or the empty
    string; it writes nothing to the console.  The other keys of the game
    answer what they answered before.  A saved [undefined] is not stored as
    a value: [load] answers the default. *)
Theorem save_then_load (now : Q) (key g : string) (v : json) (d : jsvalue)
  (st : store) :
  writable st = true ->
  (exists st',
      save now key (Some v) g st = (true, st')
      /\ load key d g st' = (v, st')
      /\ console st' = console st
      /\ (forall k, k <> fullKey key g -> entries st' !! k = entries st !! k)
      /\ (forall key', key' <> key ->
            fst (load key' d g st') = fst (load key' d g st)))
  /\ (exists st',
        save now key None g st = (true, st')
        /\ load key d g st' = (default JNull d, st')).
Proof.
  intros Hw. split.
  - eexists. split; [unfold save; rewrite Hw; reflexivity|].
    split_and!.
    + unfold load. cbn [entries set_entries]. rewrite lookup_insert_eq.
      reflexivity.
    + reflexivity.
    + intros k Hk. cbn [entries set_entries].
      now rewrite lookup_insert_ne by congruence.
    + intros key' Hk. apply load_depends_on_entry.
      cbn [entries set_entries]. rewrite lookup_insert_ne; [reflexivity|].
      intros E. apply fullKey_inj in E. congruence.
  - eexists. split; [unfold save; rewrite Hw; reflexivity|].
    unfold load. cbn [entries set_entries]. rewrite lookup_insert_eq.
    reflexivity.
Qed.

(** A level is saved under the settings and read back. *)
Lemma save_then_load_witness :
  writable Examples.empty_store = true
  /\ exists st',
       save 0 "qualityLevel" (Some (JString "low")) "" Examples.empty_store
       = (true, st')
       /\ load "qualityLevel" (Some (JString "auto")) "" st'
          = (JString "low", st').
Proof.
  split; [reflexivity|].
  destruct (proj1 (save_then_load 0 "qualityLevel" "" (JString "low")
                     (Some (JString "auto")) Examples.empty_store eq_refl))
    as (st' & E & L & _).
  exists st'. auto.
Defined.

(** X22.  The names of games do not separate their data.  A game name that
    is left out or empty is the name "common".  The key [b_key] of game [g]
    is the key [key] of game [g_b]: what one saves the other loads, and
    [clearGameData g] removes the data of game [g_b] together with that of
    [g].  Entries whose full key does not start with the prefix of [g] are
    kept; in particular [clearGameData] with the empty name removes no
    setting, although the settings are saved under the empty name. *)
Theorem game_namespaces_overlap (now : Q) (g b key : string) (v : json)
  (d : jsvalue) (st : store) :
  fullKey key "" = fullKey key "common"
  /\ (g <> "" ->
      fullKey (String.append b (String.append "_" key)) g
      = fullKey key (String.append g (String.append "_" b))
      /\ (writable st = true ->
          fst (load key d (String.append g (String.append "_" b))
                 (snd (save now (String.append b (String.append "_" key))
                            (Some v) g st)))
          = v)
      /\ entries (snd (clearGameData g st)) !! fullKey key g = None
      /\ entries (snd (clearGameData g st))
           !! fullKey key (String.append g (String.append "_" b)) = None)
  /\ (forall k,
        String.prefix (String.append (String.append prefix g) "_") k = false ->
        entries (snd (clearGameData g st)) !! k = entries st !! k)
  /\ entries (snd (clearGameData "" st)) !! fullKey key ""
     = entries st !! fullKey key "".
Proof.
  split; [reflexivity|]. split; [|split].
  - intros Hg. pose proof (fullKey_collision g b key Hg) as C.
    split; [exact C|]. split; [|split].
    + intros Hw. unfold save, load. rewrite Hw.
      cbn [snd entries set_entries]. rewrite <- C, lookup_insert_eq.
      reflexivity.
    + unfold clearGameData. cbn [snd entries set_entries].
      rewrite remove_all_starting_with.
      now rewrite fullKey_starts_with by exact Hg.
    + unfold clearGameData. cbn [snd entries set_entries].
      rewrite remove_all_starting_with, <- C.
      now rewrite fullKey_starts_with by exact Hg.
  - intros k Hk. unfold clearGameData. cbn [snd entries set_entries].
    now rewrite remove_all_starting_with, Hk.
  - unfold clearGameData. cbn [snd entries set_entries].
    rewrite remove_all_starting_with. reflexivity.
Qed.

(** The key [stat_hits] of the game "snake" is the key [hits] of a game
    named "snake_stat". *)
Lemma game_namespaces_overlap_witness :
  "snake" <> ""
  /\ writable Examples.empty_store = true
  /\ fullKey "stat_hits" "snake" = fullKey "hits" "snake_stat"
  /\ fst (load "hits" None "snake_stat"
            (snd (save 0 "stat_hits" (Some (JNumber 3)) "snake"
                       Examples.empty_store)))
     = JNumber 3.
Proof.
  assert (H1 : "snake" <> "") by discriminate.
  assert (H2 : writable Examples.empty_store = true) by reflexivity.
  split; [exact H1|]. split; [exact H2|].
  destruct (proj1 (proj2 (game_namespaces_overlap 0 "snake" "stat" "hits"
                            (JNumber 3) None Examples.empty_store)) H1)
    as (C & L & _).
  split; [exact C | exact (L H2)].
Defined.

Lemma hasGameState_fst (g : string) (st : store) :
  fst (hasGameState g st)
  = match fst (getGameState g st) with JNull => false | _ => true end.
Proof. unfold hasGameState. now destruct (getGameState g st). Qed.

(** X23.  [hasGameState] after [saveGameState]: a saved state is found,
    unless it is null or [undefined]; these two read as no state at all.
    When the write fails, [saveGameState] answers false and [hasGameState]
    answers what it answered before. *)
Theorem saved_state_is_found (now : Q) (g : string) (state : jsvalue)
  (st : store) :
  (writable st = true ->
   fst (saveGameState now g state st) = true
   /\ fst (hasGameState g (snd (saveGameState now g state st)))
      = match state with
        | Some JNull | None => false
        | Some _ => true
        end)
  /\ (writable st = false ->
      fst (saveGameState now g state st) = false
      /\ fst (hasGameState g (snd (saveGameState now g state st)))
         = fst (hasGameState g st)).
Proof.
  split; intros Hw; unfold saveGameState, save; rewrite Hw;
    (split; [reflexivity|]); rewrite !hasGameState_fst; unfold getGameState.
  - unfold load. cbn [snd entries set_entries]. rewrite lookup_insert_eq.
    destruct state as [[]|]; reflexivity.
  - cbn [snd]. now rewrite (load_depends_on_entry _ _ _ (warn _ st) st).
Qed.

(** A saved level number is found; a saved null is not. *)
Lemma saved_state_is_found_witness :
  writable Examples.empty_store = true
  /\ fst (hasGameState "snake"
            (snd (saveGameState 0 "snake" (Some (JNumber 3))
                    Examples.empty_store))) = true
  /\ fst (hasGameState "snake"
            (snd (saveGameState 0 "snake" (Some JNull)
                    Examples.empty_store))) = false.
Proof.
  assert (H : writable Examples.empty_store = true) by reflexivity.
  split; [exact H|]. split.
  - exact (proj2 (proj1 (saved_state_is_found 0 "snake" (Some (JNumber 3))
                           Examples.empty_store) H)).
  - exact (proj2 (proj1 (saved_state_is_found 0 "snake" (Some JNull)
                           Examples.empty_store) H)).
Defined.

(** *** Settings *)

Lemma remove_keys_effect (ks : list string) (st : store) :
  let st' := fold_left (fun st key => snd (remove key "" st)) ks st in
  (forall k,
      entries st' !! k
      = if bool_decide (k ∈ (fun key => fullKey key "") <$> ks)
        then None else entries st !! k)
  /\ console st' = console st
  /\ writable st' = writable st.
Proof.
  revert st. induction ks as [|key ks IH]; intros st; cbn [fold_left].
  - split_and!; auto.
  - destruct (IH (snd (remove key "" st))) as (L & C & Wr).
    cbv zeta. split_and!; auto.
    intros k. rewrite L. cbn [fmap list_fmap].
    cbn [remove snd entries set_entries].
    destruct (decide (k = fullKey key "")) as [->|Ne].
    + rewrite (bool_decide_eq_true_2 (_ ∈ _ :: _)) by apply list_elem_of_here.
      case_bool_decide; [reflexivity | apply lookup_delete_eq].
    + rewrite lookup_delete_ne by congruence.
      apply (f_equal (fun b : bool => if b then None else entries st !! k)).
      apply bool_decide_ext. rewrite elem_of_cons. intuition.
Qed.

Lemma getSetting_load (key : string) (d : jsvalue) (st : store) :
  getSetting key d st = load key (Some (default JNull d)) "" st.
Proof. reflexivity. Qed.

Lemma getAllSettings_unset (st : store) :
  (forall key, key ∈ fst <$> defaultSettings ->
     entries st !! fullKey key "" = None) ->
  getAllSettings st = (defaultSettings, st).
Proof.
  intros H. unfold getAllSettings.
  assert (G : forall (ks : list string) (settings : list (string * json)),
             (forall key, key ∈ ks -> entries st !! fullKey key "" = None) ->
             fold_left
               (fun '(settings, st) key =>
                  let (value, st) := getSetting key None st in
                  (match value with
                   | JNull => settings
                   | _ => (fun kv : string * json =>
                             if String.eqb (fst kv) key
                             then (fst kv, value) else kv) <$> settings
                   end, st)) ks (settings, st)
             = (settings, st)).
  { induction ks as [|key ks IH]; intros settings Hks; [reflexivity|].
    cbn [fold_left]. rewrite getSetting_load, load_missing.
    - apply IH. intros key' Hin. apply Hks. now right.
    - apply Hks. left. }
  now apply G.
Qed.

(** X24.  Built-in defaults.  [getSetting] answers what [load] answers with
    the default it was given, or with null when none was given: for a
    setting that is not stored it never answers the built-in default.
    [resetSettings] removes the five stored settings and nothing else, and
    writes nothing to the console; after it [getAllSettings] answers the
    built-in defaults while [getSetting] answers null for each of them. *)
Theorem reset_restores_defaults (st : store) (key : string) :
  getAllSettings (resetSettings st) = (defaultSettings, resetSettings st)
  /\ console (resetSettings st) = console st
  /\ (forall d, getSetting key d st = load key (Some (default JNull d)) "" st)
  /\ (key ∈ fst <$> defaultSettings ->
      entries (resetSettings st) !! fullKey key "" = None
      /\ fst (getSetting key None (resetSettings st)) = JNull
      /\ exists v, property key defaultSettings = Some v /\ v <> JNull)
  /\ (forall k,
        k ∉ (fun key => fullKey key "") <$> (fst <$> defaultSettings) ->
        entries (resetSettings st) !! k = entries st !! k).
Proof.
  destruct (remove_keys_effect (fst <$> defaultSettings) st) as (L & C & _).
  fold (resetSettings st) in L, C.
  assert (Gone : forall key', key' ∈ fst <$> defaultSettings ->
                   entries (resetSettings st) !! fullKey key' "" = None).
  { intros key' Hin. rewrite L. rewrite bool_decide_eq_true_2; [reflexivity|].
    apply list_elem_of_fmap. eauto. }
  split_and!.
  - now apply getAllSettings_unset.
  - exact C.
  - intros d. reflexivity.
  - intros Hin. split; [now apply Gone|]. split.
    + rewrite getSetting_load, load_missing by now apply Gone. reflexivity.
    + cbn in Hin. rewrite !elem_of_cons in Hin.
      destruct Hin as [->|[->|[->|[->|[->|Hin]]]]];
        try (eexists; split; [reflexivity | discriminate]).
      now apply elem_of_nil in Hin.
  - intros k Hk. rewrite L. now rewrite bool_decide_eq_false_2.
Qed.

(** After a reset the volume is unset: [getSetting] answers null, not
    0.4. *)
Lemma reset_restores_defaults_witness :
  ("masterVolume" ∈ fst <$> defaultSettings)
  /\ fst (getSetting "masterVolume" None
            (resetSettings Examples.empty_store)) = JNull
  /\ property "masterVolume" defaultSettings = Some (JNumber (4 # 10)).
Proof.
  assert (H : "masterVolume" ∈ fst <$> defaultSettings)
    by apply list_elem_of_here.
  split; [exact H|].
  destruct (reset_restores_defaults Examples.empty_store "masterVolume")
    as (_ & _ & _ & P & _).
  destruct (P H) as (_ & G & _).
  split; [exact G | reflexivity].
Defined.

End StorageFacts.

(** ** The settings of the host and the storage manager *)

Module SettingsFacts.
Local Open Scope string_scope.
Local Open Scope list_scope.



End SettingsFacts.

(** ** The statistics of the performance manager *)

Module StatsFacts.
Import Host Performance Spec PerformanceFacts.
Local Open Scope string_scope.
Local Open Scope list_scope.

(** X26.  After every frame of a monitoring manager the two frame rates of
    the statistics agree: the average FPS is the rounded mean of the buffer,
    which is what [getCurrentFPS] answers, and the frame count is one
    higher.  They stay equal while [currentFPS] is the mean of the buffer,
    which [resetStats] ends: it empties the buffer and keeps
    [currentFPS]. *)
Theorem statistics_agree_after_a_frame (W : Type) (now : Q)
  (this : manager) (h : host performanceData W) :
  (currentFPS this = mean (fpsHistory this) ->
   averageFPS (getPerformanceStats this) = getCurrentFPS this)
  /\ (monitoringEnabled this = true ->
      exists this' h',
        monitor now this h = (Returned this', h')
        /\ averageFPS (getPerformanceStats this') = getCurrentFPS this'
        /\ stats_currentFPS (getPerformanceStats this') = getCurrentFPS this'
        /\ stats_frameCount (getPerformanceStats this') = S (frameCount this)
        /\ stats_qualityLevel (getPerformanceStats this')
           = getQualityLevel this')
  /\ getCurrentFPS (resetStats now this) = getCurrentFPS this
  /\ averageFPS (getPerformanceStats (resetStats now this)) = JS.NaN.
Proof.
  assert (G : forall this0 : manager,
             currentFPS this0 = mean (fpsHistory this0) ->
             averageFPS (getPerformanceStats this0) = getCurrentFPS this0).
  { intros this0 C. unfold getCurrentFPS. rewrite C. reflexivity. }
  split; [apply G|]. split; [|split; reflexivity].
  intros En.
  destruct (monitor_returns now this h En)
    as (this' & h' & E & _ & C & _ & F & _).
  exists this', h'. split; [exact E|]. split; [now apply G|].
  split; [reflexivity|]. split; [exact F | reflexivity].
Qed.

(** One frame of the monitoring manager of the examples. *)
Lemma statistics_agree_after_a_frame_witness :
  monitoringEnabled Examples.monitoring = true
  /\ exists this' h',
       monitor 20 Examples.monitoring (Examples.counting_host performanceData)
       = (Returned this', h')
       /\ averageFPS (getPerformanceStats this') = getCurrentFPS this'.
Proof.
  assert (H : monitoringEnabled Examples.monitoring = true) by reflexivity.
  split; [exact H|].
  destruct (proj1 (proj2 (statistics_agree_after_a_frame nat 20
                            Examples.monitoring
                            (Examples.counting_host performanceData))) H)
    as (this' & h' & E & A & _).
  exists this', h'. auto.
Defined.

End StatsFacts.
